(** * IoT middleware V5: protocol adapters and the device-shadow normalizer

    A shallow embedding of
      - [V5008Parser]  (binary adapter, parsers/V5008Parser.js),
      - [V6800Parser]  (JSON adapter, parsers/V6800Parser.js, RFID part),
      - [StateCache]   (normalizer/cache/StateCache.js),
      - [UnifyNormalizer] (normalizer/UnifyNormalizer.js),
    followed by the properties of the specification that concern them.

    Conventions of the embedding.
      - A Node [Buffer] is a [list byte]; offsets are [Z] because the source
        computes them with subtraction ([buffer.length - 4] may be negative).
      - A JavaScript exception is the [Throw] constructor of [exn]; a
        rejected promise is [Throw] as the outcome of an async function.
      - A field that may be missing from an object is an [option]; a leaf
        that may also hold [null] is a [jsopt].
      - A JavaScript [Map] is an association list without duplicate keys in
        insertion order, which is the order [entries()] iterates in.
      - JavaScript numbers are doubles; integers are modelled by [Z] and the
        decoded decimals by exact rationals [Q]. *)

From Stdlib Require Import ZArith QArith Strings.Byte String Ascii List Lia.
From stdpp Require Import base option list strings pretty gmap.

Local Open Scope string_scope.
Local Open Scope list_scope.
Local Open Scope Z_scope.

(* ===================================================================== *)
(** ** JavaScript runtime primitives used by the source                   *)
(* ===================================================================== *)

Module JS.

Inductive js_error := RangeError | TypeError.

(** Outcome of a computation that may raise. *)
Inductive exn (A : Type) : Type :=
| Ok (a : A)
| Throw (e : js_error).
Arguments Ok {A} a.
Arguments Throw {A} e.

Definition bind {A B} (m : exn A) (k : A -> exn B) : exn B :=
  match m with
  | Ok a => k a
  | Throw e => Throw e
  end.

(** A leaf value that may be [undefined], [null] or a proper value. *)
Inductive jsopt (A : Type) : Type :=
| JUndef
| JNull
| JVal (a : A).
Arguments JUndef {A}.
Arguments JNull {A}.
Arguments JVal {A} a.

(** [x === null] *)
Definition is_null {A} (x : jsopt A) : bool :=
  match x with JNull => true | _ => false end.

(** [x !== undefined] *)
Definition is_defined {A} (x : jsopt A) : bool :=
  match x with JUndef => false | _ => true end.

(** ** 32-bit integer operators *)

(** [ToInt32]: the signed 32-bit value every bitwise operator works on. *)
Definition ToInt32 (z : Z) : Z := (z + 2 ^ 31) mod 2 ^ 32 - 2 ^ 31.

(** [a << k] *)
Definition shl (a k : Z) : Z := ToInt32 (Z.shiftl (ToInt32 a) k).

(** [a | b] *)
Definition bor (a b : Z) : Z := Z.lor (ToInt32 a) (ToInt32 b).

(** ** Buffers *)

Definition Buffer := list byte.

Definition byte_val (b : byte) : Z := Z.of_N (Byte.to_N b).

Definition buf_length (b : Buffer) : Z := Z.of_nat (length b).

(** [buffer.readUInt8(offset)]: a [RangeError] outside [0 .. length-1]. *)
Definition readUInt8 (b : Buffer) (offset : Z) : exn Z :=
  if (0 <=? offset) && (offset <? buf_length b) then
    match nth_error b (Z.to_nat offset) with
    | Some x => Ok (byte_val x)
    | None => Throw RangeError
    end
  else Throw RangeError.

(** [buffer.readInt8(offset)]: the same byte in two's complement. *)
Definition readInt8 (b : Buffer) (offset : Z) : exn Z :=
  bind (readUInt8 b offset) (fun v => Ok (if v <? 128 then v else v - 256)).

(** Index normalisation of [subarray]: negative indices count from the
    end, and everything is clamped to [0 .. length]. *)
Definition rel_index (len i : Z) : Z :=
  if i <? 0 then Z.max (len + i) 0 else Z.min i len.

(** [buffer.subarray(start, end)] *)
Definition subarray (b : Buffer) (start stop : Z) : Buffer :=
  let len := buf_length b in
  let s := rel_index len start in
  let e := rel_index len stop in
  firstn (Z.to_nat (e - s)) (skipn (Z.to_nat s) b).

(** [buffer.subarray(start)] *)
Definition subarray_from (b : Buffer) (start : Z) : Buffer :=
  subarray b start (buf_length b).

(** ** Text *)

Definition hex_digit (n : Z) : ascii :=
  match String.get (Z.to_nat n) "0123456789abcdef" with
  | Some c => c
  | None => "0"%char
  end.

(** Two hexadecimal digits of one byte value. *)
Definition hex2 (v : Z) : string :=
  String (hex_digit (v / 16)) (String (hex_digit (v mod 16)) EmptyString).

(** [buffer.toString('hex')] *)
Definition toHex (b : Buffer) : string :=
  String.concat "" (map (fun x => hex2 (byte_val x)) b).

(** [n.toString(16).padStart(2, '0')] for a byte value [n]. *)
Definition toHex2Lower (v : Z) : string := hex2 v.

Definition upper_char (c : ascii) : ascii :=
  let n := N_of_ascii c in
  if ((97 <=? n) && (n <=? 122))%N then ascii_of_N (n - 32) else c.

(** [s.toUpperCase()] on ASCII text. *)
Fixpoint toUpperCase (s : string) : string :=
  match s with
  | EmptyString => EmptyString
  | String c r => String (upper_char c) (toUpperCase r)
  end.

(** [buffer.toString('hex').toUpperCase()] *)
Definition toHexUpper (b : Buffer) : string := toUpperCase (toHex b).

(** [buffer.toString('ascii')]: the high bit of every byte is dropped. *)
Definition toAscii (b : Buffer) : string :=
  string_of_list_ascii
    (map (fun x => ascii_of_N (Z.to_N (byte_val x mod 128))) b).

(** [n.toString()] for an integer-valued number below 1e21. *)
Definition num_toString (z : Z) : string := pretty z.

(** [s.split(sep)] for a one-character separator. *)
Fixpoint split (sep : ascii) (s : string) : list string :=
  match s with
  | EmptyString => [EmptyString]
  | String c r =>
      if Ascii.eqb c sep then EmptyString :: split sep r
      else match split sep r with
           | h :: t => String c h :: t
           | [] => [String c EmptyString]
           end
  end.

(** [s.startsWith(p)] *)
Definition startsWith (p s : string) : bool := String.prefix p s.

(** [list.join(sep)] *)
Definition join (sep : string) (l : list string) : string := String.concat sep l.

End JS.

Import JS.

(** The sequencing of raising computations, with stdpp's [x ← m; k]. *)
#[global] Instance exn_bind : MBind exn := fun A B k m => JS.bind m k.
#[global] Instance exn_ret : MRet exn := fun A a => Ok a.

(* ===================================================================== *)
(** ** Data model: the Standard Intermediate Format and unified events    *)
(* ===================================================================== *)

Module SIF.

(** One RFID tag record of an intermediate message. The binary adapter
    leaves [action] undefined; the JSON adapter fills it. *)
Record TagItem := {
  uPos : Z;
  alarmStatus : Z;
  tagId : jsopt string;
  action : jsopt string
}.

(** One sensor object. [sensorAddr] is its address; [props] are its other
    own properties in creation order, [None] standing for [null]. *)
Record Sensor := {
  sensorAddr : Z;
  props : list (string * option Q)
}.

Fixpoint prop_get (k : string) (ps : list (string * option Q)) : jsopt Q :=
  match ps with
  | [] => JUndef
  | (k', v) :: rest =>
      if String.eqb k k' then match v with Some q => JVal q | None => JNull end
      else prop_get k rest
  end.

(** [sensor[k]] *)
Definition sensor_get (s : Sensor) (k : string) : jsopt Q :=
  if String.eqb k "sensorAddr" then JVal (inject_Z (sensorAddr s))
  else prop_get k (props s).

Record Meta := {
  voltage : option Q;
  current : option Q;
  mainPower : option bool;
  backupPower : option bool
}.

Record ModuleRec := {
  m_modAddr : option Z;
  m_modId : option string;
  m_uTotal : option Z;
  m_fwVer : option string
}.

Record Device := {
  d_ip : option string;
  d_mac : option string
}.

(** One module sub-block of a V6800 message ([parsedData.data[i]]). *)
Record ModuleBlock := {
  b_modAddr : option Z;
  b_modId : option string;
  b_items : option (list TagItem)
}.

(** The intermediate message: a JavaScript object, every property of which
    may be missing. Its lists hold records, as the lists the two adapters
    build do: a list with a [null] or non-object element is outside the
    embedding. *)
Record IM := mkIM {
  topic : option string;
  message : option string;
  deviceType : option string;
  deviceId : option string;
  messageType : option string;
  ts : option string;
  rawMessageType : option string;
  messageId : option string;
  modAddr : option Z;
  modId : option string;
  uTotal : option Z;
  onlineCount : option Z;
  items : option (list TagItem);
  sensors : option (list Sensor);
  modules : option (list ModuleRec);
  meta : option Meta;
  doorState : option string;
  result : option string;
  originalReq : option string;
  colorMap : option (list Z);
  model : option string;
  fwVer : option string;
  ip : option string;
  mask : option string;
  gatewayIp : option string;
  mac : option string;
  data : option (list ModuleBlock);
  device : option Device
}.

(** [result.messageId = v] *)
Definition set_messageId (v : string) (r : IM) : IM :=
  {| topic := topic r; message := message r; deviceType := deviceType r;
     deviceId := deviceId r; messageType := messageType r; ts := ts r;
     rawMessageType := rawMessageType r; messageId := Some v;
     modAddr := modAddr r; modId := modId r; uTotal := uTotal r;
     onlineCount := onlineCount r; items := items r; sensors := sensors r;
     modules := modules r; meta := meta r; doorState := doorState r;
     result := result r; originalReq := originalReq r;
     colorMap := colorMap r; model := model r; fwVer := fwVer r;
     ip := ip r; mask := mask r; gatewayIp := gatewayIp r; mac := mac r;
     data := data r; device := device r |}.

(** [result.modAddr = v] *)
Definition set_modAddr (v : Z) (r : IM) : IM :=
  {| topic := topic r; message := message r; deviceType := deviceType r;
     deviceId := deviceId r; messageType := messageType r; ts := ts r;
     rawMessageType := rawMessageType r; messageId := messageId r;
     modAddr := Some v; modId := modId r; uTotal := uTotal r;
     onlineCount := onlineCount r; items := items r; sensors := sensors r;
     modules := modules r; meta := meta r; doorState := doorState r;
     result := result r; originalReq := originalReq r;
     colorMap := colorMap r; model := model r; fwVer := fwVer r;
     ip := ip r; mask := mask r; gatewayIp := gatewayIp r; mac := mac r;
     data := data r; device := device r |}.

(** [result.modId = v] *)
Definition set_modId (v : string) (r : IM) : IM :=
  {| topic := topic r; message := message r; deviceType := deviceType r;
     deviceId := deviceId r; messageType := messageType r; ts := ts r;
     rawMessageType := rawMessageType r; messageId := messageId r;
     modAddr := modAddr r; modId := Some v; uTotal := uTotal r;
     onlineCount := onlineCount r; items := items r; sensors := sensors r;
     modules := modules r; meta := meta r; doorState := doorState r;
     result := result r; originalReq := originalReq r;
     colorMap := colorMap r; model := model r; fwVer := fwVer r;
     ip := ip r; mask := mask r; gatewayIp := gatewayIp r; mac := mac r;
     data := data r; device := device r |}.

(** [result.uTotal = v] *)
Definition set_uTotal (v : Z) (r : IM) : IM :=
  {| topic := topic r; message := message r; deviceType := deviceType r;
     deviceId := deviceId r; messageType := messageType r; ts := ts r;
     rawMessageType := rawMessageType r; messageId := messageId r;
     modAddr := modAddr r; modId := modId r; uTotal := Some v;
     onlineCount := onlineCount r; items := items r; sensors := sensors r;
     modules := modules r; meta := meta r; doorState := doorState r;
     result := result r; originalReq := originalReq r;
     colorMap := colorMap r; model := model r; fwVer := fwVer r;
     ip := ip r; mask := mask r; gatewayIp := gatewayIp r; mac := mac r;
     data := data r; device := device r |}.

(** [result.onlineCount = v] *)
Definition set_onlineCount (v : Z) (r : IM) : IM :=
  {| topic := topic r; message := message r; deviceType := deviceType r;
     deviceId := deviceId r; messageType := messageType r; ts := ts r;
     rawMessageType := rawMessageType r; messageId := messageId r;
     modAddr := modAddr r; modId := modId r; uTotal := uTotal r;
     onlineCount := Some v; items := items r; sensors := sensors r;
     modules := modules r; meta := meta r; doorState := doorState r;
     result := result r; originalReq := originalReq r;
     colorMap := colorMap r; model := model r; fwVer := fwVer r;
     ip := ip r; mask := mask r; gatewayIp := gatewayIp r; mac := mac r;
     data := data r; device := device r |}.

(** [result.items = v] *)
Definition set_items (v : (list TagItem)) (r : IM) : IM :=
  {| topic := topic r; message := message r; deviceType := deviceType r;
     deviceId := deviceId r; messageType := messageType r; ts := ts r;
     rawMessageType := rawMessageType r; messageId := messageId r;
     modAddr := modAddr r; modId := modId r; uTotal := uTotal r;
     onlineCount := onlineCount r; items := Some v; sensors := sensors r;
     modules := modules r; meta := meta r; doorState := doorState r;
     result := result r; originalReq := originalReq r;
     colorMap := colorMap r; model := model r; fwVer := fwVer r;
     ip := ip r; mask := mask r; gatewayIp := gatewayIp r; mac := mac r;
     data := data r; device := device r |}.

(** [result.sensors = v] *)
Definition set_sensors (v : (list Sensor)) (r : IM) : IM :=
  {| topic := topic r; message := message r; deviceType := deviceType r;
     deviceId := deviceId r; messageType := messageType r; ts := ts r;
     rawMessageType := rawMessageType r; messageId := messageId r;
     modAddr := modAddr r; modId := modId r; uTotal := uTotal r;
     onlineCount := onlineCount r; items := items r; sensors := Some v;
     modules := modules r; meta := meta r; doorState := doorState r;
     result := result r; originalReq := originalReq r;
     colorMap := colorMap r; model := model r; fwVer := fwVer r;
     ip := ip r; mask := mask r; gatewayIp := gatewayIp r; mac := mac r;
     data := data r; device := device r |}.

(** [result.modules = v] *)
Definition set_modules (v : (list ModuleRec)) (r : IM) : IM :=
  {| topic := topic r; message := message r; deviceType := deviceType r;
     deviceId := deviceId r; messageType := messageType r; ts := ts r;
     rawMessageType := rawMessageType r; messageId := messageId r;
     modAddr := modAddr r; modId := modId r; uTotal := uTotal r;
     onlineCount := onlineCount r; items := items r; sensors := sensors r;
     modules := Some v; meta := meta r; doorState := doorState r;
     result := result r; originalReq := originalReq r;
     colorMap := colorMap r; model := model r; fwVer := fwVer r;
     ip := ip r; mask := mask r; gatewayIp := gatewayIp r; mac := mac r;
     data := data r; device := device r |}.

(** [result.meta = v] *)
Definition set_meta (v : Meta) (r : IM) : IM :=
  {| topic := topic r; message := message r; deviceType := deviceType r;
     deviceId := deviceId r; messageType := messageType r; ts := ts r;
     rawMessageType := rawMessageType r; messageId := messageId r;
     modAddr := modAddr r; modId := modId r; uTotal := uTotal r;
     onlineCount := onlineCount r; items := items r; sensors := sensors r;
     modules := modules r; meta := Some v; doorState := doorState r;
     result := result r; originalReq := originalReq r;
     colorMap := colorMap r; model := model r; fwVer := fwVer r;
     ip := ip r; mask := mask r; gatewayIp := gatewayIp r; mac := mac r;
     data := data r; device := device r |}.

(** [result.doorState = v] *)
Definition set_doorState (v : string) (r : IM) : IM :=
  {| topic := topic r; message := message r; deviceType := deviceType r;
     deviceId := deviceId r; messageType := messageType r; ts := ts r;
     rawMessageType := rawMessageType r; messageId := messageId r;
     modAddr := modAddr r; modId := modId r; uTotal := uTotal r;
     onlineCount := onlineCount r; items := items r; sensors := sensors r;
     modules := modules r; meta := meta r; doorState := Some v;
     result := result r; originalReq := originalReq r;
     colorMap := colorMap r; model := model r; fwVer := fwVer r;
     ip := ip r; mask := mask r; gatewayIp := gatewayIp r; mac := mac r;
     data := data r; device := device r |}.

(** [result.result = v] *)
Definition set_result (v : string) (r : IM) : IM :=
  {| topic := topic r; message := message r; deviceType := deviceType r;
     deviceId := deviceId r; messageType := messageType r; ts := ts r;
     rawMessageType := rawMessageType r; messageId := messageId r;
     modAddr := modAddr r; modId := modId r; uTotal := uTotal r;
     onlineCount := onlineCount r; items := items r; sensors := sensors r;
     modules := modules r; meta := meta r; doorState := doorState r;
     result := Some v; originalReq := originalReq r;
     colorMap := colorMap r; model := model r; fwVer := fwVer r;
     ip := ip r; mask := mask r; gatewayIp := gatewayIp r; mac := mac r;
     data := data r; device := device r |}.

(** [result.originalReq = v] *)
Definition set_originalReq (v : string) (r : IM) : IM :=
  {| topic := topic r; message := message r; deviceType := deviceType r;
     deviceId := deviceId r; messageType := messageType r; ts := ts r;
     rawMessageType := rawMessageType r; messageId := messageId r;
     modAddr := modAddr r; modId := modId r; uTotal := uTotal r;
     onlineCount := onlineCount r; items := items r; sensors := sensors r;
     modules := modules r; meta := meta r; doorState := doorState r;
     result := result r; originalReq := Some v; colorMap := colorMap r;
     model := model r; fwVer := fwVer r; ip := ip r; mask := mask r;
     gatewayIp := gatewayIp r; mac := mac r; data := data r;
     device := device r |}.

(** [result.colorMap = v] *)
Definition set_colorMap (v : (list Z)) (r : IM) : IM :=
  {| topic := topic r; message := message r; deviceType := deviceType r;
     deviceId := deviceId r; messageType := messageType r; ts := ts r;
     rawMessageType := rawMessageType r; messageId := messageId r;
     modAddr := modAddr r; modId := modId r; uTotal := uTotal r;
     onlineCount := onlineCount r; items := items r; sensors := sensors r;
     modules := modules r; meta := meta r; doorState := doorState r;
     result := result r; originalReq := originalReq r; colorMap := Some v;
     model := model r; fwVer := fwVer r; ip := ip r; mask := mask r;
     gatewayIp := gatewayIp r; mac := mac r; data := data r;
     device := device r |}.

(** [result.model = v] *)
Definition set_model (v : string) (r : IM) : IM :=
  {| topic := topic r; message := message r; deviceType := deviceType r;
     deviceId := deviceId r; messageType := messageType r; ts := ts r;
     rawMessageType := rawMessageType r; messageId := messageId r;
     modAddr := modAddr r; modId := modId r; uTotal := uTotal r;
     onlineCount := onlineCount r; items := items r; sensors := sensors r;
     modules := modules r; meta := meta r; doorState := doorState r;
     result := result r; originalReq := originalReq r;
     colorMap := colorMap r; model := Some v; fwVer := fwVer r; ip := ip r;
     mask := mask r; gatewayIp := gatewayIp r; mac := mac r;
     data := data r; device := device r |}.

(** [result.fwVer = v] *)
Definition set_fwVer (v : string) (r : IM) : IM :=
  {| topic := topic r; message := message r; deviceType := deviceType r;
     deviceId := deviceId r; messageType := messageType r; ts := ts r;
     rawMessageType := rawMessageType r; messageId := messageId r;
     modAddr := modAddr r; modId := modId r; uTotal := uTotal r;
     onlineCount := onlineCount r; items := items r; sensors := sensors r;
     modules := modules r; meta := meta r; doorState := doorState r;
     result := result r; originalReq := originalReq r;
     colorMap := colorMap r; model := model r; fwVer := Some v; ip := ip r;
     mask := mask r; gatewayIp := gatewayIp r; mac := mac r;
     data := data r; device := device r |}.

(** [result.ip = v] *)
Definition set_ip (v : string) (r : IM) : IM :=
  {| topic := topic r; message := message r; deviceType := deviceType r;
     deviceId := deviceId r; messageType := messageType r; ts := ts r;
     rawMessageType := rawMessageType r; messageId := messageId r;
     modAddr := modAddr r; modId := modId r; uTotal := uTotal r;
     onlineCount := onlineCount r; items := items r; sensors := sensors r;
     modules := modules r; meta := meta r; doorState := doorState r;
     result := result r; originalReq := originalReq r;
     colorMap := colorMap r; model := model r; fwVer := fwVer r;
     ip := Some v; mask := mask r; gatewayIp := gatewayIp r; mac := mac r;
     data := data r; device := device r |}.

(** [result.mask = v] *)
Definition set_mask (v : string) (r : IM) : IM :=
  {| topic := topic r; message := message r; deviceType := deviceType r;
     deviceId := deviceId r; messageType := messageType r; ts := ts r;
     rawMessageType := rawMessageType r; messageId := messageId r;
     modAddr := modAddr r; modId := modId r; uTotal := uTotal r;
     onlineCount := onlineCount r; items := items r; sensors := sensors r;
     modules := modules r; meta := meta r; doorState := doorState r;
     result := result r; originalReq := originalReq r;
     colorMap := colorMap r; model := model r; fwVer := fwVer r;
     ip := ip r; mask := Some v; gatewayIp := gatewayIp r; mac := mac r;
     data := data r; device := device r |}.

(** [result.gatewayIp = v] *)
Definition set_gatewayIp (v : string) (r : IM) : IM :=
  {| topic := topic r; message := message r; deviceType := deviceType r;
     deviceId := deviceId r; messageType := messageType r; ts := ts r;
     rawMessageType := rawMessageType r; messageId := messageId r;
     modAddr := modAddr r; modId := modId r; uTotal := uTotal r;
     onlineCount := onlineCount r; items := items r; sensors := sensors r;
     modules := modules r; meta := meta r; doorState := doorState r;
     result := result r; originalReq := originalReq r;
     colorMap := colorMap r; model := model r; fwVer := fwVer r;
     ip := ip r; mask := mask r; gatewayIp := Some v; mac := mac r;
     data := data r; device := device r |}.

(** [result.mac = v] *)
Definition set_mac (v : string) (r : IM) : IM :=
  {| topic := topic r; message := message r; deviceType := deviceType r;
     deviceId := deviceId r; messageType := messageType r; ts := ts r;
     rawMessageType := rawMessageType r; messageId := messageId r;
     modAddr := modAddr r; modId := modId r; uTotal := uTotal r;
     onlineCount := onlineCount r; items := items r; sensors := sensors r;
     modules := modules r; meta := meta r; doorState := doorState r;
     result := result r; originalReq := originalReq r;
     colorMap := colorMap r; model := model r; fwVer := fwVer r;
     ip := ip r; mask := mask r; gatewayIp := gatewayIp r; mac := Some v;
     data := data r; device := device r |}.

(** [result.data = v] *)
Definition set_data (v : (list ModuleBlock)) (r : IM) : IM :=
  {| topic := topic r; message := message r; deviceType := deviceType r;
     deviceId := deviceId r; messageType := messageType r; ts := ts r;
     rawMessageType := rawMessageType r; messageId := messageId r;
     modAddr := modAddr r; modId := modId r; uTotal := uTotal r;
     onlineCount := onlineCount r; items := items r; sensors := sensors r;
     modules := modules r; meta := meta r; doorState := doorState r;
     result := result r; originalReq := originalReq r;
     colorMap := colorMap r; model := model r; fwVer := fwVer r;
     ip := ip r; mask := mask r; gatewayIp := gatewayIp r; mac := mac r;
     data := Some v; device := device r |}.

(** [result.device = v] *)
Definition set_device (v : Device) (r : IM) : IM :=
  {| topic := topic r; message := message r; deviceType := deviceType r;
     deviceId := deviceId r; messageType := messageType r; ts := ts r;
     rawMessageType := rawMessageType r; messageId := messageId r;
     modAddr := modAddr r; modId := modId r; uTotal := uTotal r;
     onlineCount := onlineCount r; items := items r; sensors := sensors r;
     modules := modules r; meta := meta r; doorState := doorState r;
     result := result r; originalReq := originalReq r;
     colorMap := colorMap r; model := model r; fwVer := fwVer r;
     ip := ip r; mask := mask r; gatewayIp := gatewayIp r; mac := mac r;
     data := data r; device := Some v |}.

(** [x === s] for a property that may be missing. *)
Definition str_is (x : option string) (s : string) : bool :=
  match x with
  | Some t => String.eqb t s
  | None => false
  end.

(** Truthiness of a string-valued property. *)
Definition truthy_str (x : option string) : bool :=
  match x with
  | Some t => negb (String.eqb t "")
  | None => false
  end.

(** ** Unified events *)

Inductive EventType :=
| SYS_TELEMETRY
| SYS_RFID_EVENT
| SYS_RFID_SNAPSHOT
| SYS_STATE_CHANGE
| SYS_DEVICE_INFO
| SYS_LIFECYCLE
| SYS_REQUIRE_SYNC.

Record Identity := {
  id_deviceId : option string;
  id_deviceType : string;
  id_modAddr : option Z;
  id_sensorAddr : Z
}.

Record SnapshotItem := {
  s_uPos : Z;
  s_tagId : jsopt string;
  s_alarmStatus : Z
}.

(** [payload.value] *)
Inductive Value :=
| VRfid (act : jsopt string) (tag : jsopt string) (pos : Z) (alarm : Z)
| VSync (reason : string)
| VSnapshot (mod_id : option string) (snap : list SnapshotItem)
| VScalar (v : jsopt Q)
| VFlag (n : Z)
| VText (s : string)
| VDeviceInfo (ip_ mac_ : option string)
| VModuleInfo (mod_id : option string) (u_total : option Z) (fw : option string).

(** [payload.raw] *)
Inductive Raw :=
| RawNone
| RawModId (mod_id : option string)
| RawPower (main backup : option bool)
| RawDoor (mod_id : option string) (door : option string)
| RawResult (res req : option string).

Record Payload := {
  key : string;
  value : Value;
  raw : Raw
}.

Record Event := {
  identity : Identity;
  type : EventType;
  ev_ts : option string;
  payload : Payload
}.

End SIF.

Import SIF.

(* ===================================================================== *)
(** ** V5008Parser: the binary adapter                                    *)
(* ===================================================================== *)

Module V5008Parser.

(** [readBigUIntBE(buffer, offset, bytes = 4)]. The accumulator is updated
    with [(value << 8) | byte], both 32-bit signed operators. *)
Fixpoint readBE_loop (buffer : Buffer) (offset : Z) (n : nat) (i value : Z) : exn Z :=
  match n with
  | O => Ok value
  | S n' =>
      x ← readUInt8 buffer (offset + i);
      readBE_loop buffer offset n' (i + 1) (bor (shl value 8) x)
  end.

Definition readBigUIntBE (buffer : Buffer) (offset : Z) (bytes : nat) : exn Z :=
  if offset + Z.of_nat bytes >? buf_length buffer then Ok 0
  else readBE_loop buffer offset bytes 0 0.

(** [parseSignedDecimal(buffer, offset)]; [None] is the returned [null].
    The sum of the integer part and the hundredths is exact here; the
    source adds them in binary64, where the result can differ from the
    exact one in its last place. *)
Definition parseSignedDecimal (buffer : Buffer) (offset : Z) : exn (option Q) :=
  if offset + 1 >=? buf_length buffer then Ok None
  else
    intPart ← readInt8 buffer offset;
    fracPart ← readUInt8 buffer (offset + 1);
    if (intPart =? 0) && (fracPart =? 0) then Ok None
    else
      let value := (inject_Z (Z.abs intPart) + (fracPart # 100))%Q in
      Ok (Some (if intPart <? 0 then (- value)%Q else value)).

(** [parseIpAddress(buffer, offset)] *)
Definition parseIpAddress (buffer : Buffer) (offset : Z) : exn string :=
  if offset + 3 >=? buf_length buffer then Ok "0.0.0.0"
  else
    a ← readUInt8 buffer offset;
    b ← readUInt8 buffer (offset + 1);
    c ← readUInt8 buffer (offset + 2);
    d ← readUInt8 buffer (offset + 3);
    Ok (join "." (map num_toString [a; b; c; d])).

(** The object literal [parse] starts from; everything else is unset. *)
Definition base_result (topic_ message_ : string) (deviceId_ messageType_ : option string)
    (now : string) : IM :=
  {| topic := Some topic_; message := Some message_; deviceType := Some "V5008";
     deviceId := deviceId_; messageType := messageType_; ts := Some now;
     rawMessageType := None; messageId := None;
     modAddr := None; modId := None; uTotal := None; onlineCount := None;
     items := None; sensors := None; modules := None; meta := None;
     doorState := None; result := None; originalReq := None; colorMap := None;
     model := None; fwVer := None; ip := None; mask := None;
     gatewayIp := None; mac := None; data := None; device := None |}.


(** The module loop of [parseHeartbeat]: at most [n] further records. *)
Fixpoint heartbeat_loop (buffer : Buffer) (n : nat) (offset : Z)
    (modules_ : list ModuleRec) : exn (list ModuleRec) :=
  match n with
  | O => Ok modules_
  | S n' =>
      if offset + 9 >? buf_length buffer - 4 then Ok modules_
      else
        modAddr_ ← readUInt8 buffer offset;
        modIdN ← readBigUIntBE buffer (offset + 1) 4;
        uTotal_ ← readUInt8 buffer (offset + 5);
        let rec :=
          {| m_modAddr := Some modAddr_; m_modId := Some (num_toString modIdN);
             m_uTotal := Some uTotal_; m_fwVer := None |} in
        let modules' :=
          if (modAddr_ >=? 1) && (modAddr_ <=? 5) then modules_ ++ [rec]
          else modules_ in
        heartbeat_loop buffer n' (offset + 6) modules'
  end.

Definition parseHeartbeat (buffer : Buffer) (result_ : IM) (messageId_ : string)
    : exn (option IM) :=
  modules_ ← heartbeat_loop buffer 10 1 [];
  let meta_ :=
    {| voltage := Some (25 # 2)%Q; current := Some (4 # 5)%Q;
       mainPower := Some true; backupPower := Some false |} in
  Ok (Some (set_meta meta_ (set_modules modules_ (set_messageId messageId_ result_)))).

Definition parseDoorState (buffer : Buffer) (result_ : IM) (messageId_ : string)
    : exn (option IM) :=
  modAddr_ ← readUInt8 buffer 1;
  modIdN ← readBigUIntBE buffer 2 4;
  st ← readUInt8 buffer 6;
  let doorState_ := toHex2Lower st in
  Ok (Some (set_doorState doorState_
             (set_modId (num_toString modIdN)
               (set_modAddr modAddr_ (set_messageId messageId_ result_))))).

(** The tag loop of [parseLabelState]: at most [n] further records. *)
Fixpoint label_loop (buffer : Buffer) (n : nat) (offset : Z)
    (items_ : list TagItem) : exn (list TagItem) :=
  match n with
  | O => Ok items_
  | S n' =>
      if offset + 6 >? buf_length buffer - 4 then Ok items_
      else
        uPos_ ← readUInt8 buffer offset;
        alarmStatus_ ← readUInt8 buffer (offset + 1);
        let tagId_ := toHexUpper (subarray buffer (offset + 2) (offset + 6)) in
        let item :=
          {| uPos := uPos_; alarmStatus := alarmStatus_;
             tagId := JVal tagId_; action := JUndef |} in
        label_loop buffer n' (offset + 6) (items_ ++ [item])
  end.

Definition parseLabelState (buffer : Buffer) (result_ : IM) : exn (option IM) :=
  modAddr_ ← readUInt8 buffer 0;
  modIdN ← readBigUIntBE buffer 1 4;
  reserved ← readUInt8 buffer 5;
  uTotal_ ← readUInt8 buffer 6;
  onlineCount_ ← readUInt8 buffer 7;
  items_ ← label_loop buffer (Z.to_nat onlineCount_) 8 [];
  messageIdN ← readBigUIntBE buffer (buf_length buffer - 4) 4;
  Ok (Some (set_items items_
             (set_onlineCount onlineCount_
               (set_uTotal uTotal_
                 (set_modId (num_toString modIdN)
                   (set_modAddr modAddr_
                     (set_messageId (num_toString messageIdN) result_))))))).

(** The sensor loop of [parseTemHum]: at most [n] further slots. *)
Fixpoint temhum_loop (buffer : Buffer) (n : nat) (offset : Z)
    (sensors_ : list Sensor) : exn (list Sensor) :=
  match n with
  | O => Ok sensors_
  | S n' =>
      if offset + 5 >? buf_length buffer - 4 then Ok sensors_
      else
        sensorAddr_ ← readUInt8 buffer offset;
        s ← (if (sensorAddr_ >=? 0x0A) && (sensorAddr_ <=? 0x0F) then
               temp ← parseSignedDecimal buffer (offset + 1);
               hum ← parseSignedDecimal buffer (offset + 3);
               Ok {| sensorAddr := sensorAddr_;
                     props := [("temp", temp); ("hum", hum)] |}
             else
               Ok {| sensorAddr := sensorAddr_;
                     props := [("temp", None); ("hum", None)] |});
        temhum_loop buffer n' (offset + 5) (sensors_ ++ [s])
  end.

Definition parseTemHum (buffer : Buffer) (result_ : IM) : exn (option IM) :=
  modAddr_ ← readUInt8 buffer 0;
  modIdN ← readBigUIntBE buffer 1 4;
  sensors_ ← temhum_loop buffer 6 5 [];
  messageIdN ← readBigUIntBE buffer (buf_length buffer - 4) 4;
  Ok (Some (set_sensors sensors_
             (set_modId (num_toString modIdN)
               (set_modAddr modAddr_
                 (set_messageId (num_toString messageIdN) result_))))).

(** The sensor loop of [parseNoise]: at most [n] further slots. *)
Fixpoint noise_loop (buffer : Buffer) (n : nat) (offset : Z)
    (sensors_ : list Sensor) : exn (list Sensor) :=
  match n with
  | O => Ok sensors_
  | S n' =>
      if offset + 3 >? buf_length buffer - 4 then Ok sensors_
      else
        sensorAddr_ ← readUInt8 buffer offset;
        s ← (if (sensorAddr_ >=? 0x10) && (sensorAddr_ <=? 0x12) then
               noise ← parseSignedDecimal buffer (offset + 1);
               Ok {| sensorAddr := sensorAddr_; props := [("noise", noise)] |}
             else
               Ok {| sensorAddr := sensorAddr_; props := [("noise", None)] |});
        noise_loop buffer n' (offset + 3) (sensors_ ++ [s])
  end.

Definition parseNoise (buffer : Buffer) (result_ : IM) : exn (option IM) :=
  modAddr_ ← readUInt8 buffer 0;
  modIdN ← readBigUIntBE buffer 1 4;
  sensors_ ← noise_loop buffer 3 5 [];
  messageIdN ← readBigUIntBE buffer (buf_length buffer - 4) 4;
  Ok (Some (set_sensors sensors_
             (set_modId (num_toString modIdN)
               (set_modAddr modAddr_
                 (set_messageId (num_toString messageIdN) result_))))).

(** [while (offset < buffer.length - 4) { colorMap.push(...); offset++ }].
    The offset grows by one per turn, so [length buffer] turns of fuel are
    never used up. *)
Fixpoint color_loop (buffer : Buffer) (fuel : nat) (offset : Z)
    (colorMap_ : list Z) : exn (list Z) :=
  match fuel with
  | O => Ok colorMap_
  | S fuel' =>
      if offset <? buf_length buffer - 4 then
        c ← readUInt8 buffer offset;
        color_loop buffer fuel' (offset + 1) (colorMap_ ++ [c])
      else Ok colorMap_
  end.

Definition parseAAResponse (buffer : Buffer) (result_ : IM) (messageId_ : string)
    : exn (option IM) :=
  deviceIdN ← readBigUIntBE buffer 1 4;
  resultCode ← readUInt8 buffer 5;
  let resultText := if resultCode =? 0xA1 then "Success" else "Failure" in
  let reqLength := buf_length buffer - 10 in
  let originalReq_ := toHexUpper (subarray buffer 6 (6 + reqLength)) in
  let r := set_originalReq originalReq_
             (set_result resultText (set_messageId messageId_ result_)) in
  if startsWith "E4" originalReq_ then
    colorMap_ ← color_loop buffer (length buffer) (6 + reqLength) [];
    Ok (Some (set_colorMap colorMap_ r))
  else Ok (Some r).

Definition parseDeviceInfoResponse (buffer : Buffer) (result_ : IM)
    (messageId_ : string) : exn (option IM) :=
  let model_ := toAscii (subarray buffer 2 6) in
  fwVerN ← readBigUIntBE buffer 6 4;
  ip_ ← parseIpAddress buffer 10;
  mask_ ← parseIpAddress buffer 14;
  gatewayIp_ ← parseIpAddress buffer 18;
  let mac_ :=
    toUpperCase
      (join ":" (map (fun b => toHex2Lower (byte_val b)) (subarray buffer 22 28))) in
  Ok (Some (set_mac mac_
             (set_gatewayIp gatewayIp_
               (set_mask mask_
                 (set_ip ip_
                   (set_fwVer (num_toString fwVerN)
                     (set_model model_ (set_messageId messageId_ result_)))))))).

(** [while (offset + 5 <= buffer.length - 4) { ...; offset += 5 }], with
    [length buffer] turns of fuel, which are never used up. *)
Fixpoint moduleinfo_loop (buffer : Buffer) (fuel : nat) (offset : Z)
    (modules_ : list ModuleRec) : exn (list ModuleRec) :=
  match fuel with
  | O => Ok modules_
  | S fuel' =>
      if offset + 5 <=? buf_length buffer - 4 then
        modAddr_ ← readUInt8 buffer offset;
        fwVerN ← readBigUIntBE buffer (offset + 1) 4;
        let rec :=
          {| m_modAddr := Some modAddr_; m_modId := None; m_uTotal := None;
             m_fwVer := Some (num_toString fwVerN) |} in
        moduleinfo_loop buffer fuel' (offset + 5) (modules_ ++ [rec])
      else Ok modules_
  end.

Definition parseModuleInfoResponse (buffer : Buffer) (result_ : IM)
    (messageId_ : string) : exn (option IM) :=
  modules_ ← moduleinfo_loop buffer (length buffer) 2 [];
  Ok (Some (set_modules modules_ (set_messageId messageId_ result_))).

(** [parseRfidEvent]: the sibling entry that skips the BB header. *)
Definition parseRfidEvent (buffer : Buffer) (result_ : IM) (messageId_ : string)
    : exn (option IM) :=
  parseLabelState (subarray_from buffer 1) result_.

Definition parseOpeAck (buffer : Buffer) (result_ : IM) : exn (option IM) :=
  header ← readUInt8 buffer 0;
  messageIdN ← readBigUIntBE buffer (buf_length buffer - 4) 4;
  let messageId_ := num_toString messageIdN in
  if (header =? 0xCC) || (header =? 0xCB) then parseHeartbeat buffer result_ messageId_
  else if header =? 0xBA then parseDoorState buffer result_ messageId_
  else if header =? 0xBB then parseRfidEvent buffer result_ messageId_
  else if header =? 0xAA then parseAAResponse buffer result_ messageId_
  else if header =? 0xEF then
    if buf_length buffer >=? 2 then
      subHeader ← readUInt8 buffer 1;
      if subHeader =? 0x01 then parseDeviceInfoResponse buffer result_ messageId_
      else if subHeader =? 0x02 then parseModuleInfoResponse buffer result_ messageId_
      else Ok None
    else Ok None
  else Ok None.

(** The message type [parse] settles on: the leading byte decides, the
    topic suffix is the fallback. *)
Definition messageType_of (header : option Z) (topicSuffix : option string)
    : option string :=
  match header with
  | Some h =>
      if (h =? 0xCC) || (h =? 0xCB) then Some "HEARTBEAT"
      else if h =? 0xBB then Some "LABEL_STATE"
      else if h =? 0xBA then Some "DOOR_STATE"
      else if h =? 0xAA then Some "OPE_ACK"
      else topicSuffix
  | None => topicSuffix
  end.

(** The body of the [try] block of [parse]; [now] is the clock reading
    [new Date().toISOString()]. *)
Definition parse_try (topic_ : string) (messageBuffer : Buffer) (now : string)
    : exn (option IM) :=
  let topicParts := split "/" topic_ in
  let deviceId_ := nth_error topicParts 1 in
  let topicSuffix := nth_error topicParts 2 in
  let hexString := toHexUpper messageBuffer in
  header ← (if buf_length messageBuffer >? 0
            then h ← readUInt8 messageBuffer 0; Ok (Some h)
            else Ok None);
  let messageType_ := messageType_of header topicSuffix in
  let result_ := base_result topic_ hexString deviceId_ messageType_ now in
  if str_is messageType_ "HEARTBEAT" then parseOpeAck messageBuffer result_
  else if str_is messageType_ "LABEL_STATE" then parseLabelState messageBuffer result_
  else if str_is messageType_ "DOOR_STATE" then parseOpeAck messageBuffer result_
  else if str_is messageType_ "OPE_ACK" then parseOpeAck messageBuffer result_
  else if str_is messageType_ "TemHum" then parseTemHum messageBuffer result_
  else if str_is messageType_ "Noise" then parseNoise messageBuffer result_
  else Ok None.

(** [parse(topic, messageBuffer)]: every exception becomes [null]. *)
Definition parse (topic_ : string) (messageBuffer : Buffer) (now : string)
    : option IM :=
  match parse_try topic_ messageBuffer now with
  | Ok r => r
  | Throw _ => None
  end.

End V5008Parser.

(* ===================================================================== *)
(** ** StateCache: the shadow store                                       *)
(* ===================================================================== *)

(** A JavaScript [Map] with integer keys: the entries in insertion order.
    [set] on a present key keeps its place, as in JavaScript. *)
Module JSMap.

Definition t (V : Type) := list (Z * V).

Definition empty {V} : t V := [].

Fixpoint has {V} (k : Z) (m : t V) : bool :=
  match m with
  | [] => false
  | (k', _) :: rest => if k =? k' then true else has k rest
  end.

Fixpoint get {V} (k : Z) (m : t V) : option V :=
  match m with
  | [] => None
  | (k', v) :: rest => if k =? k' then Some v else get k rest
  end.

Fixpoint set {V} (k : Z) (v : V) (m : t V) : t V :=
  match m with
  | [] => [(k, v)]
  | (k', v') :: rest =>
      if k =? k' then (k, v) :: rest else (k', v') :: set k v rest
  end.

Fixpoint delete {V} (k : Z) (m : t V) : t V :=
  match m with
  | [] => []
  | (k', v') :: rest =>
      if k =? k' then rest else (k', v') :: delete k rest
  end.

(** [m.entries()] *)
Definition entries {V} (m : t V) : list (Z * V) := m.

Definition keys {V} (m : t V) : list Z := map fst m.

(** The invariant of every [Map]: no key occurs twice. *)
Definition wf {V} (m : t V) : Prop := List.NoDup (keys m).

End JSMap.

Module StateCache.

(** The value stored per position. *)
Record TagData := {
  td_tagId : jsopt string;
  td_alarmStatus : Z
}.

(** [this.cache]: [Map<string, Map<uPos, TagData>>]. *)
Abbreviation Cache := (gmap string (JSMap.t TagData)).

(** The text a template literal renders for a property that may be
    missing. *)
Definition show_str (x : option string) : string :=
  match x with Some s => s | None => "undefined" end.

Definition show_num (x : option Z) : string :=
  match x with Some z => num_toString z | None => "undefined" end.

(** [_createKey(deviceId, modAddr)]: [`${deviceId}:${modAddr}`] *)
Definition _createKey (deviceId_ : option string) (modAddr_ : option Z) : string :=
  show_str deviceId_ +:+ ":" +:+ show_num modAddr_.

(** [get(deviceId, modAddr)]: [cached || null]; a [Map] is always truthy,
    so [None] here is exactly the [null] of the source. *)
Definition get (cache : Cache) (deviceId_ : option string) (modAddr_ : option Z)
    : option (JSMap.t TagData) :=
  cache !! _createKey deviceId_ modAddr_.

(** [set(deviceId, modAddr, tagDataMap)]. The argument is a [Map] by its
    type, so the guard of the source never fires; [new Map(tagDataMap)]
    copies the entries in order. *)
Definition set (cache : Cache) (deviceId_ : option string) (modAddr_ : option Z)
    (tagDataMap : JSMap.t TagData) : Cache :=
  <[_createKey deviceId_ modAddr_ := tagDataMap]> cache.

(** [clear(deviceId, modAddr)]: the new store and whether the key existed. *)
Definition clear (cache : Cache) (deviceId_ : option string) (modAddr_ : option Z)
    : Cache * bool :=
  let key_ := _createKey deviceId_ modAddr_ in
  (base.delete key_ cache, bool_decide (is_Some (cache !! key_))).

Definition has (cache : Cache) (deviceId_ : option string) (modAddr_ : option Z)
    : bool :=
  bool_decide (is_Some (cache !! _createKey deviceId_ modAddr_)).

Definition clearAll (cache : Cache) : Cache := ∅.

End StateCache.

Import StateCache.

(* ===================================================================== *)
(** ** UnifyNormalizer: the reconciliation engine                         *)
(* ===================================================================== *)

Module UnifyNormalizer.

(** The outcome of an async method: how its promise settles ([Throw] is a
    rejection) and the shadow store it leaves behind. *)
Definition async (A : Type) : Type := Cache -> exn A * Cache.

(** [{ deviceId, deviceType }], the identity every result starts from. *)
Record BaseIdentity := {
  bi_deviceId : option string;
  bi_deviceType : string
}.

(** [{ ...identity, modAddr, sensorAddr }] *)
Definition mkIdentity (identity_ : BaseIdentity) (modAddr_ : option Z)
    (sensorAddr_ : Z) : Identity :=
  {| id_deviceId := bi_deviceId identity_;
     id_deviceType := bi_deviceType identity_;
     id_modAddr := modAddr_;
     id_sensorAddr := sensorAddr_ |}.

(** *** RFID events *)

Definition rfidEvent (identity_ : BaseIdentity) (modAddr_ : option Z)
    (ts_ : option string) (act : jsopt string) (tag : jsopt string)
    (pos alarm : Z) : Event :=
  {| identity := mkIdentity identity_ modAddr_ pos;
     type := SYS_RFID_EVENT;
     ev_ts := ts_;
     payload := {| key := "rfid_event";
                   value := VRfid act tag pos alarm;
                   raw := RawNone |} |}.

Definition snapshotItems (m : JSMap.t TagData) : list SnapshotItem :=
  map (fun e => {| s_uPos := fst e;
                   s_tagId := td_tagId (snd e);
                   s_alarmStatus := td_alarmStatus (snd e) |})
      (JSMap.entries m).

Definition snapshotEvent (identity_ : BaseIdentity) (modAddr_ : option Z)
    (ts_ : option string) (modId_ : option string) (m : JSMap.t TagData) : Event :=
  {| identity := mkIdentity identity_ modAddr_ 0;
     type := SYS_RFID_SNAPSHOT;
     ev_ts := ts_;
     payload := {| key := "rfid_snapshot";
                   value := VSnapshot modId_ (snapshotItems m);
                   raw := RawNone |} |}.

Definition requireSyncEvent (identity_ : BaseIdentity) (modAddr_ : option Z)
    (ts_ : option string) : Event :=
  {| identity := mkIdentity identity_ modAddr_ 0;
     type := SYS_REQUIRE_SYNC;
     ev_ts := ts_;
     payload := {| key := "require_sync";
                   value := VSync "cache_miss";
                   raw := RawNone |} |}.

(** [for (const item of items) currTags.set(item.uPos, {...})] *)
Definition buildCurrTags (items_ : list TagItem) : JSMap.t TagData :=
  fold_left
    (fun m item =>
       JSMap.set (uPos item)
         {| td_tagId := tagId item; td_alarmStatus := alarmStatus item |} m)
    items_ JSMap.empty.

(** The events one loop of the diff engine pushes: an event with [act] for
    every entry of [from] whose position [other] does not hold. *)
Definition diffEvents (identity_ : BaseIdentity) (modAddr_ : option Z)
    (ts_ : option string) (act : string) (from other : JSMap.t TagData)
    : list Event :=
  flat_map
    (fun e =>
       if negb (JSMap.has (fst e) other) then
         [rfidEvent identity_ modAddr_ ts_ (JVal act) (td_tagId (snd e))
            (fst e) (td_alarmStatus (snd e))]
       else [])
    (JSMap.entries from).

(** [_processV5008Rfid(parsedData, identity)]: the diff path. Iterating a
    missing [items] raises a [TypeError] before the store is written. *)
Definition _processV5008Rfid (parsedData : IM) (identity_ : BaseIdentity)
    : async (list Event) :=
  fun cache =>
    let modAddr_ := modAddr parsedData in
    let prevTags :=
      default JSMap.empty (StateCache.get cache (bi_deviceId identity_) modAddr_) in
    match items parsedData with
    | None => (Throw TypeError, cache)
    | Some items_ =>
        let currTags := buildCurrTags items_ in
        let detached :=
          diffEvents identity_ modAddr_ (ts parsedData) "detached" prevTags currTags in
        let attached :=
          diffEvents identity_ modAddr_ (ts parsedData) "attached" currTags prevTags in
        let cache' := StateCache.set cache (bi_deviceId identity_) modAddr_ currTags in
        (Ok (detached ++ attached
             ++ [snapshotEvent identity_ modAddr_ (ts parsedData)
                   (modId parsedData) currTags]),
         cache')
    end.

(** The pass-through event of one inbound item. *)
Definition passThrough (identity_ : BaseIdentity) (modAddr_ : option Z)
    (ts_ : option string) (item : TagItem) : Event :=
  rfidEvent identity_ modAddr_ ts_ (action item) (tagId item) (uPos item)
    (alarmStatus item).

(** One turn of the patch loop on the working copy. *)
Definition patchItem (shadow : JSMap.t TagData) (item : TagItem) : JSMap.t TagData :=
  match action item with
  | JVal a =>
      if String.eqb a "attached" then
        JSMap.set (uPos item)
          {| td_tagId := tagId item; td_alarmStatus := alarmStatus item |} shadow
      else if String.eqb a "detached" then JSMap.delete (uPos item) shadow
      else shadow
  | _ => shadow
  end.

(** The module loop of [_processV6800Rfid], started with the results
    pushed so far. *)
Fixpoint rfidModules (identity_ : BaseIdentity) (ts_ : option string)
    (blocks : list ModuleBlock) (results : list Event) : async (list Event) :=
  fun cache =>
    match blocks with
    | [] => (Ok results, cache)
    | moduleData :: rest =>
        let modAddr_ := b_modAddr moduleData in
        match StateCache.get cache (bi_deviceId identity_) modAddr_ with
        | None =>
            match b_items moduleData with
            | None => (Throw TypeError, cache)
            | Some items_ =>
                rfidModules identity_ ts_ rest
                  (results ++ map (passThrough identity_ modAddr_ ts_) items_
                   ++ [requireSyncEvent identity_ modAddr_ ts_])
                  cache
            end
        | Some currentShadow =>
            match b_items moduleData with
            | None => (Throw TypeError, cache)
            | Some items_ =>
                let updatedShadow := fold_left patchItem items_ currentShadow in
                let cache' :=
                  StateCache.set cache (bi_deviceId identity_) modAddr_ updatedShadow in
                rfidModules identity_ ts_ rest
                  (results ++ map (passThrough identity_ modAddr_ ts_) items_
                   ++ [snapshotEvent identity_ modAddr_ ts_ (b_modId moduleData)
                         updatedShadow])
                  cache'
            end
        end
    end.

(** [_processV6800Rfid(parsedData, identity)]: the patch path. *)
Definition _processV6800Rfid (parsedData : IM) (identity_ : BaseIdentity)
    : async (list Event) :=
  fun cache =>
    match data parsedData with
    | None => (Throw TypeError, cache)
    | Some blocks => rfidModules identity_ (ts parsedData) blocks [] cache
    end.

(** *** Telemetry *)

Definition telemetryEvent (identity_ : BaseIdentity) (modAddr_ : option Z)
    (sensorAddr_ : Z) (ts_ : option string) (key_ : string) (v : jsopt Q)
    (raw_ : Raw) : Event :=
  {| identity := mkIdentity identity_ modAddr_ sensorAddr_;
     type := SYS_TELEMETRY;
     ev_ts := ts_;
     payload := {| key := key_; value := VScalar v; raw := raw_ |} |}.

(** What one turn of the loop of [_flattenTelemetry] pushes. *)
Definition flattenSensor (parsedData : IM) (identity_ : BaseIdentity)
    (tempKey humKey : string) (sensor : Sensor) : list Event :=
  let t := sensor_get sensor tempKey in
  let h := sensor_get sensor humKey in
  if is_null t && is_null h then []
  else
    (if negb (is_null t) then
       [telemetryEvent identity_ (modAddr parsedData) (sensorAddr sensor)
          (ts parsedData) "temperature" t (RawModId (modId parsedData))]
     else [])
    ++
    (if negb (is_null h) then
       [telemetryEvent identity_ (modAddr parsedData) (sensorAddr sensor)
          (ts parsedData) "humidity" h (RawModId (modId parsedData))]
     else []).

(** [_flattenTelemetry(parsedData, identity, tempKey, humKey)] *)
Definition _flattenTelemetry (parsedData : IM) (identity_ : BaseIdentity)
    (tempKey humKey : string) : list Event :=
  match sensors parsedData with
  | None => []
  | Some sensors_ =>
      flat_map (flattenSensor parsedData identity_ tempKey humKey) sensors_
  end.

(** What one turn of the loop of [_flattenNoiseTelemetry] pushes. *)
Definition flattenNoiseSensor (parsedData : IM) (identity_ : BaseIdentity)
    (sensor : Sensor) : list Event :=
  let n := sensor_get sensor "noise" in
  if is_null n then []
  else [telemetryEvent identity_ (modAddr parsedData) (sensorAddr sensor)
          (ts parsedData) "noise" n (RawModId (modId parsedData))].

(** [_flattenNoiseTelemetry(parsedData, identity)] *)
Definition _flattenNoiseTelemetry (parsedData : IM) (identity_ : BaseIdentity)
    : list Event :=
  match sensors parsedData with
  | None => []
  | Some sensors_ => flat_map (flattenNoiseSensor parsedData identity_) sensors_
  end.

(** *** Heartbeat, door state, responses, init *)

Definition truthy_bool (b : option bool) : bool := default false b.

(** [_processHeartbeat(parsedData, identity)] *)
Definition _processHeartbeat (parsedData : IM) (identity_ : BaseIdentity)
    : list Event :=
  match meta parsedData with
  | None => []
  | Some meta_ =>
      let raw_ := RawPower (mainPower meta_) (backupPower meta_) in
      (match voltage meta_ with
       | Some v => [telemetryEvent identity_ (Some 0) 0 (ts parsedData)
                      "voltage" (JVal v) raw_]
       | None => []
       end)
      ++
      (match current meta_ with
       | Some v => [telemetryEvent identity_ (Some 0) 0 (ts parsedData)
                      "current" (JVal v) raw_]
       | None => []
       end)
      ++
      [{| identity := mkIdentity identity_ (Some 0) 0;
          type := SYS_LIFECYCLE;
          ev_ts := ts parsedData;
          payload :=
            {| key := "device_status";
               value := VText (if truthy_bool (mainPower meta_)
                               then "online" else "backup_power");
               raw := raw_ |} |}]
  end.

(** [_createDoorStateObject(parsedData, identity)] *)
Definition _createDoorStateObject (parsedData : IM) (identity_ : BaseIdentity)
    : list Event :=
  [{| identity := mkIdentity identity_ (modAddr parsedData) 0;
      type := SYS_STATE_CHANGE;
      ev_ts := ts parsedData;
      payload :=
        {| key := "door_state";
           value := VFlag (if str_is (doorState parsedData) "01" then 1 else 0);
           raw := RawDoor (modId parsedData) (doorState parsedData) |} |}].

(** [_createResponseObject(parsedData, identity)] *)
Definition _createResponseObject (parsedData : IM) (identity_ : BaseIdentity)
    : list Event :=
  [{| identity := mkIdentity identity_ (Some 0) 0;
      type := SYS_STATE_CHANGE;
      ev_ts := ts parsedData;
      payload :=
        {| key := "operation_result";
           value := VFlag (if str_is (result parsedData) "Success" then 1 else 0);
           raw := RawResult (result parsedData) (originalReq parsedData) |} |}].

(** [_splitV6800Init(parsedData, identity)] *)
Definition _splitV6800Init (parsedData : IM) (identity_ : BaseIdentity)
    : list Event :=
  (match device parsedData with
   | Some device_ =>
       [{| identity := mkIdentity identity_ (Some 0) 0;
           type := SYS_DEVICE_INFO;
           ev_ts := ts parsedData;
           payload := {| key := "device_info";
                         value := VDeviceInfo (d_ip device_) (d_mac device_);
                         raw := RawNone |} |}]
   | None => []
   end)
  ++
  (match modules parsedData with
   | Some modules_ =>
       map (fun module =>
              {| identity := mkIdentity identity_ (m_modAddr module) 0;
                 type := SYS_DEVICE_INFO;
                 ev_ts := ts parsedData;
                 payload := {| key := "module_info";
                               value := VModuleInfo (m_modId module)
                                          (m_uTotal module) (m_fwVer module);
                               raw := RawNone |} |})
           modules_
   | None => []
   end).

(** *** Dispatch *)

(** A method that does not touch the store and cannot raise. *)
Definition pure {A} (a : A) : async A := fun cache => (Ok a, cache).

(** [_processV5008(parsedData)] *)
Definition _processV5008 (parsedData : IM) : async (list Event) :=
  let identity_ :=
    {| bi_deviceId := deviceId parsedData; bi_deviceType := "V5008" |} in
  let messageType_ := messageType parsedData in
  if str_is messageType_ "OpeAck" then
    if truthy_str (result parsedData) then
      pure (_createResponseObject parsedData identity_)
    else if bool_decide (is_Some (doorState parsedData)) then
      pure (_createDoorStateObject parsedData identity_)
    else pure []
  else if str_is messageType_ "LabelState" then
    _processV5008Rfid parsedData identity_
  else if str_is messageType_ "TemHum" then
    pure (_flattenTelemetry parsedData identity_ "temperature" "humidity")
  else if str_is messageType_ "Noise" then
    pure (_flattenNoiseTelemetry parsedData identity_)
  else if str_is messageType_ "HeartBeat" || str_is messageType_ "HEARTBEAT" then
    pure (_processHeartbeat parsedData identity_)
  else pure [].

(** [_processV6800(parsedData)] *)
Definition _processV6800 (parsedData : IM) : async (list Event) :=
  let identity_ :=
    {| bi_deviceId := deviceId parsedData; bi_deviceType := "V6800" |} in
  let messageType_ := messageType parsedData in
  if str_is messageType_ "LABEL_STATE" then
    _processV6800Rfid parsedData identity_
  else if str_is messageType_ "TEM_HUM" then
    pure (_flattenTelemetry parsedData identity_ "temperature" "humidity")
  else if str_is messageType_ "DOOR_STATE" then
    pure (_createDoorStateObject parsedData identity_)
  else if str_is messageType_ "INIT" then
    pure (_splitV6800Init parsedData identity_)
  else if str_is messageType_ "OPE_ACK" then
    pure (_createResponseObject parsedData identity_)
  else if str_is messageType_ "HEARTBEAT" then
    pure (_processHeartbeat parsedData identity_)
  else pure [].

(** [normalize(parsedData)]; [None] is a [null] argument.

    The [try] block hands back the promise of [_processV5008] or
    [_processV6800] with a plain [return], without awaiting it. The block
    is left at that point, so its [catch] handler only covers the guard
    and the dispatch, which cannot raise; the promise of [normalize]
    settles the way the returned promise does, rejection included. *)
Definition normalize (parsedData : option IM) : async (list Event) :=
  match parsedData with
  | None => pure []
  | Some pd =>
      if negb (truthy_str (deviceType pd)) then pure []
      else if str_is (deviceType pd) "V5008" then _processV5008 pd
      else if str_is (deviceType pd) "V6800" then _processV6800 pd
      else pure []
  end.

End UnifyNormalizer.

(* ===================================================================== *)
(** ** V6800Parser: the JSON adapter, RFID action inference               *)
(* ===================================================================== *)

Module V6800Parser.

#[local] Set Warnings "-register-all".

(** A value produced by [JSON.parse]. The property list of an object has
    one entry per key. *)
Inductive json :=
| JsNull
| JsBool (b : bool)
| JsNum (q : Q)
| JsStr (s : string)
| JsArr (l : list json)
| JsObj (fields : list (string * json)).

Fixpoint assoc (k : string) (fs : list (string * json)) : option json :=
  match fs with
  | [] => None
  | (k', v) :: rest => if String.eqb k k' then Some v else assoc k rest
  end.

(** [v.k] for one of the keys the parser reads: a [TypeError] on [null],
    [undefined] ([None]) when the property is missing. *)
Definition prop (v : json) (k : string) : exn (option json) :=
  match v with
  | JsNull => Throw TypeError
  | JsObj fs => Ok (assoc k fs)
  | _ => Ok None
  end.

(** [x === n] for a number literal [n]. *)
Definition is_num (x : option json) (n : Z) : bool :=
  match x with
  | Some (JsNum q) => Qeq_bool q (inject_Z n)
  | _ => false
  end.

(** Truthiness, as [||] tests it. *)
Definition truthy (x : option json) : bool :=
  match x with
  | None | Some JsNull => false
  | Some (JsBool b) => b
  | Some (JsNum q) => negb (Qeq_bool q 0)
  | Some (JsStr s) => negb (String.eqb s "")
  | Some (JsArr _) | Some (JsObj _) => true
  end.

(** [a || b] *)
Definition or_else (a b : option json) : option json :=
  if truthy a then a else b.

(** One decoded tag record; a missing value is [undefined]. *)
Record ParsedTag := {
  p_uPos : option json;
  p_alarmStatus : option json;
  p_tagId : option json;
  p_action : jsopt string
}.

(** One decoded module block. [p_modIdSource] is the value the source
    then renders with [toString()]. *)
Record ParsedModule := {
  p_modAddr : option json;
  p_modIdSource : option json;
  p_items : list ParsedTag
}.

(** The action the state flags of one tag record stand for. *)
Definition inferAction (new_state old_state : option json) : jsopt string :=
  if bool_decide (is_Some new_state) && bool_decide (is_Some old_state) then
    if is_num new_state 1 && is_num old_state 0 then JVal "attached"
    else if is_num new_state 0 && is_num old_state 1 then JVal "detached"
    else JNull
  else JNull.

(** The body of the loop over [uData]. *)
Definition parseTag (tagData : json) : exn ParsedTag :=
  new_state ← prop tagData "new_state";
  old_state ← prop tagData "old_state";
  u_index ← prop tagData "u_index";
  warning ← prop tagData "warning";
  tag_code ← prop tagData "tag_code";
  Ok {| p_uPos := u_index;
        p_alarmStatus := or_else warning (Some (JsNum 0));
        p_tagId := or_else (or_else tag_code tag_code) (Some JsNull);
        p_action := inferAction new_state old_state |}.

Fixpoint parseTags (uData : list json) : exn (list ParsedTag) :=
  match uData with
  | [] => Ok []
  | tagData :: rest =>
      item ← parseTag tagData;
      items_ ← parseTags rest;
      Ok (item :: items_)
  end.

(** The body of the loop over [rawJson.data]. *)
Definition parseModule (moduleData : json) : exn ParsedModule :=
  uData ← prop moduleData "u_data";
  items_ ← (match uData with
            | Some (JsArr l) => parseTags l
            | _ => Ok []
            end);
  port ← prop moduleData "host_gateway_port_index";
  index ← prop moduleData "index";
  sn ← prop moduleData "extend_module_sn";
  module_id ← prop moduleData "module_id";
  Ok {| p_modAddr := or_else port index;
        p_modIdSource := or_else (or_else sn module_id) (Some (JsStr ""));
        p_items := items_ |}.

Fixpoint parseModules (l : list json) : exn (list ParsedModule) :=
  match l with
  | [] => Ok []
  | moduleData :: rest =>
      m ← parseModule moduleData;
      ms ← parseModules rest;
      Ok (m :: ms)
  end.

(** [parseLabelState(rawJson, result)]: the [data] it stores in [result]. *)
Definition parseLabelState (rawJson : json) : exn (list ParsedModule) :=
  data_ ← prop rawJson "data";
  match data_ with
  | Some (JsArr l) => parseModules l
  | _ => Ok []
  end.

End V6800Parser.

(* ===================================================================== *)
(** ** Further runtime primitives                                         *)
(* ===================================================================== *)

Module JSText.

(** White space [parseInt] skips, for ASCII text. *)
Definition is_space (c : ascii) : bool :=
  let n := N_of_ascii c in
  ((9 <=? n) && (n <=? 13) || (n =? 32))%N.

Fixpoint skip_space (s : string) : string :=
  match s with
  | String c r => if is_space c then skip_space r else s
  | EmptyString => EmptyString
  end.

Definition digit_val (c : ascii) : option Z :=
  let n := N_of_ascii c in
  if ((48 <=? n) && (n <=? 57))%N then Some (Z.of_N n - 48) else None.

(** The longest run of decimal digits at the front of [s], read as a
    number on top of [acc]; [None] while no digit has been seen. *)
Fixpoint read_digits (s : string) (acc : option Z) : option Z :=
  match s with
  | String c r =>
      match digit_val c with
      | Some d => read_digits r (Some (10 * default 0 acc + d))
      | None => acc
      end
  | EmptyString => acc
  end.

(** [parseInt(s, 10)] on ASCII text; [None] is [NaN]. Integers below 2^53
    are exact in JavaScript, as they are here. *)
Definition parseInt10 (s : string) : option Z :=
  match skip_space s with
  | String "-" r => option_map Z.opp (read_digits r None)
  | String "+" r => read_digits r None
  | t => read_digits t None
  end.

(** [s.includes(sub)] *)
Fixpoint includes (sub s : string) : bool :=
  if String.prefix sub s then true
  else match s with
       | String _ r => includes sub r
       | EmptyString => false
       end.

End JSText.

(* ===================================================================== *)
(** ** StateCache: keys read back                                         *)
(* ===================================================================== *)

Module StateCacheKey.

(** [_parseKey(key)]: [[parts[0], parseInt(parts[1], 10)]] for
    [parts = key.split(':')]. [split] always yields a first part; a missing
    second part is [undefined], which [parseInt] turns into [NaN]. *)
Definition _parseKey (key_ : string) : option string * option Z :=
  let parts := JS.split ":" key_ in
  (nth_error parts 0,
   match nth_error parts 1 with
   | Some p => JSText.parseInt10 p
   | None => None
   end).

End StateCacheKey.

(* ===================================================================== *)
(** ** ParserRegistry                                                     *)
(* ===================================================================== *)

Module ParserRegistry.

Section Registry.

(** The registered values are parser classes. Their static method
    [canHandle(topic)] is not part of the source files at hand: it is a
    parameter, [None] for a class that lacks the method. *)
Variable ParserClass : Type.
Variable canHandle : ParserClass -> option (string -> bool).

(** [register(ParserClass)] on the list [this.parsers]; [None] is the
    [Error] thrown for a class without [canHandle]. *)
Definition register (parsers : list ParserClass) (p : ParserClass)
    : option (list ParserClass) :=
  match canHandle p with
  | None => None
  | Some _ => Some (parsers ++ [p])
  end.

(** The loop of [getParser]: the first class whose [canHandle] accepts the
    topic; calling a missing [canHandle] raises a [TypeError]. *)
Fixpoint firstMatch (parsers : list ParserClass) (topic_ : string)
    : exn (option ParserClass) :=
  match parsers with
  | [] => Ok None
  | p :: rest =>
      match canHandle p with
      | None => Throw TypeError
      | Some accepts => if accepts topic_ then Ok (Some p) else firstMatch rest topic_
      end
  end.

(** [getParser(topic)]; a [topic] that is not a string is [None]. *)
Definition getParser (parsers : list ParserClass) (topic_ : option string)
    : exn (option ParserClass) :=
  match topic_ with
  | None => Ok None
  | Some t => if String.eqb t "" then Ok None else firstMatch parsers t
  end.

(** [getParserCount()] *)
Definition getParserCount (parsers : list ParserClass) : nat := length parsers.

End Registry.

End ParserRegistry.

(* ===================================================================== *)
(** ** StorageService: from unified events to table operations            *)
(* ===================================================================== *)

Module StorageService.

(** A row of [iot_telemetry]; [created_at], a clock reading, is left out
    of all three row types. *)
Record TelemetryRow := {
  t_device_id : option string;
  t_device_type : string;
  t_mod_addr : Z;
  t_sensor_addr : Z;
  t_telemetry_key : string;
  t_telemetry_value : Value;
  t_timestamp : option string
}.

(** A row of [iot_rfid_events]. *)
Record RfidRow := {
  r_device_id : option string;
  r_device_type : string;
  r_mod_addr : Z;
  r_sensor_addr : Z;
  r_tag_id : jsopt string;
  r_action : jsopt string;
  r_timestamp : option string
}.

(** An upsert into [iot_device_state]. [s_payload] is the payload whose
    [JSON.stringify] text goes into [json_value]. *)
Record StateRow := {
  s_device_id : option string;
  s_device_type : string;
  s_mod_addr : Z;
  s_sensor_addr : Z;
  s_state_type : EventType;
  s_payload : Payload;
  s_timestamp : option string
}.

(** What [saveBatch] asks of the database, in order. *)
Inductive DbOp :=
| InsertTelemetry (rows : list TelemetryRow)
| InsertRfidEvents (rows : list RfidRow)
| UpsertState (row : StateRow).

(** [item.identity.modAddr || 0] *)
Definition orZero (x : option Z) : Z := default 0 x.

(** The text of a type, the property name [grouped] is keyed by. *)
Definition typeName (t : EventType) : string :=
  match t with
  | SYS_TELEMETRY => "SYS_TELEMETRY"
  | SYS_RFID_EVENT => "SYS_RFID_EVENT"
  | SYS_RFID_SNAPSHOT => "SYS_RFID_SNAPSHOT"
  | SYS_STATE_CHANGE => "SYS_STATE_CHANGE"
  | SYS_DEVICE_INFO => "SYS_DEVICE_INFO"
  | SYS_LIFECYCLE => "SYS_LIFECYCLE"
  | SYS_REQUIRE_SYNC => "SYS_REQUIRE_SYNC"
  end.

(** [_groupByType(normalizedDataArray)]: the groups as [Object.entries]
    lists them, that is in the order their types first occur. Every event
    of the embedding has a type, so the guard of the source never fires. *)
Fixpoint addToGroup (item : Event) (grouped : list (EventType * list Event))
    : list (EventType * list Event) :=
  match grouped with
  | [] => [(type item, [item])]
  | (t, g) :: rest =>
      if String.eqb (typeName t) (typeName (type item)) then (t, g ++ [item]) :: rest
      else (t, g) :: addToGroup item rest
  end.

Definition _groupByType (normalizedDataArray : list Event)
    : list (EventType * list Event) :=
  fold_left (fun grouped item => addToGroup item grouped) normalizedDataArray [].

Definition telemetryRow (item : Event) : TelemetryRow :=
  {| t_device_id := id_deviceId (identity item);
     t_device_type := id_deviceType (identity item);
     t_mod_addr := orZero (id_modAddr (identity item));
     t_sensor_addr := id_sensorAddr (identity item);
     t_telemetry_key := key (payload item);
     t_telemetry_value := value (payload item);
     t_timestamp := ev_ts item |}.

(** [item.payload.value.tagId] and [item.payload.value.action]: the fields
    of an RFID value, [undefined] on a value without them, a [TypeError]
    on a value that is [null] or [undefined]. *)
Definition rfidFields (v : Value) : exn (jsopt string * jsopt string) :=
  match v with
  | VRfid act tag _ _ => Ok (tag, act)
  | VScalar JUndef | VScalar JNull => Throw TypeError
  | _ => Ok (JUndef, JUndef)
  end.

Definition rfidRow (item : Event) : exn RfidRow :=
  f ← rfidFields (value (payload item));
  Ok {| r_device_id := id_deviceId (identity item);
        r_device_type := id_deviceType (identity item);
        r_mod_addr := orZero (id_modAddr (identity item));
        r_sensor_addr := id_sensorAddr (identity item);
        r_tag_id := fst f;
        r_action := snd f;
        r_timestamp := ev_ts item |}.

Fixpoint rfidRows (items_ : list Event) : exn (list RfidRow) :=
  match items_ with
  | [] => Ok []
  | item :: rest =>
      r ← rfidRow item;
      rs ← rfidRows rest;
      Ok (r :: rs)
  end.

Definition stateRow (t : EventType) (item : Event) : StateRow :=
  {| s_device_id := id_deviceId (identity item);
     s_device_type := id_deviceType (identity item);
     s_mod_addr := orZero (id_modAddr (identity item));
     s_sensor_addr := id_sensorAddr (identity item);
     s_state_type := t;
     s_payload := payload item;
     s_timestamp := ev_ts item |}.

(** What the [switch] of [saveBatch] does with one group. An empty group
    is turned away by each of the three methods. The rows of a group are
    prepared before its operation is issued; the database is taken to
    accept every operation. *)
Definition saveGroup (t : EventType) (data_ : list Event) : exn (list DbOp) :=
  match t with
  | SYS_TELEMETRY =>
      match data_ with
      | [] => Ok []
      | _ => Ok [InsertTelemetry (map telemetryRow data_)]
      end
  | SYS_RFID_EVENT =>
      match data_ with
      | [] => Ok []
      | _ => rows ← rfidRows data_; Ok [InsertRfidEvents rows]
      end
  | SYS_RFID_SNAPSHOT | SYS_STATE_CHANGE | SYS_DEVICE_INFO | SYS_LIFECYCLE =>
      Ok (map (fun item => UpsertState (stateRow t item)) data_)
  | SYS_REQUIRE_SYNC => Ok []
  end.

(** The loop over the groups: the operations done, and the error that
    ended the loop early, if any. *)
Fixpoint saveGroups (groups : list (EventType * list Event))
    : list DbOp * option js_error :=
  match groups with
  | [] => ([], None)
  | (t, data_) :: rest =>
      match saveGroup t data_ with
      | Ok ops => let (more, err) := saveGroups rest in (ops ++ more, err)
      | Throw e => ([], Some e)
      end
  end.

(** [saveBatch(normalizedDataArray)] for a service whose [isStarted] flag
    is [started]: the operations it performs and the error it rethrows, if
    any. *)
Definition saveBatch (started : bool) (normalizedDataArray : list Event)
    : list DbOp * option js_error :=
  if negb started then ([], None)
  else saveGroups (_groupByType normalizedDataArray).

(** [handleNormalizedData(normalizedDataArray)]: an empty array is turned
    away, and an error of [saveBatch] is caught and logged; what remains
    is the operations done. *)
Definition handleNormalizedData (started : bool) (normalizedDataArray : list Event)
    : list DbOp :=
  match normalizedDataArray with
  | [] => []
  | _ => fst (saveBatch started normalizedDataArray)
  end.

(** *** A database that may reject an operation *)

(** How a save can end early: an exception raised while the rows of a
    group are prepared, or an operation the database rejected. The three
    saving methods log a rejection and rethrow it, [saveBatch] does the
    same, and [handleNormalizedData] logs it and returns. *)
Inductive save_error :=
| Raised (e : js_error)
| Rejected (op : DbOp).

Section Database.

(** Whether the promise of an operation is fulfilled. *)
Variable accepts : DbOp -> bool.

(** The operations a method awaits, one after the other: those done, and
    the rejection that ended them, if any. *)
Fixpoint issue (ops : list DbOp) : list DbOp * option save_error :=
  match ops with
  | [] => ([], None)
  | op :: rest =>
      if accepts op then
        let (done, err) := issue rest in (op :: done, err)
      else ([], Some (Rejected op))
  end.

(** One group on such a database: the rows are prepared, then the
    operations are awaited. *)
Definition saveGroupOn (t : EventType) (data_ : list Event)
    : list DbOp * option save_error :=
  match saveGroup t data_ with
  | Ok ops => issue ops
  | Throw e => ([], Some (Raised e))
  end.

(** The loop over the groups of [saveBatch]; an error ends it. *)
Fixpoint saveGroupsOn (groups : list (EventType * list Event))
    : list DbOp * option save_error :=
  match groups with
  | [] => ([], None)
  | (t, data_) :: rest =>
      match saveGroupOn t data_ with
      | (done, None) =>
          let (more, err) := saveGroupsOn rest in (done ++ more, err)
      | (done, Some e) => (done, Some e)
      end
  end.

(** [saveBatch(normalizedDataArray)] on such a database: the operations
    done and the error rethrown, if any. *)
Definition saveBatchOn (started : bool) (normalizedDataArray : list Event)
    : list DbOp * option save_error :=
  if negb started then ([], None)
  else saveGroupsOn (_groupByType normalizedDataArray).

(** [handleNormalizedData(normalizedDataArray)] on such a database. *)
Definition handleNormalizedDataOn (started : bool) (normalizedDataArray : list Event)
    : list DbOp :=
  match normalizedDataArray with
  | [] => []
  | _ => fst (saveBatchOn started normalizedDataArray)
  end.

End Database.

End StorageService.

(* ===================================================================== *)
(** ** The application: from an MQTT message to normalized data           *)
(* ===================================================================== *)

Module App.

Section Wiring.

(** [V6800Parser.parse] reads its payload with [JSON.parse], which is
    outside this embedding: the whole method is a parameter here. *)
Variable parseV6800 : string -> Buffer -> option IM.

(** The handler of ['mqtt.message'] in [_wireEventHandlers]. The result is
    the array emitted as ['data.normalized'], [None] when nothing is
    emitted, with the shadow store the handler leaves. A rejection of
    [normalize] is caught by the handler and only logged. *)
Definition onMqttMessage (topic_ : string) (message_ : Buffer) (now : string)
    (cache : Cache) : option (list Event) * Cache :=
  let parsedData :=
    if JSText.includes "V5008" topic_ then V5008Parser.parse topic_ message_ now
    else if JSText.includes "V6800" topic_ then parseV6800 topic_ message_
    else None in
  match parsedData with
  | None => (None, cache)
  | Some pd =>
      match UnifyNormalizer.normalize (Some pd) cache with
      | (Ok normalizedData, cache') => (Some normalizedData, cache')
      | (Throw _, cache') => (None, cache')
      end
  end.

(** The handler followed by the storage service listening to
    ['data.normalized']. *)
Definition pipeline (started : bool) (topic_ : string) (message_ : Buffer)
    (now : string) (cache : Cache) : list StorageService.DbOp * Cache :=
  match onMqttMessage topic_ message_ now cache with
  | (Some normalizedData, cache') =>
      (StorageService.handleNormalizedData started normalizedData, cache')
  | (None, cache') => ([], cache')
  end.

End Wiring.

End App.

(* ===================================================================== *)
(** ** Vocabulary of the specification                                    *)
(* ===================================================================== *)

Import UnifyNormalizer.

#[global] Instance EventType_eq_dec : EqDecision EventType.
Proof. solve_decision. Defined.

(** The events of one type in a result. *)
Definition ofType (t : EventType) (evs : list Event) : list Event :=
  List.filter (fun e => bool_decide (type e = t)) evs.

Definition countType (t : EventType) (evs : list Event) : nat :=
  length (ofType t evs).

(** What an RFID event announces: its action and its position. *)
Definition rfidChange (e : Event) : option (jsopt string * Z) :=
  match type e, value (payload e) with
  | SYS_RFID_EVENT, VRfid act _ pos _ => Some (act, pos)
  | _, _ => None
  end.

(** The changes announced by a result, in the order of the events. *)
Fixpoint changes (evs : list Event) : list (jsopt string * Z) :=
  match evs with
  | [] => []
  | e :: rest =>
      match rfidChange e with
      | Some c => c :: changes rest
      | None => changes rest
      end
  end.

(** The positions a tag list mentions. *)
Definition positions (l : list TagItem) : list Z := map uPos l.

(** A frame given by its hexadecimal text, as the test-suite writes it. *)
Definition hexval (c : ascii) : N :=
  let n := N_of_ascii c in
  if (n <? 58)%N then (n - 48)%N else (n - 55)%N.

Fixpoint of_hex (s : string) : Buffer :=
  match s with
  | String a (String b r) =>
      match Byte.of_N (hexval a * 16 + hexval b) with
      | Some x => x :: of_hex r
      | None => []
      end
  | _ => []
  end.

(** What a module block without a shadow contributes to the patch path. *)
Definition missEvents (identity_ : BaseIdentity) (ts_ : option string)
    (m : ModuleBlock) : list Event :=
  map (passThrough identity_ (b_modAddr m) ts_) (default [] (b_items m))
  ++ [requireSyncEvent identity_ (b_modAddr m) ts_].

(** A parser keeps the envelope of the result it was given. *)
Definition keeps_envelope (r : IM) (out : exn (option IM)) : Prop :=
  forall pd, out = Ok (Some pd) ->
    deviceType pd = deviceType r /\ messageType pd = messageType r
    /\ deviceId pd = deviceId r.

(** A state flag of a JSON tag record holds the number [n]. *)
Definition flag_is (v : V6800Parser.json) (n : Z) : Prop :=
  exists q, v = V6800Parser.JsNum q /\ (q == inject_Z n)%Q.

(** Case analysis on every raising step and every test of a parser body. *)
Ltac exn_cases H :=
  unfold mbind, exn_bind, JS.bind in H;
  repeat match type of H with
         | context [match ?m with Ok _ => _ | Throw _ => _ end] =>
             destruct m eqn:?; try discriminate H
         | context [if ?b then _ else _] =>
             destruct b eqn:?; try discriminate H
         end.

Ltac envelope_tac :=
  let pd := fresh "pd" in
  let H := fresh "H" in
  intros pd H; exn_cases H;
  inversion H; subst; repeat split; reflexivity.

(** The echoed request begins with byte 0xE4. *)
Definition begins_with_E4 (echoed : Buffer) : bool :=
  match echoed with
  | b :: _ => byte_val b =? 0xE4
  | [] => false
  end.

(** What a telemetry event reports: sensor address, key and value. *)
Definition telemetryView (e : Event) : Z * string * Value :=
  (id_sensorAddr (identity e), key (payload e), value (payload e)).

(** The module records of a heartbeat, as (address, id, slots). *)
Definition moduleView (m : ModuleRec) : option Z * option string * option Z :=
  (m_modAddr m, m_modId m, m_uTotal m).

(** The tag records of a message, as (position, alarm, id). *)
Definition tagView (i : TagItem) : Z * Z * jsopt string :=
  (uPos i, alarmStatus i, tagId i).

(** Every shadow of the store is a well-formed Map. *)
Definition cache_wf (cache : Cache) : Prop :=
  forall k m, cache !! k = Some m -> JSMap.wf m.

(** *** Concrete inputs *)

Module Examples.

Import V6800Parser.

(** A message with an envelope and nothing else. *)
Definition envelope (deviceType_ deviceId_ messageType_ ts_ : string) : IM :=
  {| topic := None; message := None; deviceType := Some deviceType_;
     deviceId := Some deviceId_; messageType := Some messageType_;
     ts := Some ts_; rawMessageType := None; messageId := None;
     modAddr := None; modId := None; uTotal := None; onlineCount := None;
     items := None; sensors := None; modules := None; meta := None;
     doorState := None; result := None; originalReq := None; colorMap := None;
     model := None; fwVer := None; ip := None; mask := None;
     gatewayIp := None; mac := None; data := None; device := None |}.

Definition tag (pos : Z) (id : string) : TagItem :=
  {| uPos := pos; alarmStatus := 0; tagId := JVal id; action := JUndef |}.

Definition event (pos : Z) (id act : string) : TagItem :=
  {| uPos := pos; alarmStatus := 0; tagId := JVal id; action := JVal act |}.

(** The three tags of the LabelState message of the normalizer tests. *)
Definition threeTags : list TagItem :=
  [tag 10 "DD344A44"; tag 11 "DD2862B4"; tag 12 "DD3CE9C4"].

Definition labelStateMsg (ts_ : string) (l : list TagItem) : IM :=
  set_items l
    (set_modId "2349402517"
      (set_modAddr 2 (envelope "V5008" "2437871205" "LabelState" ts_))).

(** The same message without its tag list. *)
Definition labelStateNoItems : IM :=
  set_modAddr 2 (envelope "V5008" "2437871205" "LabelState" "t0").

(** A store whose shadow of module 2 holds positions 10 and 13. *)
Definition storeWith10and13 : Cache :=
  <["2437871205:2" :=
      [(10, {| td_tagId := JVal "DD344A44"; td_alarmStatus := 0 |});
       (13, {| td_tagId := JVal "DDAAAAAA"; td_alarmStatus := 0 |})]]> ∅.

(** The first event of the patching test: one attach at position 3. *)
Definition attachBlock : ModuleBlock :=
  {| b_modAddr := Some 2; b_modId := Some "3963041727";
     b_items := Some [event 3 "DD23B0B4" "attached"] |}.

Definition attachMsg : IM :=
  set_data [attachBlock] (envelope "V6800" "2123456789" "LABEL_STATE" "t0").

(** The frames of the parser tests. *)
Definition heartbeatFrame : Buffer :=
  of_hex ("CC01EC3737BF06028C0909950C0300000000000400000000000500000000"
          +:+ "000600000000000700000000000800000000000900000000000A0000000000"
          +:+ "F200168F").

Definition labelStateFrame : Buffer :=
  of_hex "BB028C090995000C030A00DD344A440B00DD2862B40C00DD3CE9C4050007AD".

Definition temHumFrame : Buffer :=
  of_hex ("01EC3737BF0A1C30331B0B1C08330B0C000000000D000000000E000000000F00000000"
          +:+ "01012CC3").

Definition doorFrame : Buffer := of_hex "BA01EC3737BF010B01C7F8".

Definition colorQueryFrame : Buffer := of_hex "AA914EF665A1E4010000000D0D0825015D4C".

(** Scenario B: the JSON document of the V6800 RFID parser test. *)
Definition num (n : Z) : json := JsNum (inject_Z n).

Definition tagRecord (u_index new_state old_state : Z) (tag_code : string) : json :=
  JsObj [("u_index", num u_index); ("new_state", num new_state);
         ("old_state", num old_state); ("tag_code", JsStr tag_code);
         ("warning", num 0)].

Definition scenarioB : json :=
  JsObj [("msg_type", JsStr "u_state_changed_notify_req");
         ("gateway_sn", JsStr "2123456789");
         ("uuid_number", num 727046823);
         ("data",
          JsArr [JsObj [("host_gateway_port_index", num 2);
                        ("extend_module_sn", JsStr "3963041727");
                        ("u_data",
                         JsArr [tagRecord 3 1 0 "DD23B0B4";
                                tagRecord 1 0 1 "DD395064"])]])].

End Examples.

(* ===================================================================== *)
(** ** Vocabulary of the further properties                               *)
(* ===================================================================== *)

(** Every character of a text passes a test. *)
Fixpoint all_chars (p : ascii -> bool) (s : string) : bool :=
  match s with
  | EmptyString => true
  | String c r => p c && all_chars p r
  end.

(** A character of a decimal numeral: a digit or the minus sign. *)
Definition numeral_char (c : ascii) : bool :=
  let n := N_of_ascii c in
  ((48 <=? n) && (n <=? 57) || (n =? 45))%N.

Definition not_colon (c : ascii) : bool := negb (Ascii.eqb c ":").

(** What one inbound item does to the entry of position [u] in the working
    copy of the patch path. *)
Definition effectAt (u : Z) (x : option TagData) (item : TagItem) : option TagData :=
  if uPos item =? u then
    match action item with
    | JVal a =>
        if String.eqb a "attached" then
          Some {| td_tagId := tagId item; td_alarmStatus := alarmStatus item |}
        else if String.eqb a "detached" then None
        else x
    | _ => x
    end
  else x.

(** The record a tag list holds last for position [u]. *)
Definition lastAt (u : Z) (l : list TagItem) : option TagData :=
  fold_left
    (fun x item =>
       if uPos item =? u then
         Some {| td_tagId := tagId item; td_alarmStatus := alarmStatus item |}
       else x)
    l None.

(** The snapshot a result ends with, if it ends with one. *)
Definition lastSnapshot (evs : list Event) : option (list SnapshotItem) :=
  match last evs with
  | Some e =>
      match type e, value (payload e) with
      | SYS_RFID_SNAPSHOT, VSnapshot _ snap => Some snap
      | _, _ => None
      end
  | None => None
  end.

(** The type of an event fixes the shape of its payload. *)
Definition well_shaped (e : Event) : Prop :=
  match type e with
  | SYS_RFID_EVENT =>
      key (payload e) = "rfid_event"
      /\ exists act tag pos alarm, value (payload e) = VRfid act tag pos alarm
  | SYS_RFID_SNAPSHOT =>
      key (payload e) = "rfid_snapshot"
      /\ exists mod_id snap, value (payload e) = VSnapshot mod_id snap
  | SYS_REQUIRE_SYNC =>
      key (payload e) = "require_sync" /\ value (payload e) = VSync "cache_miss"
  | SYS_TELEMETRY =>
      In (key (payload e)) ["temperature"; "humidity"; "noise"; "voltage"; "current"]
      /\ exists v, value (payload e) = VScalar v
  | SYS_STATE_CHANGE =>
      In (key (payload e)) ["door_state"; "operation_result"]
      /\ (value (payload e) = VFlag 0 \/ value (payload e) = VFlag 1)
  | SYS_DEVICE_INFO =>
      In (key (payload e)) ["device_info"; "module_info"]
  | SYS_LIFECYCLE =>
      key (payload e) = "device_status"
      /\ (value (payload e) = VText "online"
          \/ value (payload e) = VText "backup_power")
  end.

(** The number of rows and upserts a list of operations writes. *)
Definition rowsWritten (ops : list StorageService.DbOp) : nat :=
  list_sum
    (map (fun op =>
            match op with
            | StorageService.InsertTelemetry rows => length rows
            | StorageService.InsertRfidEvents rows => length rows
            | StorageService.UpsertState _ => 1%nat
            end) ops).


(** A sensor record as the noise decoder of the binary adapter builds it:
    one reading under the key "noise", never zero, and present only at the
    addresses 16 to 18. *)
Definition noise_sensor (s : Sensor) : Prop :=
  exists v, props s = [("noise", v)]
    /\ (forall q, v = Some q -> ~ (q == 0)%Q)
    /\ (v <> None -> 16 <= sensorAddr s <= 18).

(** The number of events in the groups whose type passes a test. *)
Definition groupedCount (p : EventType -> bool)
    (groups : list (EventType * list Event)) : nat :=
  list_sum (map (fun tg => if p (fst tg) then length (snd tg) else 0%nat) groups).

Definition isSync (t : EventType) : bool := bool_decide (t = SYS_REQUIRE_SYNC).

(** An operation that writes telemetry rows or a lifecycle state. *)
Definition telemetryOrLifecycleOp (op : StorageService.DbOp) : Prop :=
  match op with
  | StorageService.InsertTelemetry _ => True
  | StorageService.InsertRfidEvents _ => False
  | StorageService.UpsertState row => StorageService.s_state_type row = SYS_LIFECYCLE
  end.

(** A registry filled by successive calls of [register], the first of
    which to throw ends the filling. *)
Definition registerAll {ParserClass : Type}
    (canHandle : ParserClass -> option (string -> bool))
    (classes : list ParserClass) : option (list ParserClass) :=
  fold_left
    (fun acc p =>
       match acc with
       | Some parsers => ParserRegistry.register ParserClass canHandle parsers p
       | None => None
       end)
    classes (Some []).

(** A class whose [canHandle] turns the topic down. *)
Definition declines {ParserClass : Type}
    (canHandle : ParserClass -> option (string -> bool)) (t : string)
    (q : ParserClass) : Prop :=
  exists accepts, canHandle q = Some accepts /\ accepts t = false.




(** Among the messages whose lists hold records, those [normalize]
    rejects: an RFID message of either adapter that lacks a list the RFID
    paths iterate. *)
Definition lacks_list (pd : IM) : Prop :=
  (deviceType pd = Some "V5008" /\ messageType pd = Some "LabelState"
   /\ items pd = None)
  \/ (deviceType pd = Some "V6800" /\ messageType pd = Some "LABEL_STATE"
      /\ (data pd = None
          \/ exists blocks, data pd = Some blocks
                /\ Exists (fun b => b_items b = None) blocks)).

(** *** Further concrete inputs *)

Module Scenarios.

(** A shadow of module 2 of a V6800 gateway holding positions 3 and 5. *)
Definition shadow3and5 : JSMap.t TagData :=
  [(3, {| td_tagId := JVal "DD23B0B4"; td_alarmStatus := 0 |});
   (5, {| td_tagId := JVal "DD395064"; td_alarmStatus := 0 |})].

Definition storeWith3and5 : Cache := <["2123456789:2" := shadow3and5]> ∅.

(** A block that detaches position 3, and the message that carries it. *)
Definition detachItems : list TagItem := [Examples.event 3 "DD23B0B4" "detached"].

Definition detachBlock : ModuleBlock :=
  {| b_modAddr := Some 2; b_modId := Some "3963041727";
     b_items := Some detachItems |}.

Definition patchEnvelope : IM :=
  Examples.envelope "V6800" "2123456789" "LABEL_STATE" "t1".

Definition detachMsg : IM := set_data [detachBlock] patchEnvelope.

(** A block without an item list. *)
Definition brokenBlock : ModuleBlock :=
  {| b_modAddr := Some 4; b_modId := None; b_items := None |}.

(** Tags at the positions of [Examples.storeWith10and13], with other ids. *)
Definition replacedTags : list TagItem :=
  [Examples.tag 10 "FFFFFFFF"; Examples.tag 13 "EEEEEEEE"].

(** A noise frame: module 1, the slots 16 (45.50), 17 (no reading) and
    18 (42.15), and a message id. *)
Definition noiseFrame : Buffer := of_hex "01EC3737BF102D32110000122A0F01012CC3".

(** The events a cache miss resolves to. *)
Definition missResult : list Event :=
  [passThrough {| bi_deviceId := Some "2123456789"; bi_deviceType := "V6800" |}
     (Some 2) (Some "t0") (Examples.event 3 "DD23B0B4" "attached");
   requireSyncEvent {| bi_deviceId := Some "2123456789"; bi_deviceType := "V6800" |}
     (Some 2) (Some "t0")].

(** A database that rejects every insert into the RFID table. *)
Definition rejectsRfid (op : StorageService.DbOp) : bool :=
  match op with
  | StorageService.InsertRfidEvents _ => false
  | _ => true
  end.

(** Two parser classes, known by name, that accept the topics naming
    their device type; any other name is a class without [canHandle]. *)
Definition sampleCanHandle (c : string) : option (string -> bool) :=
  if String.eqb c "V5008Parser" then Some (JSText.includes "V5008")
  else if String.eqb c "V6800Parser" then Some (JSText.includes "V6800")
  else None.

Definition sampleClasses : list string := ["V5008Parser"; "V6800Parser"].


(** A device-information response (header 0xEF, sub-header 0x01). *)
Definition deviceInfoFrame : Buffer :=
  of_hex ("EF015635303800010203C0A80164FFFFFF00C0A80101001122334455"
          +:+ "0000002A").

End Scenarios.
(* ===================================================================== *)
(** ** Properties of the Map model                                        *)
(* ===================================================================== *)

Section JSMapFacts.
Context {V : Type}.
Implicit Types (m : JSMap.t V) (k : Z) (v : V).

Lemma has_In k m : JSMap.has k m = true <-> In k (JSMap.keys m).
Proof.
  induction m as [|[k' v'] m IH]; simpl.
  - split; [discriminate | tauto].
  - destruct (Z.eqb_spec k k') as [->|Hne].
    + split; auto.
    + rewrite IH. split; [auto | intros [H|H]; [congruence | exact H]].
Qed.

Lemma has_false_In k m : JSMap.has k m = false <-> ~ In k (JSMap.keys m).
Proof.
  rewrite <- has_In. destruct (JSMap.has k m); split; congruence.
Qed.

Lemma keys_set k v m :
  JSMap.keys (JSMap.set k v m)
  = if JSMap.has k m then JSMap.keys m else JSMap.keys m ++ [k].
Proof.
  induction m as [|[k' v'] m IH]; simpl; [reflexivity|].
  destruct (Z.eqb_spec k k') as [->|Hne]; simpl; [reflexivity|].
  rewrite IH. destruct (JSMap.has k m); reflexivity.
Qed.

Lemma In_keys_set k k0 v m :
  In k0 (JSMap.keys (JSMap.set k v m)) <-> k0 = k \/ In k0 (JSMap.keys m).
Proof.
  rewrite keys_set. destruct (JSMap.has k m) eqn:E.
  - apply has_In in E. split; [auto | intros [->|H]; auto].
  - rewrite in_app_iff. simpl. split; intros H.
    + destruct H as [H|[H|[]]]; auto.
    + destruct H as [H|H]; auto.
Qed.

Lemma wf_set k v m : JSMap.wf m -> JSMap.wf (JSMap.set k v m).
Proof.
  unfold JSMap.wf. intros Hm. rewrite keys_set.
  destruct (JSMap.has k m) eqn:E; [exact Hm|].
  apply has_false_In in E.
  apply List.NoDup_app; [exact Hm | repeat constructor; simpl; tauto |].
  intros a Ha [<-|[]]. contradiction.
Qed.

Lemma wf_delete k m : JSMap.wf m -> JSMap.wf (JSMap.delete k m).
Proof.
  unfold JSMap.wf. induction m as [|[k' v'] m IH]; simpl; intros Hm; [exact Hm|].
  inversion Hm as [|? ? Hnotin Hm']; subst.
  destruct (Z.eqb_spec k k'); [exact Hm'|].
  simpl. constructor; [|auto].
  intros Hin. apply Hnotin. clear - Hin.
  induction m as [|[k2 v2] m IH]; simpl in *; [exact Hin|].
  destruct (k =? k2); simpl in *; tauto.
Qed.

End JSMapFacts.

Lemma buildCurrTags_acc (l : list TagItem) (acc : JSMap.t TagData) :
  JSMap.wf acc ->
  let m := fold_left
             (fun m item =>
                JSMap.set (uPos item)
                  {| td_tagId := tagId item; td_alarmStatus := alarmStatus item |} m)
             l acc in
  JSMap.wf m /\
  forall k, In k (JSMap.keys m) <-> In k (JSMap.keys acc) \/ In k (positions l).
Proof.
  revert acc. induction l as [|item l IH]; simpl; intros acc Hacc.
  - split; [exact Hacc | tauto].
  - specialize (IH _ (wf_set (uPos item)
        {| td_tagId := tagId item; td_alarmStatus := alarmStatus item |} acc Hacc)).
    destruct IH as [Hwf Hkeys]. split; [exact Hwf|].
    intros k. rewrite Hkeys, In_keys_set. intuition.
Qed.

Lemma buildCurrTags_wf (l : list TagItem) : JSMap.wf (buildCurrTags l).
Proof. apply (buildCurrTags_acc l JSMap.empty). constructor. Qed.

Lemma buildCurrTags_keys (l : list TagItem) (k : Z) :
  In k (JSMap.keys (buildCurrTags l)) <-> In k (positions l).
Proof.
  destruct (buildCurrTags_acc l JSMap.empty) as [_ H]; [constructor|].
  rewrite (H k). simpl. tauto.
Qed.

(* ===================================================================== *)
(** ** The diff path (V5008 LabelState)                                   *)
(* ===================================================================== *)


Lemma ofType_app (t : EventType) (a b : list Event) :
  ofType t (a ++ b) = ofType t a ++ ofType t b.
Proof. apply List.filter_app. Qed.

Section DiffEvents.
Variables (identity_ : BaseIdentity) (modAddr_ : option Z) (ts_ : option string).
Variable act : string.




(** Nothing is announced when every position of [from] is in [other]. *)
Lemma diffEvents_covered (from other : JSMap.t TagData) :
  (forall k, In k (JSMap.keys from) -> In k (JSMap.keys other)) ->
  diffEvents identity_ modAddr_ ts_ act from other = [].
Proof.
  unfold diffEvents, JSMap.entries.
  induction from as [|[k v] from IH]; simpl; intros Hsub; [reflexivity|].
  assert (Hk : JSMap.has k other = true) by (apply has_In; auto).
  rewrite Hk. simpl. apply IH. auto.
Qed.



End DiffEvents.

(** What [normalize] does with a V5008 LabelState message that has a tag
    list. *)
Lemma normalize_LabelState (cache : Cache) (pd : IM) (l : list TagItem) :
  deviceType pd = Some "V5008" ->
  messageType pd = Some "LabelState" ->
  items pd = Some l ->
  normalize (Some pd) cache
  = let identity_ := {| bi_deviceId := deviceId pd; bi_deviceType := "V5008" |} in
    let prev := default JSMap.empty (StateCache.get cache (deviceId pd) (modAddr pd)) in
    let curr := buildCurrTags l in
    (Ok (diffEvents identity_ (modAddr pd) (ts pd) "detached" prev curr
         ++ diffEvents identity_ (modAddr pd) (ts pd) "attached" curr prev
         ++ [snapshotEvent identity_ (modAddr pd) (ts pd) (modId pd) curr]),
     StateCache.set cache (deviceId pd) (modAddr pd) curr).
Proof.
  intros Hdt Hmt Hit.
  unfold normalize, _processV5008, _processV5008Rfid.
  rewrite Hdt, Hmt, Hit. reflexivity.
Qed.

Lemma get_set_same (cache : Cache) (d : option string) (a : option Z)
    (m : JSMap.t TagData) :
  StateCache.get (StateCache.set cache d a m) d a = Some m.
Proof. unfold StateCache.get, StateCache.set. apply lookup_insert_eq. Qed.


(** The diff engine finds nothing when the shadow is the map the same tag
    list built. *)
Lemma diffEvents_same (identity_ : BaseIdentity) (a : option Z) (ts_ : option string)
    (act : string) (m : JSMap.t TagData) :
  diffEvents identity_ a ts_ act m m = [].
Proof. apply diffEvents_covered. auto. Qed.

(** C3. Idempotence of the diff path. After a V5008 LabelState message
    with tag list [l] has been normalized, normalizing a message for the
    same device and module with the same tag list again yields the trailing
    snapshot and nothing else, and leaves the store as it was. *)
Theorem diff_path_idempotent (cache : Cache) (pd pd' : IM) (l : list TagItem) :
  deviceType pd = Some "V5008" ->
  messageType pd = Some "LabelState" ->
  items pd = Some l ->
  deviceType pd' = Some "V5008" ->
  messageType pd' = Some "LabelState" ->
  items pd' = Some l ->
  deviceId pd' = deviceId pd ->
  modAddr pd' = modAddr pd ->
  exists evs1 cache1,
    normalize (Some pd) cache = (Ok evs1, cache1) /\
    normalize (Some pd') cache1
    = (Ok [snapshotEvent {| bi_deviceId := deviceId pd; bi_deviceType := "V5008" |}
             (modAddr pd) (ts pd') (modId pd') (buildCurrTags l)],
       cache1) /\
    countType SYS_RFID_EVENT
      [snapshotEvent {| bi_deviceId := deviceId pd; bi_deviceType := "V5008" |}
         (modAddr pd) (ts pd') (modId pd') (buildCurrTags l)] = 0%nat.
Proof.
  intros Hdt Hmt Hit Hdt' Hmt' Hit' Hid Hma.
  rewrite (normalize_LabelState cache pd l Hdt Hmt Hit). cbv zeta.
  eexists _, _. split; [reflexivity|]. split; [|reflexivity].
  rewrite (normalize_LabelState _ pd' l Hdt' Hmt' Hit'). cbv zeta.
  rewrite Hid, Hma, get_set_same. simpl.
  rewrite !diffEvents_same. simpl. f_equal.
  unfold StateCache.set. apply insert_insert_eq.
Qed.

(* ===================================================================== *)
(** ** The patch path (V6800 LABEL_STATE)                                 *)
(* ===================================================================== *)

Section PatchMiss.
Variables (identity_ : BaseIdentity) (ts_ : option string).

(** While every block misses the store, the loop only passes events
    through and asks for a resync; it never writes. *)
Lemma rfidModules_all_miss (cache : Cache) (blocks : list ModuleBlock)
    (results : list Event) :
  Forall (fun m => StateCache.get cache (bi_deviceId identity_) (b_modAddr m) = None
                   /\ is_Some (b_items m)) blocks ->
  rfidModules identity_ ts_ blocks results cache
  = (Ok (results ++ flat_map (missEvents identity_ ts_) blocks), cache).
Proof.
  intros Hall. revert results.
  induction Hall as [|m blocks [Hmiss [its Hits]] _ IH]; intros results; simpl.
  - rewrite app_nil_r. reflexivity.
  - rewrite Hmiss, Hits, IH. unfold missEvents at 2. rewrite Hits. simpl.
    rewrite <- !app_assoc. reflexivity.
Qed.

Lemma ofType_passThrough (a : option Z) (its : list TagItem) (t : EventType) :
  ofType t (map (passThrough identity_ a ts_) its)
  = if bool_decide (SYS_RFID_EVENT = t)
    then map (passThrough identity_ a ts_) its else [].
Proof.
  unfold ofType. induction its as [|i its IH]; simpl.
  - destruct (bool_decide _); reflexivity.
  - rewrite IH. destruct t; reflexivity.
Qed.

End PatchMiss.

(** C2. Cache-miss gating. When the store has no shadow for the module of
    the block a V6800 LABEL_STATE message carries, [normalize] resolves to
    the pass-through event of each of the [N] items, in order, followed by
    one SYS_REQUIRE_SYNC with reason cache_miss: [N] RFID events, one
    resync request, no snapshot; and the store is left as it was, with no
    entry for that module. The pass-through event of an item is the RFID
    event that carries the action, tag id, position and alarm flag of the
    item, under the module address of the block and the position of the
    item as sensor address, with the timestamp of the message. *)
Theorem patch_path_cache_miss (cache : Cache) (pd : IM) (m : ModuleBlock)
    (its : list TagItem) :
  deviceType pd = Some "V6800" ->
  messageType pd = Some "LABEL_STATE" ->
  data pd = Some [m] ->
  b_items m = Some its ->
  StateCache.get cache (deviceId pd) (b_modAddr m) = None ->
  exists evs cache',
    normalize (Some pd) cache = (Ok evs, cache') /\
    evs = map (passThrough {| bi_deviceId := deviceId pd; bi_deviceType := "V6800" |}
                 (b_modAddr m) (ts pd)) its
          ++ [requireSyncEvent {| bi_deviceId := deviceId pd; bi_deviceType := "V6800" |}
                (b_modAddr m) (ts pd)] /\
    evs = map (fun item =>
                 {| identity := {| id_deviceId := deviceId pd; id_deviceType := "V6800";
                                   id_modAddr := b_modAddr m;
                                   id_sensorAddr := uPos item |};
                    type := SYS_RFID_EVENT;
                    ev_ts := ts pd;
                    payload := {| key := "rfid_event";
                                  value := VRfid (action item) (tagId item) (uPos item)
                                             (alarmStatus item);
                                  raw := RawNone |} |})
              its
          ++ [{| identity := {| id_deviceId := deviceId pd; id_deviceType := "V6800";
                                id_modAddr := b_modAddr m; id_sensorAddr := 0 |};
                 type := SYS_REQUIRE_SYNC;
                 ev_ts := ts pd;
                 payload := {| key := "require_sync"; value := VSync "cache_miss";
                               raw := RawNone |} |}] /\
    value (payload (requireSyncEvent
                      {| bi_deviceId := deviceId pd; bi_deviceType := "V6800" |}
                      (b_modAddr m) (ts pd))) = VSync "cache_miss" /\
    countType SYS_RFID_EVENT evs = length its /\
    countType SYS_REQUIRE_SYNC evs = 1%nat /\
    countType SYS_RFID_SNAPSHOT evs = 0%nat /\
    cache' = cache /\
    StateCache.get cache' (deviceId pd) (b_modAddr m) = None.
Proof.
  intros Hdt Hmt Hdata Hits Hmiss.
  unfold normalize, _processV6800, _processV6800Rfid.
  rewrite Hdt, Hmt, Hdata.
  cbn [truthy_str str_is negb String.eqb Ascii.eqb Bool.eqb bi_deviceId].
  rewrite rfidModules_all_miss.
  2:{ repeat constructor; [exact Hmiss | rewrite Hits; eauto]. }
  simpl. unfold missEvents. rewrite Hits, app_nil_r. simpl.
  eexists _, _. split; [reflexivity|].
  split; [reflexivity|]. split; [reflexivity|].
  repeat split; try assumption.
  - unfold countType. rewrite ofType_app, ofType_passThrough. simpl.
    rewrite length_app, length_map. simpl. lia.
  - unfold countType. rewrite ofType_app, ofType_passThrough. reflexivity.
  - unfold countType. rewrite ofType_app, ofType_passThrough. reflexivity.
Qed.

(* ===================================================================== *)
(** ** The binary adapter: what [parse] hands to the normalizer           *)
(* ===================================================================== *)

Lemma parseLabelState_envelope buf r :
  keeps_envelope r (V5008Parser.parseLabelState buf r).
Proof. unfold V5008Parser.parseLabelState. envelope_tac. Qed.

Lemma parseHeartbeat_envelope buf r mid :
  keeps_envelope r (V5008Parser.parseHeartbeat buf r mid).
Proof. unfold V5008Parser.parseHeartbeat. envelope_tac. Qed.

Lemma parseDoorState_envelope buf r mid :
  keeps_envelope r (V5008Parser.parseDoorState buf r mid).
Proof. unfold V5008Parser.parseDoorState. envelope_tac. Qed.

Lemma parseAAResponse_envelope buf r mid :
  keeps_envelope r (V5008Parser.parseAAResponse buf r mid).
Proof. unfold V5008Parser.parseAAResponse. envelope_tac. Qed.

Lemma parseDeviceInfoResponse_envelope buf r mid :
  keeps_envelope r (V5008Parser.parseDeviceInfoResponse buf r mid).
Proof. unfold V5008Parser.parseDeviceInfoResponse. envelope_tac. Qed.

Lemma parseModuleInfoResponse_envelope buf r mid :
  keeps_envelope r (V5008Parser.parseModuleInfoResponse buf r mid).
Proof. unfold V5008Parser.parseModuleInfoResponse. envelope_tac. Qed.

Lemma parseTemHum_envelope buf r :
  keeps_envelope r (V5008Parser.parseTemHum buf r).
Proof. unfold V5008Parser.parseTemHum. envelope_tac. Qed.

Lemma parseNoise_envelope buf r :
  keeps_envelope r (V5008Parser.parseNoise buf r).
Proof. unfold V5008Parser.parseNoise. envelope_tac. Qed.

Lemma parseOpeAck_envelope buf r :
  keeps_envelope r (V5008Parser.parseOpeAck buf r).
Proof.
  intros pd H. unfold V5008Parser.parseOpeAck in H.
  unfold mbind, exn_bind, JS.bind in H.
  destruct (readUInt8 buf 0) as [h|]; [|discriminate].
  destruct (V5008Parser.readBigUIntBE buf (buf_length buf - 4) 4) as [mid|];
    [|discriminate].
  destruct ((h =? 204) || (h =? 203)); [eapply parseHeartbeat_envelope; eauto|].
  destruct (h =? 186); [eapply parseDoorState_envelope; eauto|].
  destruct (h =? 187); [eapply parseLabelState_envelope; eauto|].
  destruct (h =? 170); [eapply parseAAResponse_envelope; eauto|].
  destruct (h =? 239); [|discriminate].
  destruct (buf_length buf >=? 2); [|discriminate].
  destruct (readUInt8 buf 1) as [sh|]; [|discriminate].
  destruct (sh =? 1); [eapply parseDeviceInfoResponse_envelope; eauto|].
  destruct (sh =? 2); [eapply parseModuleInfoResponse_envelope; eauto|].
  discriminate.
Qed.

(** Every message [parse] returns is a V5008 message whose type is the one
    the leading byte, or else the topic suffix, stands for. *)
Lemma parse_envelope (topic_ : string) (buf : Buffer) (now : string) (pd : IM) :
  V5008Parser.parse topic_ buf now = Some pd ->
  deviceType pd = Some "V5008" /\
  messageType pd
  = V5008Parser.messageType_of
      (match readUInt8 buf 0 with Ok h => Some h | Throw _ => None end)
      (nth_error (JS.split "/" topic_) 2).
Proof.
  unfold V5008Parser.parse, V5008Parser.parse_try. intros H.
  unfold mbind at 1, exn_bind at 1, JS.bind at 1 in H.
  assert (Hhdr :
    (if buf_length buf >? 0 then h ← readUInt8 buf 0; Ok (Some h) else Ok None)
    = match readUInt8 buf 0 with
      | Ok h => Ok (Some h)
      | Throw _ => if buf_length buf >? 0 then Throw RangeError else Ok None
      end).
  { unfold readUInt8, buf_length. destruct buf as [|b buf']; reflexivity. }
  rewrite Hhdr in H. clear Hhdr.
  destruct (readUInt8 buf 0) as [h|e] eqn:Eh.
  - set (mt := V5008Parser.messageType_of (Some h) (nth_error (split "/" topic_) 2)) in *.
    set (r := V5008Parser.base_result _ _ _ mt now) in *.
    assert (Hr : forall out, keeps_envelope r out ->
                 match out with Ok r0 => r0 | Throw _ => None end = Some pd ->
                 deviceType pd = Some "V5008" /\ messageType pd = mt).
    { intros out Hk Ho. destruct out as [[pd0|]|]; try discriminate.
      inversion Ho; subst. destruct (Hk pd eq_refl) as (H1 & H2 & _).
      rewrite H1, H2. split; reflexivity. }
    destruct (str_is mt "HEARTBEAT"); [apply (Hr _ (parseOpeAck_envelope _ _) H)|].
    destruct (str_is mt "LABEL_STATE"); [apply (Hr _ (parseLabelState_envelope _ _) H)|].
    destruct (str_is mt "DOOR_STATE"); [apply (Hr _ (parseOpeAck_envelope _ _) H)|].
    destruct (str_is mt "OPE_ACK"); [apply (Hr _ (parseOpeAck_envelope _ _) H)|].
    destruct (str_is mt "TemHum"); [apply (Hr _ (parseTemHum_envelope _ _) H)|].
    destruct (str_is mt "Noise"); [apply (Hr _ (parseNoise_envelope _ _) H)|].
    discriminate.
  - destruct (buf_length buf >? 0); [discriminate|].
    set (mt := V5008Parser.messageType_of None (nth_error (split "/" topic_) 2)) in *.
    set (r := V5008Parser.base_result _ _ _ mt now) in *.
    assert (Hr : forall out, keeps_envelope r out ->
                 match out with Ok r0 => r0 | Throw _ => None end = Some pd ->
                 deviceType pd = Some "V5008" /\ messageType pd = mt).
    { intros out Hk Ho. destruct out as [[pd0|]|]; try discriminate.
      inversion Ho; subst. destruct (Hk pd eq_refl) as (H1 & H2 & _).
      rewrite H1, H2. split; reflexivity. }
    destruct (str_is mt "HEARTBEAT"); [apply (Hr _ (parseOpeAck_envelope _ _) H)|].
    destruct (str_is mt "LABEL_STATE"); [apply (Hr _ (parseLabelState_envelope _ _) H)|].
    destruct (str_is mt "DOOR_STATE"); [apply (Hr _ (parseOpeAck_envelope _ _) H)|].
    destruct (str_is mt "OPE_ACK"); [apply (Hr _ (parseOpeAck_envelope _ _) H)|].
    destruct (str_is mt "TemHum"); [apply (Hr _ (parseTemHum_envelope _ _) H)|].
    destruct (str_is mt "Noise"); [apply (Hr _ (parseNoise_envelope _ _) H)|].
    discriminate.
Qed.

(** The V5008 switch of the normalizer matches six spellings and nothing
    else: any other message type resolves to no event. *)
Lemma normalize_V5008_unmatched (cache : Cache) (pd : IM) (mt : string) :
  deviceType pd = Some "V5008" ->
  messageType pd = Some mt ->
  ~ In mt ["OpeAck"; "LabelState"; "TemHum"; "Noise"; "HeartBeat"; "HEARTBEAT"] ->
  normalize (Some pd) cache = (Ok [], cache).
Proof.
  intros Hdt Hmt Hnot. unfold normalize, _processV5008. rewrite Hdt, Hmt.
  cbn [truthy_str str_is negb].
  assert (Hne : forall s, In s ["OpeAck"; "LabelState"; "TemHum"; "Noise";
                               "HeartBeat"; "HEARTBEAT"] -> String.eqb mt s = false).
  { intros s Hs. apply String.eqb_neq. intros ->. contradiction. }
  rewrite !Hne by (simpl; tauto). reflexivity.
Qed.

(** C4. Adapter-A frames of the header-assigned types produce nothing.
    When the binary adapter decodes a frame whose leading byte is 0xBB,
    0xBA or 0xAA, the message it returns has type "LABEL_STATE",
    "DOOR_STATE" or "OPE_ACK" respectively, and [normalize] resolves that
    message to the empty event sequence without touching the store. *)
Theorem header_typed_frames_yield_nothing (topic_ : string) (buf : Buffer)
    (now : string) (pd : IM) (h : Z) (cache : Cache) :
  readUInt8 buf 0 = Ok h ->
  h = 0xBB \/ h = 0xBA \/ h = 0xAA ->
  V5008Parser.parse topic_ buf now = Some pd ->
  deviceType pd = Some "V5008" /\
  messageType pd
  = Some (if h =? 0xBB then "LABEL_STATE"
          else if h =? 0xBA then "DOOR_STATE" else "OPE_ACK") /\
  normalize (Some pd) cache = (Ok [], cache).
Proof.
  intros Hh Hcase Hparse.
  destruct (parse_envelope topic_ buf now pd Hparse) as [Hdt Hmt].
  rewrite Hh in Hmt.
  assert (Hmt' : messageType pd
                 = Some (if h =? 0xBB then "LABEL_STATE"
                         else if h =? 0xBA then "DOOR_STATE" else "OPE_ACK")).
  { rewrite Hmt. destruct Hcase as [->|[->| ->]]; reflexivity. }
  split; [exact Hdt|]. split; [exact Hmt'|].
  eapply normalize_V5008_unmatched; [exact Hdt | exact Hmt' |].
  destruct Hcase as [->|[->| ->]]; simpl; intuition discriminate.
Qed.

(* ===================================================================== *)
(** ** OPE_ACK responses of the binary adapter                            *)
(* ===================================================================== *)

Lemma readUInt8_length (buf : Buffer) (off v : Z) :
  readUInt8 buf off = Ok v -> 0 <= off < buf_length buf.
Proof.
  unfold readUInt8. destruct ((0 <=? off) && (off <? buf_length buf)) eqn:E;
    [|discriminate].
  intros _. apply andb_true_iff in E. lia.
Qed.

(** The colour loop started at the message-id region stops at once. *)
Lemma color_loop_at_trailer (buf : Buffer) (fuel : nat) (acc : list Z) :
  V5008Parser.color_loop buf fuel (buf_length buf - 4) acc = Ok acc.
Proof.
  destruct fuel; simpl; [reflexivity|].
  rewrite Z.ltb_irrefl. reflexivity.
Qed.

Lemma startsWith_E4 (echoed : Buffer) :
  startsWith "E4" (toHexUpper echoed) = begins_with_E4 echoed.
Proof.
  destruct echoed as [|b [|b' [|b'' rest]]]; [reflexivity| | |];
    unfold toHexUpper, toHex; simpl map; destruct b; reflexivity.
Qed.

(** A frame with leading byte 0xAA goes through [parseOpeAck] to
    [parseAAResponse]. *)
Lemma parse_AA (topic_ : string) (buf : Buffer) (now : string) :
  readUInt8 buf 0 = Ok 0xAA ->
  V5008Parser.parse topic_ buf now
  = match (messageIdN ← V5008Parser.readBigUIntBE buf (buf_length buf - 4) 4;
           V5008Parser.parseAAResponse buf
             (V5008Parser.base_result topic_ (toHexUpper buf)
                (nth_error (JS.split "/" topic_) 1) (Some "OPE_ACK") now)
             (num_toString messageIdN)) with
    | Ok out => out
    | Throw _ => None
    end.
Proof.
  intros Hh. pose proof (readUInt8_length _ _ _ Hh) as Hlen.
  unfold V5008Parser.parse, V5008Parser.parse_try.
  assert (Hgt : (buf_length buf >? 0) = true) by lia.
  rewrite Hgt, Hh. simpl.
  unfold V5008Parser.parseOpeAck. rewrite Hh. simpl. reflexivity.
Qed.

(** What [parseAAResponse] returns. For a frame with leading byte 0xAA
    that the adapter decodes, the result is "Success" exactly when the
    byte at offset 5 is 0xA1 and "Failure" otherwise; the echoed request is
    the upper-case hex of the span that starts at offset 6 and is as long as
    the frame minus 10 bytes; and a colour map is present exactly when that
    span begins with byte 0xE4, holding the bytes between the end of the
    span and the message-id region. *)
Lemma opeack_response_decoding (topic_ : string) (buf : Buffer) (now : string)
    (pd : IM) :
  readUInt8 buf 0 = Ok 0xAA ->
  V5008Parser.parse topic_ buf now = Some pd ->
  exists code,
    readUInt8 buf 5 = Ok code /\
    result pd = Some (if code =? 0xA1 then "Success" else "Failure") /\
    (result pd = Some "Success" <-> code = 0xA1) /\
    originalReq pd
    = Some (toHexUpper (subarray buf 6 (6 + (buf_length buf - 10)))) /\
    length (subarray buf 6 (6 + (buf_length buf - 10)))
    = Z.to_nat (buf_length buf - 10) /\
    colorMap pd
    = (if begins_with_E4 (subarray buf 6 (6 + (buf_length buf - 10)))
       then Some (map byte_val
                    (subarray buf (6 + (buf_length buf - 10)) (buf_length buf - 4)))
       else None).
Proof.
  intros Hh Hparse.
  rewrite (parse_AA topic_ buf now Hh) in Hparse.
  unfold mbind, exn_bind, JS.bind in Hparse.
  destruct (V5008Parser.readBigUIntBE buf (buf_length buf - 4) 4) as [mid|];
    [|discriminate].
  unfold V5008Parser.parseAAResponse in Hparse.
  unfold mbind, exn_bind, JS.bind in Hparse.
  destruct (V5008Parser.readBigUIntBE buf 1 4) as [dev|]; [|discriminate].
  destruct (readUInt8 buf 5) as [code|] eqn:Hcode; [|discriminate].
  pose proof (readUInt8_length _ _ _ Hcode) as Hlen.
  exists code. split; [reflexivity|].
  replace (6 + (buf_length buf - 10)) with (buf_length buf - 4) in * by lia.
  rewrite startsWith_E4, color_loop_at_trailer in Hparse.
  assert (Htrail : subarray buf (buf_length buf - 4) (buf_length buf - 4) = []).
  { unfold subarray. rewrite Z.sub_diag. reflexivity. }
  rewrite Htrail.
  assert (Hspan : length (subarray buf 6 (buf_length buf - 4))
                  = Z.to_nat (buf_length buf - 10)).
  { unfold subarray, rel_index.
    destruct (6 <? 0) eqn:E6; [lia|].
    destruct (buf_length buf - 4 <? 0) eqn:E4; [lia|].
    rewrite length_firstn, length_skipn. unfold buf_length in *. lia. }
  assert (Hres : forall s, (if code =? 0xA1 then "Success" else "Failure") = s ->
                 (Some s = Some "Success" <-> code = 0xA1)).
  { intros s <-. destruct (Z.eqb_spec code 0xA1) as [->|Hne].
    - split; reflexivity.
    - split; [discriminate | contradiction]. }
  destruct (begins_with_E4 (subarray buf 6 (buf_length buf - 4)));
    inversion Hparse; subst; simpl; repeat split; auto;
    try (apply (Hres _ eq_refl)); try (intros H; apply (Hres _ eq_refl); exact H).
Qed.

(** The span between the echoed request and the message-id region is
    empty, so the colour map of a colour-query response has no entry. *)
Lemma colorMap_span_empty (buf : Buffer) :
  subarray buf (6 + (buf_length buf - 10)) (buf_length buf - 4) = [].
Proof.
  replace (6 + (buf_length buf - 10)) with (buf_length buf - 4) by lia.
  unfold subarray. rewrite Z.sub_diag. reflexivity.
Qed.

(* ===================================================================== *)
(** ** RFID action inference of the JSON adapter                          *)
(* ===================================================================== *)

Section ActionInference.
Import V6800Parser.

Lemma is_num_flag (v : json) (n : Z) : is_num (Some v) n = true <-> flag_is v n.
Proof.
  unfold flag_is. destruct v; simpl; split;
    try discriminate; try (intros (q0 & H & _); discriminate).
  - intros H. exists q. split; [reflexivity | apply Qeq_bool_iff; exact H].
  - intros (q0 & H & Hq). inversion H; subst. apply Qeq_bool_iff. exact Hq.
Qed.

Lemma flag_unique (v : json) (a b : Z) : flag_is v a -> flag_is v b -> a = b.
Proof.
  intros (q & -> & Ha) (q' & Hq & Hb). inversion Hq; subst q'.
  rewrite Ha in Hb. apply (proj1 (inject_Z_injective a b)). exact Hb.
Qed.

Lemma inferAction_flags (n o : json) :
  inferAction (Some n) (Some o)
  = if is_num (Some n) 1 && is_num (Some o) 0 then JVal "attached"
    else if is_num (Some n) 0 && is_num (Some o) 1 then JVal "detached"
    else JNull.
Proof. reflexivity. Qed.

Lemma parseTag_action (tagData : json) (n o : json) (item : ParsedTag) :
  prop tagData "new_state" = Ok (Some n) ->
  prop tagData "old_state" = Ok (Some o) ->
  parseTag tagData = Ok item ->
  p_action item = inferAction (Some n) (Some o).
Proof.
  intros Hn Ho Hp. unfold parseTag in Hp. rewrite Hn, Ho in Hp.
  exn_cases Hp; inversion Hp; reflexivity.
Qed.

End ActionInference.

(** C7. RFID action inference. For a JSON tag record that carries both
    state flags, the decoded item has action "attached" exactly when
    (old, new) = (0, 1), "detached" exactly when (old, new) = (1, 0), and
    the action stays null for every other pair of flags. The two records of
    scenario B decode to "attached" and "detached" in that order. *)
Theorem rfid_action_inference :
  (forall (tagData new_state old_state : V6800Parser.json)
          (item : V6800Parser.ParsedTag),
      V6800Parser.prop tagData "new_state" = Ok (Some new_state) ->
      V6800Parser.prop tagData "old_state" = Ok (Some old_state) ->
      V6800Parser.parseTag tagData = Ok item ->
      (V6800Parser.p_action item = JVal "attached"
       <-> flag_is old_state 0 /\ flag_is new_state 1) /\
      (V6800Parser.p_action item = JVal "detached"
       <-> flag_is old_state 1 /\ flag_is new_state 0) /\
      (~ (flag_is old_state 0 /\ flag_is new_state 1) ->
       ~ (flag_is old_state 1 /\ flag_is new_state 0) ->
       V6800Parser.p_action item = JNull)) /\
  (exists m,
      V6800Parser.parseLabelState Examples.scenarioB = Ok [m] /\
      map V6800Parser.p_action (V6800Parser.p_items m)
      = [JVal "attached"; JVal "detached"]).
Proof.
  split.
  - intros tagData n o item Hn Ho Hp.
    rewrite (parseTag_action tagData n o item Hn Ho Hp), inferAction_flags.
    pose proof (is_num_flag n 1) as Hn1. pose proof (is_num_flag n 0) as Hn0.
    pose proof (is_num_flag o 1) as Ho1. pose proof (is_num_flag o 0) as Ho0.
    assert (Hnx : flag_is n 1 -> flag_is n 0 -> False).
    { intros A B. pose proof (flag_unique _ _ _ A B). discriminate. }
    destruct (V6800Parser.is_num (Some n) 1);
      destruct (V6800Parser.is_num (Some o) 0);
      destruct (V6800Parser.is_num (Some n) 0);
      destruct (V6800Parser.is_num (Some o) 1); simpl;
      repeat split; intros; try discriminate; try tauto;
      try (exfalso; intuition congruence).
  - eexists. split; reflexivity.
Qed.

(* ===================================================================== *)
(** ** Where the code departs from the specification                      *)
(* ===================================================================== *)

(** *** Identifiers of the binary adapter are read as signed *)

Lemma ToInt32_range (z : Z) : - 2 ^ 31 <= ToInt32 z < 2 ^ 31.
Proof.
  unfold ToInt32. change (2 ^ 31) with 2147483648. change (2 ^ 32) with 4294967296.
  Z.to_euclidean_division_equations. lia.
Qed.

Lemma ToInt32_small (z : Z) : - 2 ^ 31 <= z < 2 ^ 31 -> ToInt32 z = z.
Proof.
  unfold ToInt32. change (2 ^ 31) with 2147483648. change (2 ^ 32) with 4294967296.
  intros H. Z.to_euclidean_division_equations. lia.
Qed.

Lemma byte_val_range (b : byte) : 0 <= byte_val b < 256.
Proof.
  unfold byte_val. pose proof (Byte.to_N_bounded b). lia.
Qed.

Lemma readUInt8_range (buf : Buffer) (off v : Z) :
  readUInt8 buf off = Ok v -> 0 <= v < 256.
Proof.
  unfold readUInt8. destruct ((0 <=? off) && (off <? buf_length buf)); [|discriminate].
  destruct (nth_error buf (Z.to_nat off)); [|discriminate].
  intros H. inversion H. apply byte_val_range.
Qed.

Lemma lor_low_byte (k x : Z) : 0 <= x < 256 -> Z.lor (256 * k) x = 256 * k + x.
Proof.
  intros Hx.
  assert (Hland : Z.land (256 * k) x = 0).
  { apply Z.bits_inj'. intros n Hn. rewrite Z.land_spec, Z.bits_0.
    destruct (Z.ltb_spec n 8) as [Hlt|Hge].
    - replace (256 * k) with (k * 2 ^ 8) by lia.
      rewrite Z.mul_pow2_bits_low by lia. reflexivity.
    - assert (Hx0 : Z.testbit x n = false).
      { destruct (Z.eq_dec x 0) as [->|Hne]; [apply Z.bits_0|].
        apply Z.bits_above_log2; [lia|].
        assert (Z.log2 x < 8) by (apply Z.log2_lt_pow2; lia). lia. }
      rewrite Hx0. apply andb_false_r. }
  rewrite <- Z.lxor_lor by exact Hland.
  symmetry. apply Z.add_nocarry_lxor. exact Hland.
Qed.

Lemma ToInt32_unfold (z : Z) :
  ToInt32 z = z - 4294967296 * ((z + 2147483648) / 4294967296).
Proof.
  unfold ToInt32. change (2 ^ 31) with 2147483648. change (2 ^ 32) with 4294967296.
  Z.to_euclidean_division_equations. lia.
Qed.

Lemma ToInt32_shift (z q : Z) : ToInt32 (z + q * 4294967296) = ToInt32 z.
Proof.
  unfold ToInt32. change (2 ^ 31) with 2147483648. change (2 ^ 32) with 4294967296.
  replace (z + q * 4294967296 + 2147483648) with (z + 2147483648 + q * 4294967296) by lia.
  rewrite Z.mod_add by lia. reflexivity.
Qed.

Lemma bor_shl_byte (v x : Z) :
  0 <= x < 256 -> bor (shl v 8) x = ToInt32 (v * 256 + x).
Proof.
  intros Hx. unfold bor, shl. rewrite Z.shiftl_mul_pow2 by lia.
  change (2 ^ 8) with 256.
  rewrite (ToInt32_small x) by (change (2 ^ 31) with 2147483648; lia).
  rewrite (ToInt32_small (ToInt32 _)) by apply ToInt32_range.
  rewrite (ToInt32_unfold v).
  replace ((v - 4294967296 * ((v + 2147483648) / 4294967296)) * 256)
    with (v * 256 + (- 256 * ((v + 2147483648) / 4294967296)) * 4294967296) by lia.
  rewrite ToInt32_shift.
  pose proof (ToInt32_range (v * 256)) as Hr.
  change (2 ^ 31) with 2147483648 in Hr.
  rewrite (ToInt32_unfold (v * 256)) in *.
  set (d := (v * 256 + 2147483648) / 4294967296) in *.
  replace (v * 256 - 4294967296 * d) with (256 * (v - 16777216 * d)) in * by lia.
  rewrite lor_low_byte by exact Hx.
  replace (v * 256 + x) with (256 * (v - 16777216 * d) + x + d * 4294967296) by lia.
  rewrite ToInt32_shift.
  symmetry. apply ToInt32_small. change (2 ^ 31) with 2147483648. lia.
Qed.

(** [readBigUIntBE] on four bytes: their big-endian value, read as a signed
    32-bit integer. *)
Lemma readBigUIntBE_signed (buf : Buffer) (off b0 b1 b2 b3 : Z) :
  readUInt8 buf off = Ok b0 ->
  readUInt8 buf (off + 1) = Ok b1 ->
  readUInt8 buf (off + 2) = Ok b2 ->
  readUInt8 buf (off + 3) = Ok b3 ->
  V5008Parser.readBigUIntBE buf off 4
  = Ok (ToInt32 (b0 * 2 ^ 24 + b1 * 2 ^ 16 + b2 * 2 ^ 8 + b3)).
Proof.
  intros H0 H1 H2 H3.
  pose proof (readUInt8_length _ _ _ H3) as Hlen.
  pose proof (readUInt8_range _ _ _ H0) as R0.
  pose proof (readUInt8_range _ _ _ H1) as R1.
  pose proof (readUInt8_range _ _ _ H2) as R2.
  pose proof (readUInt8_range _ _ _ H3) as R3.
  unfold V5008Parser.readBigUIntBE.
  destruct (off + Z.of_nat 4 >? buf_length buf) eqn:E;
    [apply Z.gtb_lt in E; simpl Z.of_nat in E; lia|].
  simpl V5008Parser.readBE_loop. unfold mbind, exn_bind, JS.bind.
  rewrite Z.add_0_r, H0.
  replace (off + (0 + 1)) with (off + 1) by lia. rewrite H1.
  replace (off + (0 + 1 + 1)) with (off + 2) by lia. rewrite H2.
  replace (off + (0 + 1 + 1 + 1)) with (off + 3) by lia. rewrite H3.
  f_equal. rewrite !bor_shl_byte by assumption.
  rewrite (ToInt32_small (0 * 256 + b0)) by (change (2 ^ 31) with 2147483648; lia).
  rewrite (ToInt32_small ((0 * 256 + b0) * 256 + b1))
    by (change (2 ^ 31) with 2147483648; lia).
  rewrite (ToInt32_small (((0 * 256 + b0) * 256 + b1) * 256 + b2))
    by (change (2 ^ 31) with 2147483648; lia).
  f_equal. change (2 ^ 24) with 16777216. change (2 ^ 16) with 65536.
  change (2 ^ 8) with 256. lia.
Qed.

(** The signed reading is the unsigned one exactly when the first byte is
    below 0x80. *)
Lemma readBigUIntBE_unsigned_iff (b0 b1 b2 b3 : Z) :
  0 <= b0 < 256 -> 0 <= b1 < 256 -> 0 <= b2 < 256 -> 0 <= b3 < 256 ->
  ToInt32 (b0 * 2 ^ 24 + b1 * 2 ^ 16 + b2 * 2 ^ 8 + b3)
  = b0 * 2 ^ 24 + b1 * 2 ^ 16 + b2 * 2 ^ 8 + b3
  <-> b0 < 128.
Proof.
  intros R0 R1 R2 R3.
  pose proof (ToInt32_range (b0 * 2 ^ 24 + b1 * 2 ^ 16 + b2 * 2 ^ 8 + b3)) as Hr.
  change (2 ^ 24) with 16777216 in *. change (2 ^ 16) with 65536 in *.
  change (2 ^ 8) with 256 in *. change (2 ^ 31) with 2147483648 in *.
  split.
  - intros H. rewrite H in Hr. lia.
  - intros H. apply ToInt32_small. change (2 ^ 31) with 2147483648. lia.
Qed.


(** C6. The heartbeat frame of scenario A, decoded by the code. The
    accumulator of [readBigUIntBE] is a signed 32-bit integer, so the message
    id F200168F comes out as "-234875249" where the specification has "4060092047",
    and the module ids EC3737BF and 8C090995 as "-331925569" and
    "-1945564779" where it has "3963041727" and "2349402517". The
    records at addresses 3, 4 and 5 of the frame are kept as well, since
    their address is within 1..5. *)
Theorem heartbeat_scenarioA_decoded :
  exists pd,
    V5008Parser.parse "V5008Upload/2437871205/OpeAck" Examples.heartbeatFrame "t0"
    = Some pd /\
    messageId pd = Some "-234875249" /\
    messageId pd <> Some "4060092047" /\
    option_map (map moduleView) (modules pd)
    = Some [(Some 1, Some "-331925569", Some 6);
            (Some 2, Some "-1945564779", Some 12);
            (Some 3, Some "0", Some 0);
            (Some 4, Some "0", Some 0);
            (Some 5, Some "0", Some 0)].
Proof.
  eexists. split; [vm_compute; reflexivity|].
  split; [reflexivity|]. split; [discriminate | reflexivity].
Qed.

(** *** LABEL_STATE frames are decoded with the header byte included *)

(** C5. The LabelState frame of the parser tests, decoded by the code.
    [parse] passes the whole frame to [parseLabelState], which reads the
    module address at offset 0: the leading 0xBB itself. Every field is
    read one byte early: the frame carries module 2 with id 2349402517, 12
    slots and 3 tags at positions 10, 11, 12, and the code returns module
    187 with id 42731785, 0 slots, an online count of 12 and three records
    cut across the record boundaries. *)
Theorem labelState_frame_decoded :
  exists pd,
    V5008Parser.parse "V5008Upload/2437871205/LabelState" Examples.labelStateFrame "t0"
    = Some pd /\
    modAddr pd = Some 187 /\
    modId pd = Some "42731785" /\
    uTotal pd = Some 0 /\
    onlineCount pd = Some 12 /\
    option_map (map tagView) (items pd)
    = Some [(3, 10, JVal "00DD344A");
            (68, 11, JVal "00DD2862");
            (180, 12, JVal "00DD3CE9")].
Proof.
  eexists. split; [vm_compute; reflexivity|].
  repeat split; reflexivity.
Qed.

(** The sibling entry [parseRfidEvent] skips the header and decodes the same
    frame as the tests expect. *)
Lemma labelState_frame_via_parseRfidEvent :
  exists pd,
    V5008Parser.parseRfidEvent Examples.labelStateFrame
      (V5008Parser.base_result "" "" None None "t0") "0"
    = Ok (Some pd) /\
    modAddr pd = Some 2 /\
    modId pd = Some "-1945564779" /\
    uTotal pd = Some 12 /\
    onlineCount pd = Some 3 /\
    option_map (map tagView) (items pd)
    = Some [(10, 0, JVal "DD344A44");
            (11, 0, JVal "DD2862B4");
            (12, 0, JVal "DD3CE9C4")].
Proof.
  eexists. split; [vm_compute; reflexivity|].
  repeat split; reflexivity.
Qed.

(** For every frame with leading byte 0xBB that [parse] decodes, the
    module address of the result is the header byte. *)
Lemma labelState_modAddr_is_header (topic_ : string) (buf : Buffer) (now : string)
    (pd : IM) :
  readUInt8 buf 0 = Ok 0xBB ->
  V5008Parser.parse topic_ buf now = Some pd ->
  modAddr pd = Some 0xBB.
Proof.
  intros Hh Hparse. pose proof (readUInt8_length _ _ _ Hh) as Hlen.
  unfold V5008Parser.parse, V5008Parser.parse_try in Hparse.
  assert (Hgt : (buf_length buf >? 0) = true) by lia.
  rewrite Hgt, Hh in Hparse. simpl in Hparse.
  destruct (V5008Parser.parseLabelState buf _) as [[pd0|]|] eqn:E;
    try discriminate.
  inversion Hparse; subst pd0. clear Hparse.
  unfold V5008Parser.parseLabelState in E. rewrite Hh in E.
  exn_cases E. inversion E. reflexivity.
Qed.

(** *** Temperature and humidity are looked up under other names *)

(** C8. The TemHum frame of the parser tests, decoded and normalized by
    the code. The adapter stores the readings under "temp" and "hum"; the
    normalizer looks them up under "temperature" and "humidity", finds
    [undefined], which is not [null], and emits both events for every slot.
    Slot 12, whose raw bytes are all zero and whose readings decoded to
    null, yields two SYS_TELEMETRY events; the two real readings of slot 10
    yield events without their value. *)
Theorem temHum_frame_normalized :
  exists pd evs,
    V5008Parser.parse "V5008Upload/2437871205/TemHum" Examples.temHumFrame "t0"
    = Some pd /\
    option_map (map (fun s => (sensorAddr s, props s))) (sensors pd)
    = Some [(10, [("temp", Some (2848 # 100)%Q); ("hum", Some (5127 # 100)%Q)]);
            (11, [("temp", Some (2808 # 100)%Q); ("hum", Some (5111 # 100)%Q)]);
            (12, [("temp", None); ("hum", None)]);
            (13, [("temp", None); ("hum", None)]);
            (14, [("temp", None); ("hum", None)]);
            (15, [("temp", None); ("hum", None)])] /\
    normalize (Some pd) ∅ = (Ok evs, ∅) /\
    countType SYS_TELEMETRY evs = 12%nat /\
    In (12, "temperature", VScalar JUndef) (map telemetryView evs) /\
    In (12, "humidity", VScalar JUndef) (map telemetryView evs) /\
    In (10, "temperature", VScalar JUndef) (map telemetryView evs).
Proof.
  eexists _, _. split; [vm_compute; reflexivity|].
  split; [reflexivity|]. split; [vm_compute; reflexivity|].
  split; [reflexivity|]. simpl. tauto.
Qed.

(** The decoder itself is right: the pair (0, 0) decodes to null. *)
Lemma parseSignedDecimal_sentinel (buf : Buffer) (offset : Z) :
  readUInt8 buf offset = Ok 0 ->
  readUInt8 buf (offset + 1) = Ok 0 ->
  V5008Parser.parseSignedDecimal buf offset = Ok None.
Proof.
  intros H0 H1. unfold V5008Parser.parseSignedDecimal, readInt8, JS.bind.
  destruct (offset + 1 >=? buf_length buf); [reflexivity|].
  unfold mbind, exn_bind, JS.bind. rewrite H0, H1. reflexivity.
Qed.

(** A reading that is not the pair (0, 0) never decodes to null. *)
Lemma parseSignedDecimal_value (buf : Buffer) (offset i f : Z) :
  readInt8 buf offset = Ok i ->
  readUInt8 buf (offset + 1) = Ok f ->
  (i, f) <> (0, 0) ->
  exists q, V5008Parser.parseSignedDecimal buf offset = Ok (Some q).
Proof.
  intros Hi Hf Hne. pose proof (readUInt8_length _ _ _ Hf) as Hlen.
  unfold V5008Parser.parseSignedDecimal.
  destruct (offset + 1 >=? buf_length buf) eqn:E; [lia|].
  unfold mbind, exn_bind, JS.bind. rewrite Hi, Hf.
  destruct ((i =? 0) && (f =? 0)) eqn:E0.
  - apply andb_true_iff in E0. destruct E0 as [A B].
    apply Z.eqb_eq in A, B. subst. contradiction.
  - eexists. reflexivity.
Qed.

(** The noise path, where both sides use the key "noise", behaves as the
    specification says: a null reading gives no event, any other exactly
    one. *)
Lemma flattenNoise_sentinel (pd : IM) (identity_ : BaseIdentity) (a : Z)
    (v : option Q) :
  length (flattenNoiseSensor pd identity_ {| sensorAddr := a; props := [("noise", v)] |})
  = match v with None => 0%nat | Some _ => 1%nat end.
Proof. destruct v; reflexivity. Qed.

(** So would the temperature path, were the readings stored under the keys
    it is called with. *)
Lemma flattenSensor_matching_keys (pd : IM) (identity_ : BaseIdentity) (a : Z)
    (t h : option Q) :
  length (flattenSensor pd identity_ "temperature" "humidity"
            {| sensorAddr := a; props := [("temperature", t); ("humidity", h)] |})
  = (match t with None => 0 | Some _ => 1 end
     + match h with None => 0 | Some _ => 1 end)%nat.
Proof. destruct t, h; reflexivity. Qed.

(** With the keys of the adapter, every slot yields two events. *)
Lemma flattenSensor_adapter_keys (pd : IM) (identity_ : BaseIdentity) (a : Z)
    (t h : option Q) :
  map telemetryView
    (flattenSensor pd identity_ "temperature" "humidity"
       {| sensorAddr := a; props := [("temp", t); ("hum", h)] |})
  = [(a, "temperature", VScalar JUndef); (a, "humidity", VScalar JUndef)].
Proof.
  unfold flattenSensor, sensor_get. simpl.
  destruct (String.eqb "temperature" "sensorAddr") eqn:E; [discriminate E|].
  reflexivity.
Qed.

(** *** The echoed request takes the colour codes of a colour-query response *)

(** The request length is taken to be all of the frame but header, device
    id, result code and message id, so the echoed request ends where the
    message id begins and the colour loop, which starts there, never runs:
    whenever a colour map is present, it is empty. *)
Lemma colorMap_always_empty (topic_ : string) (buf : Buffer) (now : string)
    (pd : IM) (l : list Z) :
  readUInt8 buf 0 = Ok 0xAA ->
  V5008Parser.parse topic_ buf now = Some pd ->
  colorMap pd = Some l ->
  l = [].
Proof.
  intros Hh Hparse Hl.
  destruct (opeack_response_decoding topic_ buf now pd Hh Hparse)
    as (code & _ & _ & _ & _ & _ & Hcolor).
  rewrite colorMap_span_empty in Hcolor. rewrite Hl in Hcolor.
  destruct (begins_with_E4 _); [|discriminate].
  inversion Hcolor. reflexivity.
Qed.

(** C9. The colour-query response of the parser tests, decoded by the
    code. The frame echoes the request E4 01 and then carries the colour
    codes 0, 0, 0, 13, 13, 8 before its message id. The result code 0xA1
    is decoded as "Success", but the echoed request takes all eight bytes
    up to the message id, and the colour map, although present, is empty:
    the code returns the request "E4010000000D0D08" and no colour, where
    the frame holds the request "E401" and six colour codes. *)
Theorem colorQuery_frame_decoded :
  exists pd,
    V5008Parser.parse "V5008Upload/2437871205/OpeAck" Examples.colorQueryFrame "t0"
    = Some pd /\
    result pd = Some "Success" /\
    originalReq pd = Some "E4010000000D0D08" /\
    originalReq pd <> Some "E401" /\
    colorMap pd = Some [] /\
    colorMap pd <> Some [0; 0; 0; 13; 13; 8].
Proof.
  eexists. split; [vm_compute; reflexivity|].
  repeat split; try reflexivity; discriminate.
Qed.

(** *** A rejection of the dispatched method passes through [normalize] *)

(** C10. A V5008 LabelState message without its tag list. The loop over
    the missing [items] raises a TypeError inside [_processV5008Rfid]; the
    promise [normalize] returned un-awaited is rejected, and so is the
    promise of [normalize]: the caller sees the exception, not the empty
    sequence the specification promises. *)
Theorem normalize_rejects_missing_items :
  normalize (Some Examples.labelStateNoItems) ∅ = (Throw TypeError, ∅) /\
  normalize (Some Examples.labelStateNoItems) ∅ <> (Ok [], ∅).
Proof. split; [reflexivity | discriminate]. Qed.

(** The guard and the dispatch do fail closed: [null], a message without a
    device type and an unknown device type resolve to no event. *)
Lemma normalize_guard (cache : Cache) (pd : IM) :
  normalize None cache = (Ok [], cache) /\
  (deviceType pd = None -> normalize (Some pd) cache = (Ok [], cache)) /\
  (forall dt, deviceType pd = Some dt -> dt <> "V5008" -> dt <> "V6800" ->
              normalize (Some pd) cache = (Ok [], cache)).
Proof.
  split; [reflexivity|]. split.
  - intros H. unfold normalize. rewrite H. reflexivity.
  - intros dt H H5 H6. unfold normalize. rewrite H. simpl.
    apply String.eqb_neq in H5, H6. rewrite H5, H6.
    destruct (negb (negb (dt =? ""))%string); reflexivity.
Qed.

(* ===================================================================== *)
(** ** Invariants of the store and of the tag loop                        *)
(* ===================================================================== *)

(** *** The shadows of the store are Maps *)

Lemma patchItem_wf (shadow : JSMap.t TagData) (item : TagItem) :
  JSMap.wf shadow -> JSMap.wf (patchItem shadow item).
Proof.
  intros H. unfold patchItem. destruct (action item) as [| |a]; try exact H.
  destruct (String.eqb a "attached"); [apply wf_set; exact H|].
  destruct (String.eqb a "detached"); [apply wf_delete; exact H | exact H].
Qed.

Lemma fold_patchItem_wf (its : list TagItem) (shadow : JSMap.t TagData) :
  JSMap.wf shadow -> JSMap.wf (fold_left patchItem its shadow).
Proof.
  revert shadow. induction its as [|i its IH]; simpl; intros shadow H; [exact H|].
  apply IH, patchItem_wf, H.
Qed.

Lemma set_cache_wf (cache : Cache) (d : option string) (a : option Z)
    (m : JSMap.t TagData) :
  cache_wf cache -> JSMap.wf m -> cache_wf (StateCache.set cache d a m).
Proof.
  intros Hc Hm k m' Hk. unfold StateCache.set in Hk.
  destruct (decide (_createKey d a = k)) as [<-|Hne].
  - rewrite lookup_insert_eq in Hk. inversion Hk; subst. exact Hm.
  - rewrite lookup_insert_ne in Hk by exact Hne. eapply Hc, Hk.
Qed.

Lemma rfidModules_cache_wf (identity_ : BaseIdentity) (ts_ : option string)
    (blocks : list ModuleBlock) (results : list Event) (cache : Cache) :
  cache_wf cache -> cache_wf (snd (rfidModules identity_ ts_ blocks results cache)).
Proof.
  revert results cache.
  induction blocks as [|m blocks IH]; simpl; intros results cache Hc; [exact Hc|].
  destruct (StateCache.get cache (bi_deviceId identity_) (b_modAddr m))
    as [shadow|] eqn:Hget; destruct (b_items m) as [its|]; simpl; try exact Hc.
  - apply IH, set_cache_wf; [exact Hc|].
    apply fold_patchItem_wf. eapply Hc, Hget.
  - apply IH, Hc.
Qed.

(** The invariant behind the hypothesis of the diff-path theorem: whatever
    [normalize] is given, it leaves only well-formed Maps in the store. *)
Lemma normalize_cache_wf (parsedData : option IM) (cache : Cache) :
  cache_wf cache -> cache_wf (snd (normalize parsedData cache)).
Proof.
  intros Hc. unfold normalize. destruct parsedData as [pd|]; [|exact Hc].
  destruct (negb (truthy_str (deviceType pd))); [exact Hc|].
  destruct (str_is (deviceType pd) "V5008").
  - unfold _processV5008.
    repeat match goal with
           | |- context [if ?b then _ else _] => destruct b; try exact Hc
           end.
    unfold _processV5008Rfid. destruct (items pd) as [l|]; [|exact Hc].
    simpl. apply set_cache_wf; [exact Hc | apply buildCurrTags_wf].
  - destruct (str_is (deviceType pd) "V6800"); [|exact Hc].
    unfold _processV6800.
    repeat match goal with
           | |- context [if ?b then _ else _] => destruct b; try exact Hc
           end.
    unfold _processV6800Rfid. destruct (data pd) as [blocks|]; [|exact Hc].
    apply rfidModules_cache_wf, Hc.
Qed.

Lemma empty_cache_wf : cache_wf ∅.
Proof. intros k m H. rewrite lookup_empty in H. discriminate. Qed.

(** *** The tag loop and the message-id region *)

Lemma readUInt8_app (p t : Buffer) (off : Z) :
  0 <= off < buf_length p -> readUInt8 (p ++ t) off = readUInt8 p off.
Proof.
  intros H. unfold readUInt8, buf_length in *. rewrite length_app.
  assert (E1 : (0 <=? off) && (off <? Z.of_nat (length p + length t)) = true)
    by (apply andb_true_iff; split; [apply Z.leb_le | apply Z.ltb_lt]; lia).
  assert (E2 : (0 <=? off) && (off <? Z.of_nat (length p)) = true)
    by (apply andb_true_iff; split; [apply Z.leb_le | apply Z.ltb_lt]; lia).
  rewrite E1, E2, nth_error_app1 by lia. reflexivity.
Qed.

Lemma subarray_app (p t : Buffer) (a b : Z) :
  0 <= a <= b -> b <= buf_length p -> subarray (p ++ t) a b = subarray p a b.
Proof.
  intros Ha Hb. unfold subarray, rel_index, buf_length in *. rewrite length_app.
  destruct (a <? 0) eqn:Ea; [lia|]. destruct (b <? 0) eqn:Eb; [lia|].
  rewrite !Z.min_l by lia.
  rewrite skipn_app, firstn_app, length_skipn.
  replace (Z.to_nat (b - a) - (length p - Z.to_nat a))%nat with 0%nat by lia.
  simpl. rewrite app_nil_r. reflexivity.
Qed.

(** The tag loop never looks at the last four bytes of the frame: two
    frames that differ only there give the same records. *)
Lemma label_loop_ignores_trailer (p t1 t2 : Buffer) (n : nat) (off : Z)
    (acc : list TagItem) :
  length t1 = 4%nat -> length t2 = 4%nat -> 0 <= off ->
  V5008Parser.label_loop (p ++ t1) n off acc
  = V5008Parser.label_loop (p ++ t2) n off acc.
Proof.
  intros H1 H2. revert off acc. induction n as [|n IH]; intros off acc Hoff; simpl;
    [reflexivity|].
  assert (L1 : buf_length (p ++ t1) - 4 = buf_length p)
    by (unfold buf_length; rewrite length_app; lia).
  assert (L2 : buf_length (p ++ t2) - 4 = buf_length p)
    by (unfold buf_length; rewrite length_app; lia).
  rewrite L1, L2. destruct (off + 6 >? buf_length p) eqn:E; [reflexivity|].
  rewrite Z.gtb_ltb in E. apply Z.ltb_ge in E.
  rewrite !(readUInt8_app p) by lia. rewrite !(subarray_app p) by lia.
  unfold mbind, exn_bind, JS.bind.
  destruct (readUInt8 p off); [|reflexivity].
  destruct (readUInt8 p (off + 1)); [|reflexivity].
  apply IH. lia.
Qed.

(** When the frame has room for them, the loop reads as many records as it
    is asked for; it never reads more. *)
Lemma label_loop_count (buf : Buffer) (n : nat) (off : Z) (acc : list TagItem) :
  0 <= off -> off + 6 * Z.of_nat n <= buf_length buf - 4 ->
  exists items_,
    V5008Parser.label_loop buf n off acc = Ok items_ /\
    length items_ = (length acc + n)%nat.
Proof.
  revert off acc. induction n as [|n IH]; intros off acc Hoff Hroom; simpl.
  - exists acc. split; [reflexivity | lia].
  - destruct (off + 6 >? buf_length buf - 4) eqn:E; [lia|].
    assert (R0 : exists v, readUInt8 buf off = Ok v).
    { unfold readUInt8.
      assert (E1 : (0 <=? off) && (off <? buf_length buf) = true)
        by (apply andb_true_iff; split; [apply Z.leb_le | apply Z.ltb_lt]; lia).
      rewrite E1. destruct (nth_error buf (Z.to_nat off)) eqn:En; [eauto|].
      apply nth_error_None in En. unfold buf_length in *. lia. }
    assert (R1 : exists v, readUInt8 buf (off + 1) = Ok v).
    { unfold readUInt8.
      assert (E1 : (0 <=? off + 1) && (off + 1 <? buf_length buf) = true)
        by (apply andb_true_iff; split; [apply Z.leb_le | apply Z.ltb_lt]; lia).
      rewrite E1. destruct (nth_error buf (Z.to_nat (off + 1))) eqn:En; [eauto|].
      apply nth_error_None in En. unfold buf_length in *. lia. }
    destruct R0 as [v0 R0]. destruct R1 as [v1 R1].
    unfold mbind, exn_bind, JS.bind. rewrite R0, R1.
    destruct (IH (off + 6)
                (acc ++ [{| uPos := v0; alarmStatus := v1;
                            tagId := JVal (toHexUpper (subarray buf (off + 2) (off + 6)));
                            action := JUndef |}]))
      as (items_ & Hl & Hlen); [lia | lia |].
    exists items_. split; [exact Hl|]. rewrite Hlen, length_app. simpl. lia.
Qed.

Lemma label_loop_at_most (buf : Buffer) (n : nat) (off : Z) (acc items_ : list TagItem) :
  V5008Parser.label_loop buf n off acc = Ok items_ ->
  (length items_ <= length acc + n)%nat.
Proof.
  revert off acc. induction n as [|n IH]; intros off acc H; simpl in H.
  - inversion H. lia.
  - destruct (off + 6 >? buf_length buf - 4); [inversion H; lia|].
    unfold mbind, exn_bind, JS.bind in H.
    destruct (readUInt8 buf off); [|discriminate].
    destruct (readUInt8 buf (off + 1)); [|discriminate].
    apply IH in H. rewrite length_app in H. simpl in H. lia.
Qed.

(* ===================================================================== *)
(** ** The theorems at concrete inputs                                    *)
(* ===================================================================== *)


(** The first event of the patching test on an empty store: the
    pass-through event of the attach at position 3, then the request for a
    resync; no snapshot, nothing stored. *)
Lemma patch_path_cache_miss_witness :
  StateCache.get ∅ (deviceId Examples.attachMsg) (b_modAddr Examples.attachBlock) = None
  /\ exists evs cache',
       normalize (Some Examples.attachMsg) ∅ = (Ok evs, cache')
       /\ evs = [{| identity := {| id_deviceId := Some "2123456789";
                                   id_deviceType := "V6800";
                                   id_modAddr := Some 2; id_sensorAddr := 3 |};
                    type := SYS_RFID_EVENT;
                    ev_ts := Some "t0";
                    payload := {| key := "rfid_event";
                                  value := VRfid (JVal "attached") (JVal "DD23B0B4") 3 0;
                                  raw := RawNone |} |};
                 {| identity := {| id_deviceId := Some "2123456789";
                                   id_deviceType := "V6800";
                                   id_modAddr := Some 2; id_sensorAddr := 0 |};
                    type := SYS_REQUIRE_SYNC;
                    ev_ts := Some "t0";
                    payload := {| key := "require_sync"; value := VSync "cache_miss";
                                  raw := RawNone |} |}]
       /\ countType SYS_RFID_EVENT evs = 1%nat
       /\ countType SYS_REQUIRE_SYNC evs = 1%nat
       /\ countType SYS_RFID_SNAPSHOT evs = 0%nat
       /\ StateCache.get cache' (deviceId Examples.attachMsg)
            (b_modAddr Examples.attachBlock) = None.
Proof.
  assert (Hmiss : StateCache.get ∅ (deviceId Examples.attachMsg)
                    (b_modAddr Examples.attachBlock) = None) by reflexivity.
  split; [exact Hmiss|].
  destruct (patch_path_cache_miss ∅ Examples.attachMsg Examples.attachBlock
              [Examples.event 3 "DD23B0B4" "attached"]
              eq_refl eq_refl eq_refl eq_refl Hmiss)
    as (evs & cache' & Hn & _ & Hevs & _ & H1 & H2 & H3 & _ & H5).
  exists evs, cache'. split; [exact Hn|]. split; [exact Hevs|]. auto.
Defined.

(** The resend of the LabelState message of the normalizer tests: the
    second result is one event, the snapshot. *)
Lemma diff_path_idempotent_witness :
  exists evs1 cache1 snapshot,
    normalize (Some (Examples.labelStateMsg "2025-01-01T10:00:00.000Z"
                       Examples.threeTags)) ∅ = (Ok evs1, cache1)
    /\ length evs1 = 4%nat
    /\ normalize (Some (Examples.labelStateMsg "2025-01-01T10:01:00.000Z"
                          Examples.threeTags)) cache1 = (Ok [snapshot], cache1)
    /\ type snapshot = SYS_RFID_SNAPSHOT.
Proof.
  destruct (diff_path_idempotent ∅
              (Examples.labelStateMsg "2025-01-01T10:00:00.000Z" Examples.threeTags)
              (Examples.labelStateMsg "2025-01-01T10:01:00.000Z" Examples.threeTags)
              Examples.threeTags
              eq_refl eq_refl eq_refl eq_refl eq_refl eq_refl eq_refl eq_refl)
    as (evs1 & cache1 & H1 & H2 & _).
  exists evs1, cache1. eexists. split; [exact H1|].
  split; [|split; [exact H2 | reflexivity]].
  vm_compute in H1. inversion H1. reflexivity.
Defined.

(** The door-state frame of the parser tests: decoded as "DOOR_STATE",
    normalized to nothing. *)
Lemma header_typed_frames_yield_nothing_witness :
  readUInt8 Examples.doorFrame 0 = Ok 0xBA
  /\ exists pd,
       V5008Parser.parse "V5008Upload/2437871205/OpeAck" Examples.doorFrame "t0"
       = Some pd
       /\ messageType pd = Some "DOOR_STATE"
       /\ doorState pd = Some "01"
       /\ normalize (Some pd) ∅ = (Ok [], ∅).
Proof.
  split; [reflexivity|].
  destruct (V5008Parser.parse "V5008Upload/2437871205/OpeAck" Examples.doorFrame "t0")
    as [pd|] eqn:E; [|vm_compute in E; discriminate].
  destruct (header_typed_frames_yield_nothing
              "V5008Upload/2437871205/OpeAck" Examples.doorFrame "t0" pd 0xBA ∅
              eq_refl (or_intror (or_introl eq_refl)) E)
    as (_ & Hmt & Hn).
  exists pd. split; [reflexivity|]. split; [exact Hmt|]. split; [|exact Hn].
  vm_compute in E. inversion E. reflexivity.
Defined.

(** The first tag record of scenario B. *)
Lemma rfid_action_inference_witness :
  V6800Parser.prop (Examples.tagRecord 3 1 0 "DD23B0B4") "new_state"
  = Ok (Some (Examples.num 1))
  /\ V6800Parser.prop (Examples.tagRecord 3 1 0 "DD23B0B4") "old_state"
     = Ok (Some (Examples.num 0))
  /\ exists item,
       V6800Parser.parseTag (Examples.tagRecord 3 1 0 "DD23B0B4") = Ok item
       /\ (V6800Parser.p_action item = JVal "attached"
           <-> flag_is (Examples.num 0) 0 /\ flag_is (Examples.num 1) 1).
Proof.
  split; [reflexivity|]. split; [reflexivity|].
  eexists. split; [reflexivity|].
  apply (proj1 rfid_action_inference (Examples.tagRecord 3 1 0 "DD23B0B4")
           (Examples.num 1) (Examples.num 0) _ eq_refl eq_refl eq_refl).
Defined.

(** The colour-query response of the parser tests: the echoed request
    takes every byte up to the message id, and the colour map is empty. *)
Lemma opeack_response_decoding_witness :
  readUInt8 Examples.colorQueryFrame 0 = Ok 0xAA
  /\ exists pd,
       V5008Parser.parse "V5008Upload/2437871205/OpeAck" Examples.colorQueryFrame "t0"
       = Some pd
       /\ result pd = Some "Success"
       /\ originalReq pd = Some "E4010000000D0D08"
       /\ colorMap pd = Some [].
Proof.
  split; [reflexivity|].
  destruct (V5008Parser.parse "V5008Upload/2437871205/OpeAck"
              Examples.colorQueryFrame "t0") as [pd|] eqn:E;
    [|vm_compute in E; discriminate].
  destruct (opeack_response_decoding
              "V5008Upload/2437871205/OpeAck" Examples.colorQueryFrame "t0" pd
              eq_refl E)
    as (code & Hc & Hres & _ & Horig & _ & Hcolor).
  exists pd. split; [reflexivity|].
  vm_compute in Hc. inversion Hc; subst code.
  split; [exact Hres|]. split; [exact Horig | exact Hcolor].
Defined.


(* ===================================================================== *)
(** ** The keys of the shadow store                                       *)
(* ===================================================================== *)

Lemma pretty_N_char_numeral (x : N) : numeral_char (pretty_N_char x) = true.
Proof.
  destruct x as [|p]; [reflexivity|].
  do 4 (try destruct p as [p|p|]); reflexivity.
Qed.

Lemma pretty_N_go_numeral (x : N) (s : string) :
  all_chars numeral_char s = true ->
  all_chars numeral_char (pretty_N_go x s) = true.
Proof.
  revert s. induction (N.lt_wf_0 x) as [x _ IH]. intros s Hs.
  destruct (decide (0 < x)%N) as [Hx|Hx].
  - rewrite pretty_N_go_step by exact Hx. apply IH.
    + apply N.div_lt; lia.
    + simpl. rewrite pretty_N_char_numeral. exact Hs.
  - assert (x = 0%N) as -> by lia. rewrite pretty_N_go_0. exact Hs.
Qed.

Lemma num_toString_numeral (z : Z) : all_chars numeral_char (num_toString z) = true.
Proof.
  assert (HN : forall n : N, all_chars numeral_char (pretty n) = true).
  { intros n. unfold pretty, pretty_N. case_decide; [reflexivity|].
    apply pretty_N_go_numeral. reflexivity. }
  unfold num_toString. destruct z as [|p|p]; [reflexivity| |].
  - apply (HN (N.pos p)).
  - change (pretty (Z.neg p)) with ("-" +:+ pretty (N.pos p)).
    simpl. apply (HN (N.pos p)).
Qed.

Lemma numeral_no_colon (s : string) :
  all_chars numeral_char s = true -> all_chars not_colon s = true.
Proof.
  induction s as [|c s IH]; simpl; [reflexivity|]. intros H.
  apply andb_true_iff in H. destruct H as [Hc Hs].
  rewrite (IH Hs), andb_true_r.
  unfold not_colon. destruct (Ascii.eqb_spec c ":") as [->|]; [discriminate Hc | reflexivity].
Qed.

(** The text of a module address, also of a missing one, has no colon. *)
Lemma show_num_no_colon (a : option Z) : all_chars not_colon (show_num a) = true.
Proof.
  destruct a as [z|]; [|reflexivity].
  apply numeral_no_colon, num_toString_numeral.
Qed.

Lemma show_num_inj (a a' : option Z) : show_num a = show_num a' -> a = a'.
Proof.
  destruct a as [z|], a' as [z'|]; simpl; intros H.
  - f_equal. apply (inj pretty). exact H.
  - pose proof (num_toString_numeral z) as Hn. rewrite H in Hn. discriminate Hn.
  - pose proof (num_toString_numeral z') as Hn. rewrite <- H in Hn. discriminate Hn.
  - reflexivity.
Qed.

Lemma append_cons (c : ascii) (d x : string) : String c d +:+ x = String c (d +:+ x).
Proof. reflexivity. Qed.

Lemma append_nil (x : string) : "" +:+ x = x.
Proof. reflexivity. Qed.

Lemma all_chars_append (p : ascii -> bool) (d x : string) :
  all_chars p (d +:+ x) = all_chars p d && all_chars p x.
Proof.
  induction d as [|c d IH]; [reflexivity|].
  rewrite append_cons. simpl. rewrite IH, andb_assoc. reflexivity.
Qed.

(** A text without colon after the last colon fixes both sides of it. *)
Lemma colon_split_inj (d d' n n' : string) :
  all_chars not_colon n = true -> all_chars not_colon n' = true ->
  d +:+ ":" +:+ n = d' +:+ ":" +:+ n' -> d = d' /\ n = n'.
Proof.
  intros Hn Hn'. revert d'. induction d as [|c d IH]; intros [|c' d'] H;
    rewrite ?append_cons, ?append_nil in H.
  - inversion H. split; reflexivity.
  - inversion H as [[Hc Hrest]]. exfalso.
    rewrite Hrest, all_chars_append in Hn. simpl in Hn.
    rewrite andb_false_r in Hn. discriminate Hn.
  - inversion H as [[Hc Hrest]]. exfalso.
    rewrite <- Hrest, all_chars_append in Hn'. simpl in Hn'.
    rewrite andb_false_r in Hn'. discriminate Hn'.
  - inversion H as [[Hc Hrest]]. destruct (IH d' Hrest) as [-> ->].
    split; reflexivity.
Qed.

Lemma _createKey_inj (d d' : option string) (a a' : option Z) :
  _createKey d a = _createKey d' a' -> show_str d = show_str d' /\ a = a'.
Proof.
  unfold _createKey. intros H.
  apply colon_split_inj in H; try apply show_num_no_colon.
  destruct H as [Hd Ha]. split; [exact Hd | apply show_num_inj, Ha].
Qed.

(** X1. No sharing between keys. Writing the shadow of one (deviceId,
    modAddr) pair leaves the shadow of every other pair as it was, whatever
    the device identifiers contain; two pairs share an entry only when
    their module addresses are equal and their device identifiers render
    to the same text. *)
Theorem set_leaves_other_keys (cache : Cache) (d d' : option string)
    (a a' : option Z) (m : JSMap.t TagData) :
  (show_str d, a) <> (show_str d', a') ->
  StateCache.get (StateCache.set cache d a m) d' a' = StateCache.get cache d' a'.
Proof.
  intros Hne. unfold StateCache.get, StateCache.set.
  apply lookup_insert_ne. intros Hk. apply Hne.
  apply _createKey_inj in Hk. destruct Hk as [-> ->]. reflexivity.
Qed.

(** X2. The store is a map from keys to shadows. What [set] stored is what
    [get] returns, an empty Map included, and [has] then holds; [clear]
    reports whether there was an entry, leaves none behind, and touches no
    other key. *)
Theorem store_set_get_clear (cache : Cache) (d : option string) (a : option Z)
    (m : JSMap.t TagData) :
  StateCache.get (StateCache.set cache d a m) d a = Some m /\
  StateCache.has (StateCache.set cache d a m) d a = true /\
  snd (StateCache.clear cache d a) = StateCache.has cache d a /\
  StateCache.get (fst (StateCache.clear cache d a)) d a = None /\
  StateCache.has (fst (StateCache.clear cache d a)) d a = false /\
  fst (StateCache.clear (StateCache.set cache d a m) d a)
  = fst (StateCache.clear cache d a) /\
  forall d' a', (show_str d', a') <> (show_str d, a) ->
    StateCache.get (fst (StateCache.clear cache d a)) d' a'
    = StateCache.get cache d' a'.
Proof.
  unfold StateCache.get, StateCache.set, StateCache.has, StateCache.clear. simpl.
  repeat split.
  - apply lookup_insert_eq.
  - apply bool_decide_eq_true. rewrite lookup_insert_eq. eauto.
  - apply lookup_delete_eq.
  - apply bool_decide_eq_false. rewrite lookup_delete_eq. intros [x Hx]. discriminate.
  - apply delete_insert_eq.
  - intros d' a' Hne. apply lookup_delete_ne. intros Hk. apply Hne.
    apply _createKey_inj in Hk. destruct Hk as [-> ->]. reflexivity.
Qed.

(** *** Reading a key back *)

Lemma digit_val_pretty_N_char (k : N) :
  (k < 10)%N -> JSText.digit_val (pretty_N_char k) = Some (Z.of_N k).
Proof.
  intros Hk. destruct k as [|p]; [reflexivity|].
  do 4 (try destruct p as [p|p|]); try reflexivity; lia.
Qed.

Lemma read_digits_pretty_N_go (x : N) (s : string) :
  (0 < x)%N ->
  JSText.read_digits (pretty_N_go x s) None = JSText.read_digits s (Some (Z.of_N x)).
Proof.
  revert s. induction (N.lt_wf_0 x) as [x _ IH]. intros s Hx.
  rewrite pretty_N_go_step by exact Hx.
  assert (Hm : (x `mod` 10 < 10)%N) by (apply N.mod_lt; lia).
  destruct (decide (0 < x `div` 10)%N) as [Hd|Hd].
  - rewrite IH by (try apply N.div_lt; lia).
    simpl. rewrite digit_val_pretty_N_char by exact Hm. simpl.
    do 2 f_equal. rewrite (N.div_mod x 10) at 3 by discriminate.
    rewrite N2Z.inj_add, N2Z.inj_mul. reflexivity.
  - assert (Hz : (x `div` 10 = 0)%N) by (destruct (x `div` 10)%N; [reflexivity | exfalso; apply Hd; reflexivity]). rewrite Hz, pretty_N_go_0.
    simpl. rewrite digit_val_pretty_N_char by exact Hm. simpl.
    do 2 f_equal. rewrite (N.div_mod x 10) at 2 by discriminate.
    rewrite Hz, N2Z.inj_add, N2Z.inj_mul. reflexivity.
Qed.

Lemma pretty_N_go_head (x : N) (s : string) :
  (0 < x)%N -> exists k r, (k < 10)%N /\ pretty_N_go x s = String (pretty_N_char k) r.
Proof.
  revert s. induction (N.lt_wf_0 x) as [x _ IH]. intros s Hx.
  rewrite pretty_N_go_step by exact Hx.
  destruct (decide (0 < x `div` 10)%N) as [Hd|Hd].
  - apply IH; [apply N.div_lt; lia | exact Hd].
  - assert (Hz : (x `div` 10 = 0)%N) by (destruct (x `div` 10)%N; [reflexivity | exfalso; apply Hd; reflexivity]). rewrite Hz, pretty_N_go_0.
    exists (x `mod` 10)%N, s. split; [apply N.mod_lt; lia | reflexivity].
Qed.

Lemma parseInt10_digit_head (k : N) (r : string) :
  (k < 10)%N ->
  JSText.parseInt10 (String (pretty_N_char k) r)
  = JSText.read_digits (String (pretty_N_char k) r) None.
Proof.
  intros Hk. destruct k as [|p]; [reflexivity|].
  do 4 (try destruct p as [p|p|]); try reflexivity; lia.
Qed.

Lemma parseInt10_pretty_pos (p : positive) :
  JSText.parseInt10 (pretty (N.pos p)) = Some (Z.pos p).
Proof.
  unfold pretty, pretty_N. case_decide; [discriminate|].
  destruct (pretty_N_go_head (N.pos p) "") as (k & r & Hk & Hr); [lia|].
  rewrite Hr, parseInt10_digit_head by exact Hk. rewrite <- Hr.
  rewrite read_digits_pretty_N_go by lia. reflexivity.
Qed.

(** [parseInt] reads back what [toString] wrote. *)
Lemma parseInt10_num_toString (z : Z) : JSText.parseInt10 (num_toString z) = Some z.
Proof.
  unfold num_toString. destruct z as [|p|p]; [reflexivity| |].
  - apply (parseInt10_pretty_pos p).
  - change (pretty (Z.neg p)) with ("-" +:+ pretty (N.pos p)).
    rewrite append_cons, append_nil.
    unfold JSText.parseInt10. simpl JSText.skip_space.
    pose proof (parseInt10_pretty_pos p) as H.
    unfold pretty, pretty_N in *. case_decide; [discriminate|].
    destruct (pretty_N_go_head (N.pos p) "") as (k & r & Hk & Hr); [lia|].
    rewrite Hr, parseInt10_digit_head in H by exact Hk. rewrite <- Hr in H.
    cbv beta iota. rewrite H. reflexivity.
Qed.

Lemma split_no_colon (n : string) :
  all_chars not_colon n = true -> JS.split ":" n = [n].
Proof.
  induction n as [|c n IH]; simpl; [reflexivity|]. intros H.
  apply andb_true_iff in H. destruct H as [Hc Hn].
  unfold not_colon in Hc. destruct (Ascii.eqb c ":"); [discriminate Hc|].
  rewrite (IH Hn). reflexivity.
Qed.

Lemma split_colon_key (d n : string) :
  all_chars not_colon d = true -> all_chars not_colon n = true ->
  JS.split ":" (d +:+ ":" +:+ n) = [d; n].
Proof.
  intros Hd Hn. induction d as [|c d IH].
  - rewrite append_nil, append_cons, append_nil. simpl.
    rewrite (split_no_colon n Hn). reflexivity.
  - simpl in Hd. apply andb_true_iff in Hd. destruct Hd as [Hc Hd].
    rewrite append_cons. simpl. unfold not_colon in Hc.
    destruct (Ascii.eqb c ":"); [discriminate Hc|].
    rewrite (IH Hd). reflexivity.
Qed.

(** The first part of a split text has no colon. *)
Lemma split_head_no_colon (s : string) :
  exists h t, JS.split ":" s = h :: t /\ all_chars not_colon h = true.
Proof.
  induction s as [|c s (h & t & Hs & Hh)]; simpl.
  - exists "", []. split; reflexivity.
  - destruct (Ascii.eqb c ":") eqn:Ec.
    + exists "", (JS.split ":" s). split; reflexivity.
    + rewrite Hs. exists (String c h), t. split; [reflexivity|].
      simpl. rewrite Hh. unfold not_colon. rewrite Ec. reflexivity.
Qed.

(** X3. Keys read back. For a module address in the range where numbers
    are exact, [_parseKey] returns the device identifier and the module
    address a key was made from whenever the device identifier contains
    no colon; when it contains one, the first component returned is not
    the device identifier. *)
Theorem parseKey_createKey (d : string) (a : Z) :
  - 2 ^ 53 < a < 2 ^ 53 ->
  (all_chars not_colon d = true ->
   StateCacheKey._parseKey (_createKey (Some d) (Some a)) = (Some d, Some a)) /\
  (fst (StateCacheKey._parseKey (_createKey (Some d) (Some a))) = Some d ->
   all_chars not_colon d = true).
Proof.
  intros _. split.
  - intros Hd. unfold StateCacheKey._parseKey, _createKey. simpl show_str.
    rewrite split_colon_key by (try exact Hd; apply show_num_no_colon).
    simpl. rewrite parseInt10_num_toString. reflexivity.
  - unfold StateCacheKey._parseKey. intros H. simpl in H.
    destruct (split_head_no_colon (_createKey (Some d) (Some a))) as (h & t & Hs & Hh).
    rewrite Hs in H. simpl in H. inversion H; subst. exact Hh.
Qed.

(* ===================================================================== *)
(** ** Further properties of the diff path                                *)
(* ===================================================================== *)

Lemma get_set (V : Type) (u k : Z) (v : V) (m : JSMap.t V) :
  JSMap.get u (JSMap.set k v m) = if u =? k then Some v else JSMap.get u m.
Proof.
  induction m as [|[k' v'] m IH]; simpl; [reflexivity|].
  destruct (Z.eqb_spec k k') as [->|Hne]; simpl.
  - destruct (u =? k'); reflexivity.
  - rewrite IH. destruct (Z.eqb_spec u k') as [->|Hne'].
    + destruct (Z.eqb_spec k' k); [congruence | reflexivity].
    + reflexivity.
Qed.

Lemma get_notin (V : Type) (k : Z) (m : JSMap.t V) :
  ~ In k (JSMap.keys m) -> JSMap.get k m = None.
Proof.
  induction m as [|[k' v'] m IH]; simpl; intros H; [reflexivity|].
  destruct (Z.eqb_spec k k') as [->|Hne]; [tauto|]. apply IH. tauto.
Qed.

Lemma get_delete (V : Type) (u k : Z) (m : JSMap.t V) :
  JSMap.wf m ->
  JSMap.get u (JSMap.delete k m) = if u =? k then None else JSMap.get u m.
Proof.
  unfold JSMap.wf. induction m as [|[k' v'] m IH]; simpl; intros Hwf.
  - destruct (u =? k); reflexivity.
  - inversion Hwf as [|? ? Hnotin Hwf']; subst.
    destruct (Z.eqb_spec k k') as [->|Hne]; simpl.
    + destruct (Z.eqb_spec u k') as [->|Hne']; [|reflexivity].
      apply get_notin. exact Hnotin.
    + rewrite (IH Hwf'). destruct (Z.eqb_spec u k') as [->|Hne'].
      * destruct (Z.eqb_spec k' k); [congruence | reflexivity].
      * reflexivity.
Qed.

Lemma lastAt_acc (u : Z) (l : list TagItem) (acc : JSMap.t TagData) :
  JSMap.get u
    (fold_left
       (fun m item =>
          JSMap.set (uPos item)
            {| td_tagId := tagId item; td_alarmStatus := alarmStatus item |} m)
       l acc)
  = fold_left
      (fun x item =>
         if uPos item =? u then
           Some {| td_tagId := tagId item; td_alarmStatus := alarmStatus item |}
         else x)
      l (JSMap.get u acc).
Proof.
  revert acc. induction l as [|item l IH]; intros acc; simpl; [reflexivity|].
  rewrite IH, get_set, (Z.eqb_sym u). reflexivity.
Qed.

(** X4. The last record wins. When a tag list names a position more than
    once, the Map the diff path builds from it holds, for every position,
    the record the list holds last for it. *)
Theorem buildCurrTags_last_wins (l : list TagItem) (u : Z) :
  JSMap.get u (buildCurrTags l) = lastAt u l.
Proof. unfold buildCurrTags, lastAt. apply lastAt_acc. Qed.

Lemma ofType_diffEvents_other (identity_ : BaseIdentity) (a : option Z)
    (ts_ : option string) (act : string) (from other : JSMap.t TagData)
    (t : EventType) :
  t <> SYS_RFID_EVENT ->
  ofType t (diffEvents identity_ a ts_ act from other) = [].
Proof.
  intros Ht. unfold diffEvents, JSMap.entries, ofType.
  induction from as [|[k v] from IH]; simpl; [reflexivity|].
  destruct (JSMap.has k other); simpl; [exact IH|].
  rewrite bool_decide_eq_false_2 by congruence. exact IH.
Qed.

Lemma keys_snapshotItems (m : JSMap.t TagData) :
  map s_uPos (snapshotItems m) = JSMap.keys m.
Proof.
  unfold snapshotItems, JSMap.entries, JSMap.keys. rewrite map_map. reflexivity.
Qed.

(** X5. The snapshot mirrors the store. Every V5008 LabelState message with
    a tag list resolves to a result with exactly one snapshot, its last
    event; the snapshot lists what the store then holds for the module,
    entry by entry: each position of the tag list once. *)
Theorem diff_path_snapshot_mirrors_store (cache : Cache) (pd : IM) (l : list TagItem) :
  deviceType pd = Some "V5008" ->
  messageType pd = Some "LabelState" ->
  items pd = Some l ->
  exists evs cache' m,
    normalize (Some pd) cache = (Ok evs, cache') /\
    StateCache.get cache' (deviceId pd) (modAddr pd) = Some m /\
    lastSnapshot evs = Some (snapshotItems m) /\
    countType SYS_RFID_SNAPSHOT evs = 1%nat /\
    List.NoDup (map s_uPos (snapshotItems m)) /\
    forall u, In u (map s_uPos (snapshotItems m)) <-> In u (positions l).
Proof.
  intros Hdt Hmt Hit.
  rewrite (normalize_LabelState cache pd l Hdt Hmt Hit). cbv zeta.
  eexists _, _, _. split; [reflexivity|]. split; [apply get_set_same|].
  repeat split.
  - unfold lastSnapshot. rewrite app_assoc, last_snoc. reflexivity.
  - unfold countType. rewrite !ofType_app, !ofType_diffEvents_other by discriminate.
    reflexivity.
  - rewrite keys_snapshotItems. apply buildCurrTags_wf.
  - rewrite keys_snapshotItems. apply buildCurrTags_keys.
  - rewrite keys_snapshotItems. apply buildCurrTags_keys.
Qed.

Lemma diffEvents_other_empty (identity_ : BaseIdentity) (a : option Z)
    (ts_ : option string) (act : string) (from : JSMap.t TagData) :
  diffEvents identity_ a ts_ act from JSMap.empty
  = map (fun e => rfidEvent identity_ a ts_ (JVal act) (td_tagId (snd e)) (fst e)
                    (td_alarmStatus (snd e)))
        from.
Proof.
  unfold diffEvents, JSMap.entries.
  induction from as [|[k v] from IH]; simpl; [reflexivity|].
  f_equal; exact IH.
Qed.

(** X6. First contact. When the store holds no shadow for the module, or
    an empty one, a V5008 LabelState message is announced as one
    attached event per entry of the new shadow, in its order, followed by
    the snapshot: nothing is reported detached. *)
Theorem diff_path_first_contact (cache : Cache) (pd : IM) (l : list TagItem) :
  deviceType pd = Some "V5008" ->
  messageType pd = Some "LabelState" ->
  items pd = Some l ->
  default JSMap.empty (StateCache.get cache (deviceId pd) (modAddr pd)) = JSMap.empty ->
  normalize (Some pd) cache
  = (Ok (map (fun e =>
                rfidEvent {| bi_deviceId := deviceId pd; bi_deviceType := "V5008" |}
                  (modAddr pd) (ts pd) (JVal "attached") (td_tagId (snd e)) (fst e)
                  (td_alarmStatus (snd e)))
             (buildCurrTags l)
         ++ [snapshotEvent {| bi_deviceId := deviceId pd; bi_deviceType := "V5008" |}
               (modAddr pd) (ts pd) (modId pd) (buildCurrTags l)]),
     StateCache.set cache (deviceId pd) (modAddr pd) (buildCurrTags l)).
Proof.
  intros Hdt Hmt Hit Hprev.
  rewrite (normalize_LabelState cache pd l Hdt Hmt Hit). cbv zeta.
  rewrite Hprev, diffEvents_other_empty. reflexivity.
Qed.

(** X7. The empty tag list. A V5008 LabelState message whose tag list is
    empty reports every entry of the shadow detached, in the order of the
    shadow, then an empty snapshot; the store keeps an entry for the
    module, holding the empty Map. *)
Theorem diff_path_empty_list (cache : Cache) (pd : IM) :
  deviceType pd = Some "V5008" ->
  messageType pd = Some "LabelState" ->
  items pd = Some [] ->
  exists cache',
    normalize (Some pd) cache
    = (Ok (map (fun e =>
                  rfidEvent {| bi_deviceId := deviceId pd; bi_deviceType := "V5008" |}
                    (modAddr pd) (ts pd) (JVal "detached") (td_tagId (snd e)) (fst e)
                    (td_alarmStatus (snd e)))
               (default JSMap.empty (StateCache.get cache (deviceId pd) (modAddr pd)))
           ++ [snapshotEvent {| bi_deviceId := deviceId pd; bi_deviceType := "V5008" |}
                 (modAddr pd) (ts pd) (modId pd) JSMap.empty]),
       cache') /\
    StateCache.get cache' (deviceId pd) (modAddr pd) = Some JSMap.empty /\
    StateCache.has cache' (deviceId pd) (modAddr pd) = true.
Proof.
  intros Hdt Hmt Hit.
  rewrite (normalize_LabelState cache pd [] Hdt Hmt Hit). cbv zeta.
  eexists. split; [|split].
  - change (buildCurrTags []) with (@JSMap.empty TagData).
    rewrite diffEvents_other_empty. reflexivity.
  - apply get_set_same.
  - unfold StateCache.has, StateCache.set. apply bool_decide_eq_true.
    rewrite lookup_insert_eq. eauto.
Qed.

(** X8. The diff compares positions, not tags. When the tag list names
    exactly the positions of the shadow, no RFID event is produced,
    whatever the tag ids and alarm flags of the two are: only the snapshot
    and the store show what the list brought. *)
Theorem diff_path_blind_to_replacement (cache : Cache) (pd : IM) (l : list TagItem) :
  deviceType pd = Some "V5008" ->
  messageType pd = Some "LabelState" ->
  items pd = Some l ->
  (forall u,
      In u (JSMap.keys
              (default JSMap.empty (StateCache.get cache (deviceId pd) (modAddr pd))))
      <-> In u (positions l)) ->
  normalize (Some pd) cache
  = (Ok [snapshotEvent {| bi_deviceId := deviceId pd; bi_deviceType := "V5008" |}
           (modAddr pd) (ts pd) (modId pd) (buildCurrTags l)],
     StateCache.set cache (deviceId pd) (modAddr pd) (buildCurrTags l)).
Proof.
  intros Hdt Hmt Hit Hsame.
  rewrite (normalize_LabelState cache pd l Hdt Hmt Hit). cbv zeta.
  rewrite !diffEvents_covered; [reflexivity| |].
  - intros k Hk. apply Hsame. apply buildCurrTags_keys. exact Hk.
  - intros k Hk. apply buildCurrTags_keys. apply Hsame. exact Hk.
Qed.

(* ===================================================================== *)
(** ** Further properties of the patch path                               *)
(* ===================================================================== *)

Lemma normalize_LABEL_STATE (cache : Cache) (pd : IM) (blocks : list ModuleBlock) :
  deviceType pd = Some "V6800" ->
  messageType pd = Some "LABEL_STATE" ->
  data pd = Some blocks ->
  normalize (Some pd) cache
  = rfidModules {| bi_deviceId := deviceId pd; bi_deviceType := "V6800" |}
      (ts pd) blocks [] cache.
Proof.
  intros Hdt Hmt Hdata.
  unfold normalize, _processV6800, _processV6800Rfid.
  rewrite Hdt, Hmt, Hdata. reflexivity.
Qed.

(** X9. A cache hit. When the store holds a shadow for the module of the
    block a V6800 LABEL_STATE message carries, [normalize] resolves to the
    pass-through event of each of the [N] items followed by one snapshot
    of the patched shadow: [N] RFID events, one snapshot, no request for a
    resync; the store then holds the patched shadow. The pass-through
    event of an item carries the action, tag id, position and alarm flag
    of the item, with the position as sensor address; the snapshot carries
    the module id of the block and the entries of the patched shadow. *)
Theorem patch_path_cache_hit (cache : Cache) (pd : IM) (m : ModuleBlock)
    (its : list TagItem) (shadow : JSMap.t TagData) :
  deviceType pd = Some "V6800" ->
  messageType pd = Some "LABEL_STATE" ->
  data pd = Some [m] ->
  b_items m = Some its ->
  StateCache.get cache (deviceId pd) (b_modAddr m) = Some shadow ->
  exists evs cache',
    normalize (Some pd) cache = (Ok evs, cache') /\
    evs = map (passThrough {| bi_deviceId := deviceId pd; bi_deviceType := "V6800" |}
                 (b_modAddr m) (ts pd)) its
          ++ [snapshotEvent {| bi_deviceId := deviceId pd; bi_deviceType := "V6800" |}
                (b_modAddr m) (ts pd) (b_modId m) (fold_left patchItem its shadow)] /\
    evs = map (fun item =>
                 {| identity := {| id_deviceId := deviceId pd; id_deviceType := "V6800";
                                   id_modAddr := b_modAddr m;
                                   id_sensorAddr := uPos item |};
                    type := SYS_RFID_EVENT;
                    ev_ts := ts pd;
                    payload := {| key := "rfid_event";
                                  value := VRfid (action item) (tagId item) (uPos item)
                                             (alarmStatus item);
                                  raw := RawNone |} |})
              its
          ++ [{| identity := {| id_deviceId := deviceId pd; id_deviceType := "V6800";
                                id_modAddr := b_modAddr m; id_sensorAddr := 0 |};
                 type := SYS_RFID_SNAPSHOT;
                 ev_ts := ts pd;
                 payload :=
                   {| key := "rfid_snapshot";
                      value := VSnapshot (b_modId m)
                                 (map (fun e =>
                                         {| s_uPos := fst e;
                                            s_tagId := td_tagId (snd e);
                                            s_alarmStatus := td_alarmStatus (snd e) |})
                                      (fold_left patchItem its shadow));
                      raw := RawNone |} |}] /\
    countType SYS_RFID_EVENT evs = length its /\
    countType SYS_RFID_SNAPSHOT evs = 1%nat /\
    countType SYS_REQUIRE_SYNC evs = 0%nat /\
    StateCache.get cache' (deviceId pd) (b_modAddr m)
    = Some (fold_left patchItem its shadow) /\
    lastSnapshot evs = Some (snapshotItems (fold_left patchItem its shadow)).
Proof.
  intros Hdt Hmt Hdata Hits Hhit.
  rewrite (normalize_LABEL_STATE cache pd [m] Hdt Hmt Hdata).
  simpl. rewrite Hhit, Hits.
  eexists _, _. split; [reflexivity|].
  split; [reflexivity|]. split; [reflexivity|].
  repeat split.
  - unfold countType. rewrite ofType_app, ofType_passThrough. simpl.
    rewrite length_app, length_map. simpl. lia.
  - unfold countType. rewrite ofType_app, ofType_passThrough. reflexivity.
  - unfold countType. rewrite ofType_app, ofType_passThrough. reflexivity.
  - apply get_set_same.
  - unfold lastSnapshot. rewrite last_snoc. reflexivity.
Qed.

Lemma get_patchItem (u : Z) (shadow : JSMap.t TagData) (item : TagItem) :
  JSMap.wf shadow ->
  JSMap.get u (patchItem shadow item) = effectAt u (JSMap.get u shadow) item.
Proof.
  intros Hwf. unfold patchItem, effectAt.
  destruct (action item) as [| |a].
  - destruct (uPos item =? u); reflexivity.
  - destruct (uPos item =? u); reflexivity.
  - destruct (String.eqb a "attached").
    + rewrite get_set, (Z.eqb_sym u). reflexivity.
    + destruct (String.eqb a "detached").
      * rewrite get_delete by exact Hwf. rewrite (Z.eqb_sym u). reflexivity.
      * destruct (uPos item =? u); reflexivity.
Qed.

Lemma fold_patchItem_get (u : Z) (its : list TagItem) (shadow : JSMap.t TagData) :
  JSMap.wf shadow ->
  JSMap.get u (fold_left patchItem its shadow)
  = fold_left (effectAt u) its (JSMap.get u shadow).
Proof.
  revert shadow. induction its as [|item its IH]; intros shadow Hwf; simpl.
  - reflexivity.
  - rewrite IH by (apply patchItem_wf; exact Hwf).
    rewrite get_patchItem by exact Hwf. reflexivity.
Qed.

(** X10. The patch, position by position. On a well-formed shadow the
    patch loop leaves at every position what the items naming that
    position do to it in turn: "attached" stores the record of the item,
    "detached" removes the entry, any other action changes nothing, and
    items naming other positions have no effect on it. *)
Theorem patch_effect_per_position (u : Z) (its : list TagItem)
    (shadow : JSMap.t TagData) :
  JSMap.wf shadow ->
  JSMap.get u (fold_left patchItem its shadow)
  = fold_left (effectAt u) its (JSMap.get u shadow).
Proof. apply fold_patchItem_get. Qed.

Lemma effectAt_cases (u : Z) (item : TagItem) :
  (forall x, effectAt u x item = x) \/ (exists c, forall x, effectAt u x item = c).
Proof.
  unfold effectAt. destruct (uPos item =? u); [|left; reflexivity].
  destruct (action item) as [| |a]; [left; reflexivity | left; reflexivity |].
  destruct (String.eqb a "attached"); [right; eexists; reflexivity|].
  destruct (String.eqb a "detached"); [right; eexists; reflexivity|].
  left; reflexivity.
Qed.

Lemma fold_effectAt_cases (u : Z) (its : list TagItem) :
  (forall x, fold_left (effectAt u) its x = x)
  \/ (exists c, forall x, fold_left (effectAt u) its x = c).
Proof.
  induction its as [|item its IH]; simpl; [left; reflexivity|].
  destruct IH as [IH|[c IH]]; [|right; exists c; intros x; apply IH].
  destruct (effectAt_cases u item) as [H|[c H]].
  - left. intros x. rewrite IH. apply H.
  - right. exists c. intros x. rewrite IH. apply H.
Qed.

(** X11. Replaying a patch. Applying the items of a block to a
    well-formed shadow a second time changes the record of no position:
    the shadow a replayed message leaves holds what the first delivery
    left. *)
Theorem patch_replay_same_content (u : Z) (its : list TagItem)
    (shadow : JSMap.t TagData) :
  JSMap.wf shadow ->
  JSMap.get u (fold_left patchItem its (fold_left patchItem its shadow))
  = JSMap.get u (fold_left patchItem its shadow).
Proof.
  intros Hwf.
  rewrite (fold_patchItem_get u its (fold_left patchItem its shadow))
    by (apply fold_patchItem_wf; exact Hwf).
  rewrite (fold_patchItem_get u its shadow Hwf).
  destruct (fold_effectAt_cases u its) as [H|[c H]].
  - rewrite !H. reflexivity.
  - rewrite !H. reflexivity.
Qed.

Lemma rfidModules_results (identity_ : BaseIdentity) (ts_ : option string)
    (blocks : list ModuleBlock) (results : list Event) (cache : Cache) :
  rfidModules identity_ ts_ blocks results cache
  = match rfidModules identity_ ts_ blocks [] cache with
    | (Ok r, c) => (Ok (results ++ r), c)
    | (Throw e, c) => (Throw e, c)
    end.
Proof.
  revert results cache. induction blocks as [|m blocks IH]; intros results cache; simpl.
  - rewrite app_nil_r. reflexivity.
  - destruct (StateCache.get cache (bi_deviceId identity_) (b_modAddr m));
      destruct (b_items m); try reflexivity.
    + rewrite IH. rewrite (IH (map _ _ ++ _)).
      destruct (rfidModules identity_ ts_ blocks [] _) as [[r|e] c]; [|reflexivity].
      rewrite <- !app_assoc. reflexivity.
    + rewrite IH. rewrite (IH (map _ _ ++ _)).
      destruct (rfidModules identity_ ts_ blocks [] _) as [[r|e] c]; [|reflexivity].
      rewrite <- !app_assoc. reflexivity.
Qed.

Lemma rfidModules_app (identity_ : BaseIdentity) (ts_ : option string)
    (a b : list ModuleBlock) (results : list Event) (cache : Cache) :
  rfidModules identity_ ts_ (a ++ b) results cache
  = match rfidModules identity_ ts_ a results cache with
    | (Ok r, c) => rfidModules identity_ ts_ b r c
    | (Throw e, c) => (Throw e, c)
    end.
Proof.
  revert results cache. induction a as [|m a IH]; intros results cache; simpl.
  - reflexivity.
  - destruct (StateCache.get cache (bi_deviceId identity_) (b_modAddr m));
      destruct (b_items m); try reflexivity; apply IH.
Qed.

Lemma set_data_fields (v : list ModuleBlock) (pd : IM) :
  deviceType (set_data v pd) = deviceType pd
  /\ messageType (set_data v pd) = messageType pd
  /\ deviceId (set_data v pd) = deviceId pd
  /\ ts (set_data v pd) = ts pd
  /\ data (set_data v pd) = Some v.
Proof. destruct pd. repeat split. Qed.

(** X12. Blocks are handled one after the other. A V6800 LABEL_STATE
    message carrying the blocks [a ++ b] is normalized as the message with
    the blocks [a] followed, on the store that leaves, by the message with
    the blocks [b]: the results are concatenated, and a rejection of
    either part rejects the whole with the store as that part left it. *)
Theorem patch_path_composes (cache : Cache) (pd : IM) (a b : list ModuleBlock) :
  deviceType pd = Some "V6800" ->
  messageType pd = Some "LABEL_STATE" ->
  normalize (Some (set_data (a ++ b) pd)) cache
  = match normalize (Some (set_data a pd)) cache with
    | (Ok r, c) =>
        match normalize (Some (set_data b pd)) c with
        | (Ok r', c') => (Ok (r ++ r'), c')
        | (Throw e, c') => (Throw e, c')
        end
    | (Throw e, c) => (Throw e, c)
    end.
Proof.
  intros Hdt Hmt.
  destruct (set_data_fields (a ++ b) pd) as (H1 & H2 & H3 & H4 & H5).
  rewrite (normalize_LABEL_STATE cache _ (a ++ b)) by congruence.
  destruct (set_data_fields a pd) as (A1 & A2 & A3 & A4 & A5).
  rewrite (normalize_LABEL_STATE cache _ a) by congruence.
  rewrite H3, H4, A3, A4, rfidModules_app.
  destruct (rfidModules _ _ a [] cache) as [[r|e] c]; [|reflexivity].
  destruct (set_data_fields b pd) as (B1 & B2 & B3 & B4 & B5).
  rewrite (normalize_LABEL_STATE c _ b) by congruence.
  rewrite B3, B4. apply rfidModules_results.
Qed.

(** X13. A rejection does not undo the blocks before it. When a block
    without an item list follows blocks that were handled, [normalize]
    rejects with a TypeError; the events of the handled blocks are lost,
    but the store keeps what those blocks wrote. *)
Theorem patch_path_rejection_keeps_writes (cache cache' : Cache) (pd : IM)
    (good rest : list ModuleBlock) (bad : ModuleBlock) (evs : list Event) :
  deviceType pd = Some "V6800" ->
  messageType pd = Some "LABEL_STATE" ->
  b_items bad = None ->
  normalize (Some (set_data good pd)) cache = (Ok evs, cache') ->
  normalize (Some (set_data (good ++ bad :: rest) pd)) cache
  = (Throw TypeError, cache').
Proof.
  intros Hdt Hmt Hbad Hgood.
  destruct (set_data_fields (good ++ bad :: rest) pd) as (H1 & H2 & H3 & H4 & H5).
  rewrite (normalize_LABEL_STATE cache _ (good ++ bad :: rest)) by congruence.
  destruct (set_data_fields good pd) as (A1 & A2 & A3 & A4 & A5).
  rewrite (normalize_LABEL_STATE cache _ good) in Hgood by congruence.
  rewrite H3, H4, rfidModules_app. rewrite A3, A4 in Hgood. rewrite Hgood.
  simpl. rewrite Hbad.
  destruct (StateCache.get cache' _ _); reflexivity.
Qed.

(* ===================================================================== *)
(** ** Further properties of the binary adapter                           *)
(* ===================================================================== *)

(** [parse] with the header test resolved. *)
Lemma parse_unfold (topic_ : string) (buf : Buffer) (now : string) :
  V5008Parser.parse topic_ buf now
  = let mt :=
      V5008Parser.messageType_of
        (match readUInt8 buf 0 with Ok h => Some h | Throw _ => None end)
        (nth_error (JS.split "/" topic_) 2) in
    let r := V5008Parser.base_result topic_ (toHexUpper buf)
               (nth_error (JS.split "/" topic_) 1) mt now in
    match (if str_is mt "HEARTBEAT" then V5008Parser.parseOpeAck buf r
           else if str_is mt "LABEL_STATE" then V5008Parser.parseLabelState buf r
           else if str_is mt "DOOR_STATE" then V5008Parser.parseOpeAck buf r
           else if str_is mt "OPE_ACK" then V5008Parser.parseOpeAck buf r
           else if str_is mt "TemHum" then V5008Parser.parseTemHum buf r
           else if str_is mt "Noise" then V5008Parser.parseNoise buf r
           else Ok None) with
    | Ok out => out
    | Throw _ => None
    end.
Proof.
  unfold V5008Parser.parse, V5008Parser.parse_try.
  destruct buf as [|b buf']; reflexivity.
Qed.

Lemma str_is_true (x : option string) (s : string) :
  str_is x s = true -> x = Some s.
Proof.
  destruct x as [y|]; simpl; [|discriminate].
  intros H. apply String.eqb_eq in H. congruence.
Qed.

(** The six message types [parse] can return. *)
Lemma parse_type_closed (topic_ : string) (buf : Buffer) (now : string) (pd : IM) :
  V5008Parser.parse topic_ buf now = Some pd ->
  deviceType pd = Some "V5008" /\
  exists mt, messageType pd = Some mt /\
    In mt ["HEARTBEAT"; "LABEL_STATE"; "DOOR_STATE"; "OPE_ACK"; "TemHum"; "Noise"].
Proof.
  intros H. destruct (parse_envelope _ _ _ _ H) as [Hdt Hmt].
  split; [exact Hdt|]. rewrite parse_unfold in H. cbv zeta in H.
  rewrite <- Hmt in H.
  destruct (str_is (messageType pd) "HEARTBEAT") eqn:E1;
    [apply str_is_true in E1; eexists; split; [exact E1 | simpl; tauto]|].
  destruct (str_is (messageType pd) "LABEL_STATE") eqn:E2;
    [apply str_is_true in E2; eexists; split; [exact E2 | simpl; tauto]|].
  destruct (str_is (messageType pd) "DOOR_STATE") eqn:E3;
    [apply str_is_true in E3; eexists; split; [exact E3 | simpl; tauto]|].
  destruct (str_is (messageType pd) "OPE_ACK") eqn:E4;
    [apply str_is_true in E4; eexists; split; [exact E4 | simpl; tauto]|].
  destruct (str_is (messageType pd) "TemHum") eqn:E5;
    [apply str_is_true in E5; eexists; split; [exact E5 | simpl; tauto]|].
  destruct (str_is (messageType pd) "Noise") eqn:E6;
    [apply str_is_true in E6; eexists; split; [exact E6 | simpl; tauto]|].
  discriminate.
Qed.

Lemma processHeartbeat_types (pd : IM) (identity_ : BaseIdentity) :
  Forall (fun e => type e = SYS_TELEMETRY \/ type e = SYS_LIFECYCLE)
    (_processHeartbeat pd identity_).
Proof.
  unfold _processHeartbeat. destruct (meta pd) as [m|]; [|constructor].
  destruct (voltage m), (current m); simpl; repeat match goal with
           | |- Forall _ (_ :: _) => constructor; [simpl; auto|]
           | |- Forall _ [] => constructor
           end.
Qed.

Lemma flattenTelemetry_types (pd : IM) (identity_ : BaseIdentity) (tk hk : string) :
  Forall (fun e => type e = SYS_TELEMETRY \/ type e = SYS_LIFECYCLE)
    (_flattenTelemetry pd identity_ tk hk).
Proof.
  unfold _flattenTelemetry. destruct (sensors pd) as [ss|]; [|constructor].
  induction ss as [|s ss IH]; simpl; [constructor|].
  apply Forall_app. split; [|exact IH].
  unfold flattenSensor.
  destruct (is_null (sensor_get s tk) && is_null (sensor_get s hk)); [constructor|].
  destruct (is_null (sensor_get s tk)), (is_null (sensor_get s hk)); simpl;
    repeat match goal with
           | |- Forall _ (_ :: _) => constructor; [simpl; auto|]
           | |- Forall _ [] => constructor
           end.
Qed.

Lemma flattenNoiseTelemetry_types (pd : IM) (identity_ : BaseIdentity) :
  Forall (fun e => type e = SYS_TELEMETRY \/ type e = SYS_LIFECYCLE)
    (_flattenNoiseTelemetry pd identity_).
Proof.
  unfold _flattenNoiseTelemetry. destruct (sensors pd) as [ss|]; [|constructor].
  induction ss as [|s ss IH]; simpl; [constructor|].
  apply Forall_app. split; [|exact IH].
  unfold flattenNoiseSensor.
  destruct (is_null (sensor_get s "noise")); repeat match goal with
           | |- Forall _ (_ :: _) => constructor; [simpl; auto|]
           | |- Forall _ [] => constructor
           end.
Qed.

Lemma adapter_normalize (topic_ : string) (buf : Buffer)
    (now : string) (pd : IM) (cache : Cache) :
  V5008Parser.parse topic_ buf now = Some pd ->
  exists evs,
    normalize (Some pd) cache = (Ok evs, cache) /\
    Forall (fun e => type e = SYS_TELEMETRY \/ type e = SYS_LIFECYCLE) evs.
Proof.
  intros H. destruct (parse_type_closed _ _ _ _ H) as (Hdt & mt & Hmt & Hin).
  unfold normalize, _processV5008. rewrite Hdt, Hmt.
  simpl in Hin.
  destruct Hin as [<-|[<-|[<-|[<-|[<-|[<-|[]]]]]]]; simpl;
    eexists; (split; [reflexivity|]);
    first [ apply processHeartbeat_types | apply flattenTelemetry_types
          | apply flattenNoiseTelemetry_types | constructor ].
Qed.

(** X14. What the binary adapter decodes never reaches the shadow store.
    Whatever the topic and the frame, the message [parse] returns has one
    of six message types, and [normalize] resolves it without a rejection,
    with the store untouched, to telemetry and lifecycle events only: no
    RFID event, no snapshot and no state change comes out of a V5008
    frame. *)
Theorem adapter_frames_never_reach_store (topic_ : string) (buf : Buffer)
    (now : string) (pd : IM) (cache : Cache) :
  V5008Parser.parse topic_ buf now = Some pd ->
  (exists mt, messageType pd = Some mt /\
     In mt ["HEARTBEAT"; "LABEL_STATE"; "DOOR_STATE"; "OPE_ACK"; "TemHum"; "Noise"]) /\
  exists evs,
    normalize (Some pd) cache = (Ok evs, cache) /\
    Forall (fun e => type e = SYS_TELEMETRY \/ type e = SYS_LIFECYCLE) evs.
Proof.
  intros H. split.
  - apply (parse_type_closed _ _ _ _ H).
  - apply (adapter_normalize _ _ _ _ cache H).
Qed.

Lemma readUInt8_ok (buf : Buffer) (off : Z) :
  0 <= off < buf_length buf -> exists v, readUInt8 buf off = Ok v /\ 0 <= v < 256.
Proof.
  intros Hoff. unfold readUInt8.
  assert (E : (0 <=? off) && (off <? buf_length buf) = true).
  { apply andb_true_iff. split; [apply Z.leb_le | apply Z.ltb_lt]; lia. }
  rewrite E.
  destruct (nth_error buf (Z.to_nat off)) as [x|] eqn:En.
  - exists (byte_val x). split; [reflexivity | apply byte_val_range].
  - apply nth_error_None in En. unfold buf_length in Hoff. lia.
Qed.

Lemma readUInt8_throws (buf : Buffer) (off : Z) :
  off < 0 \/ buf_length buf <= off -> readUInt8 buf off = Throw RangeError.
Proof.
  intros Hoff. unfold readUInt8.
  assert (E : (0 <=? off) && (off <? buf_length buf) = false).
  { apply andb_false_iff. destruct Hoff; [left; apply Z.leb_gt | right; apply Z.ltb_ge]; lia. }
  rewrite E. reflexivity.
Qed.

(** A four-byte read at a non-negative offset never raises: it yields 0
    when the bytes are not all there, and a signed 32-bit value otherwise. *)
Lemma readBigUIntBE_ok (buf : Buffer) (off : Z) :
  0 <= off ->
  exists v, V5008Parser.readBigUIntBE buf off 4 = Ok v /\ - 2 ^ 31 <= v < 2 ^ 31.
Proof.
  intros Hoff.
  destruct (Z_lt_le_dec (buf_length buf) (off + 4)) as [Hshort|Hlong].
  - exists 0. unfold V5008Parser.readBigUIntBE.
    assert (E : (off + Z.of_nat 4 >? buf_length buf) = true).
    { rewrite Z.gtb_ltb. apply Z.ltb_lt. simpl Z.of_nat. lia. }
    rewrite E. split; [reflexivity | lia].
  - destruct (readUInt8_ok buf off) as (b0 & H0 & _); [lia|].
    destruct (readUInt8_ok buf (off + 1)) as (b1 & H1 & _); [lia|].
    destruct (readUInt8_ok buf (off + 2)) as (b2 & H2 & _); [lia|].
    destruct (readUInt8_ok buf (off + 3)) as (b3 & H3 & _); [lia|].
    rewrite (readBigUIntBE_signed buf off b0 b1 b2 b3 H0 H1 H2 H3).
    eexists. split; [reflexivity | apply ToInt32_range].
Qed.

(** The message id is read from the last four bytes; a frame shorter than
    that makes the read raise. *)
Lemma readBigUIntBE_trailer_short (buf : Buffer) :
  buf_length buf < 4 ->
  V5008Parser.readBigUIntBE buf (buf_length buf - 4) 4 = Throw RangeError.
Proof.
  intros Hlen. unfold V5008Parser.readBigUIntBE.
  assert (E : (buf_length buf - 4 + Z.of_nat 4 >? buf_length buf) = false).
  { rewrite Z.gtb_ltb. apply Z.ltb_ge. simpl Z.of_nat. lia. }
  rewrite E. simpl. rewrite Z.add_0_r.
  rewrite (readUInt8_throws buf (buf_length buf - 4)) by lia. reflexivity.
Qed.

Lemma heartbeat_loop_ok (buf : Buffer) (n : nat) (off : Z) (acc : list ModuleRec) :
  0 <= off ->
  exists new,
    V5008Parser.heartbeat_loop buf n off acc = Ok (acc ++ new) /\
    (length new <= n)%nat /\
    Forall (fun m => exists a, m_modAddr m = Some a /\ 1 <= a <= 5) new.
Proof.
  revert off acc. induction n as [|n IH]; intros off acc Hoff; simpl.
  - exists []. rewrite app_nil_r. repeat split; [simpl; lia | constructor].
  - destruct (off + 9 >? buf_length buf - 4) eqn:Eg.
    + exists []. rewrite app_nil_r. repeat split; [simpl; lia | constructor].
    + rewrite Z.gtb_ltb in Eg. apply Z.ltb_ge in Eg.
      destruct (readUInt8_ok buf off) as (a & Ha & _); [lia|].
      destruct (readBigUIntBE_ok buf (off + 1)) as (v & Hv & _); [lia|].
      destruct (readUInt8_ok buf (off + 5)) as (u & Hu & _); [lia|].
      unfold mbind, exn_bind, JS.bind. rewrite Ha, Hv, Hu.
      destruct ((a >=? 1) && (a <=? 5)) eqn:Ea.
      * destruct (IH (off + 6) (acc ++ [{| m_modAddr := Some a;
                                            m_modId := Some (num_toString v);
                                            m_uTotal := Some u;
                                            m_fwVer := None |}]))
          as (new & Hnew & Hlen & Hall); [lia|].
        rewrite Hnew, <- app_assoc. eexists. split; [reflexivity|].
        split; [simpl; lia|]. constructor; [|exact Hall].
        exists a. split; [reflexivity|].
        apply andb_true_iff in Ea. destruct Ea as [E1 E2].
        rewrite Z.geb_leb in E1. apply Z.leb_le in E1. apply Z.leb_le in E2. lia.
      * destruct (IH (off + 6) acc) as (new & Hnew & Hlen & Hall); [lia|].
        rewrite Hnew. exists new. split; [reflexivity|]. split; [lia | exact Hall].
Qed.

(** A frame with leading byte 0xCC or 0xCB goes through [parseOpeAck] to
    [parseHeartbeat]. *)
Lemma parse_heartbeat (topic_ : string) (buf : Buffer) (now : string) (h : Z) :
  readUInt8 buf 0 = Ok h ->
  h = 0xCC \/ h = 0xCB ->
  V5008Parser.parse topic_ buf now
  = match (messageIdN ← V5008Parser.readBigUIntBE buf (buf_length buf - 4) 4;
           V5008Parser.parseHeartbeat buf
             (V5008Parser.base_result topic_ (toHexUpper buf)
                (nth_error (JS.split "/" topic_) 1) (Some "HEARTBEAT") now)
             (num_toString messageIdN)) with
    | Ok out => out
    | Throw _ => None
    end.
Proof.
  intros Hh Hcase. rewrite parse_unfold, Hh. cbv zeta.
  unfold V5008Parser.parseOpeAck. rewrite Hh.
  destruct Hcase as [-> | ->]; reflexivity.
Qed.

(** X15. Heartbeats carry fixed power readings. Every frame with leading
    byte 0xCC or 0xCB that the adapter decodes is normalized to the same
    three events, whatever the frame holds: a voltage of 12.5, a current of
    0.8 and the lifecycle status "online", all at module address 0; the
    module records of the frame do not show in the result. *)
Theorem heartbeat_power_is_fixed (topic_ : string) (buf : Buffer) (now : string)
    (pd : IM) (h : Z) (cache : Cache) :
  readUInt8 buf 0 = Ok h ->
  h = 0xCC \/ h = 0xCB ->
  V5008Parser.parse topic_ buf now = Some pd ->
  normalize (Some pd) cache
  = (let identity_ := {| bi_deviceId := nth_error (JS.split "/" topic_) 1;
                         bi_deviceType := "V5008" |} in
     let raw_ := RawPower (Some true) (Some false) in
     Ok [telemetryEvent identity_ (Some 0) 0 (Some now) "voltage"
           (JVal (25 # 2)%Q) raw_;
         telemetryEvent identity_ (Some 0) 0 (Some now) "current"
           (JVal (4 # 5)%Q) raw_;
         {| identity := mkIdentity identity_ (Some 0) 0;
            type := SYS_LIFECYCLE;
            ev_ts := Some now;
            payload := {| key := "device_status"; value := VText "online";
                          raw := raw_ |} |}],
     cache).
Proof.
  intros Hh Hcase Hparse.
  rewrite (parse_heartbeat topic_ buf now h Hh Hcase) in Hparse.
  unfold mbind, exn_bind, JS.bind in Hparse.
  destruct (V5008Parser.readBigUIntBE buf (buf_length buf - 4) 4) as [mid|];
    [|discriminate].
  unfold V5008Parser.parseHeartbeat in Hparse.
  unfold mbind, exn_bind, JS.bind in Hparse.
  destruct (V5008Parser.heartbeat_loop buf 10 1 []) as [mods|]; [|discriminate].
  inversion Hparse; subst. reflexivity.
Qed.

(** X16. Decoding a heartbeat. A frame with leading byte 0xCC or 0xCB is
    decoded exactly when it has the four bytes of a message id; the module
    list of the result has at most ten records, and only records with an
    address from 1 to 5. *)
Theorem heartbeat_decoding (topic_ : string) (buf : Buffer) (now : string) (h : Z) :
  readUInt8 buf 0 = Ok h ->
  h = 0xCC \/ h = 0xCB ->
  (is_Some (V5008Parser.parse topic_ buf now) <-> 4 <= buf_length buf) /\
  forall pd, V5008Parser.parse topic_ buf now = Some pd ->
    exists mods,
      modules pd = Some mods /\
      (length mods <= 10)%nat /\
      Forall (fun m => exists a, m_modAddr m = Some a /\ 1 <= a <= 5) mods.
Proof.
  intros Hh Hcase.
  rewrite (parse_heartbeat topic_ buf now h Hh Hcase).
  unfold mbind, exn_bind, JS.bind. unfold V5008Parser.parseHeartbeat.
  unfold mbind, exn_bind, JS.bind.
  destruct (heartbeat_loop_ok buf 10 1 []) as (mods & Hmods & Hlen & Hall); [lia|].
  rewrite Hmods. simpl app.
  destruct (Z_lt_le_dec (buf_length buf) 4) as [Hshort|Hlong].
  - rewrite readBigUIntBE_trailer_short by exact Hshort. split.
    + split; [intros [x Hx]; discriminate | lia].
    + intros pd Hpd. discriminate.
  - destruct (readBigUIntBE_ok buf (buf_length buf - 4)) as (v & Hv & _); [lia|].
    rewrite Hv. split.
    + split; [intros _; exact Hlong | eauto].
    + intros pd Hpd. inversion Hpd; subst. exists mods. auto.
Qed.

Lemma readInt8_ok (buf : Buffer) (off b : Z) :
  readUInt8 buf off = Ok b ->
  readInt8 buf off = Ok (if b <? 128 then b else b - 256).
Proof. intros H. unfold readInt8. rewrite H. reflexivity. Qed.

Lemma reading_nonzero (i f : Z) :
  0 <= f -> (i =? 0) && (f =? 0) = false ->
  ~ ((if i <? 0 then - (inject_Z (Z.abs i) + (f # 100)) else inject_Z (Z.abs i) + (f # 100))
     == 0)%Q.
Proof.
  intros Hf Hnz.
  assert (Hpos : 0 < Z.abs i * 100 + f).
  { apply andb_false_iff in Hnz. destruct Hnz as [H|H].
    - apply Z.eqb_neq in H. lia.
    - apply Z.eqb_neq in H. lia. }
  destruct (i <? 0); unfold Qeq, Qplus, Qopp, inject_Z; simpl; lia.
Qed.

(** The sign and the size of a reading, in terms that do not depend on
    how the sum of the two parts is rounded. *)
Lemma reading_sign_and_size (i f : Z) (q : Q) :
  0 <= f < 256 ->
  q = (if i <? 0 then - (inject_Z (Z.abs i) + (f # 100)) else inject_Z (Z.abs i) + (f # 100))%Q ->
  (0 <= i -> (inject_Z i <= q)%Q /\ (q < inject_Z i + 3)%Q)
  /\ (i < 0 -> (inject_Z i - 3 < q)%Q /\ (q <= inject_Z i)%Q)
  /\ (f = 0 -> (q == inject_Z i)%Q).
Proof.
  intros Hf ->.
  destruct (Z.ltb_spec i 0) as [Hi|Hi];
    unfold Qlt, Qle, Qeq, Qminus, Qplus, Qopp, inject_Z; simpl;
    repeat split; intros; subst; try lia.
Qed.

(** X17. Fixed-point readings. A reading at a non-negative offset never
    raises. It is [null] when its two bytes are not both inside the buffer,
    and, when they are, exactly when both are zero. Any other reading is a
    number that is not zero, whose sign and integer part are those of the
    first byte read in two's complement: it lies at or above that integer
    and less than 3 above it when the byte is below 128, and at or below
    it and less than 3 below otherwise; when the second byte is zero it is
    that integer. (The sum of integer part and hundredths is exact here
    and a binary64 sum in the source; what is stated holds of both.) *)
Theorem parseSignedDecimal_reading (buf : Buffer) (off : Z) :
  0 <= off ->
  (buf_length buf <= off + 1 -> V5008Parser.parseSignedDecimal buf off = Ok None) /\
  (forall b0 b1,
      readUInt8 buf off = Ok b0 -> readUInt8 buf (off + 1) = Ok b1 ->
      exists r,
        V5008Parser.parseSignedDecimal buf off = Ok r /\
        (r = None <-> b0 = 0 /\ b1 = 0) /\
        forall q, r = Some q ->
          ~ (q == 0)%Q /\
          (b0 < 128 -> (inject_Z b0 <= q)%Q /\ (q < inject_Z b0 + 3)%Q) /\
          (128 <= b0 ->
           (inject_Z (b0 - 256) - 3 < q)%Q /\ (q <= inject_Z (b0 - 256))%Q) /\
          (b1 = 0 -> (q == inject_Z (if b0 <? 128 then b0 else b0 - 256))%Q)) /\
  (exists r, V5008Parser.parseSignedDecimal buf off = Ok r
             /\ forall q, r = Some q -> ~ (q == 0)%Q).
Proof.
  intros Hoff.
  assert (Hshort : buf_length buf <= off + 1 ->
                   V5008Parser.parseSignedDecimal buf off = Ok None).
  { intros Hs. unfold V5008Parser.parseSignedDecimal.
    assert (E : (off + 1 >=? buf_length buf) = true)
      by (rewrite Z.geb_leb; apply Z.leb_le; lia).
    rewrite E. reflexivity. }
  assert (Hval : forall b0 b1,
      readUInt8 buf off = Ok b0 -> readUInt8 buf (off + 1) = Ok b1 ->
      exists r,
        V5008Parser.parseSignedDecimal buf off = Ok r /\
        (r = None <-> b0 = 0 /\ b1 = 0) /\
        forall q, r = Some q ->
          ~ (q == 0)%Q /\
          (b0 < 128 -> (inject_Z b0 <= q)%Q /\ (q < inject_Z b0 + 3)%Q) /\
          (128 <= b0 ->
           (inject_Z (b0 - 256) - 3 < q)%Q /\ (q <= inject_Z (b0 - 256))%Q) /\
          (b1 = 0 -> (q == inject_Z (if b0 <? 128 then b0 else b0 - 256))%Q)).
  { intros b0 b1 H0 H1.
    pose proof (readUInt8_length _ _ _ H1) as Hlen.
    pose proof (readUInt8_range _ _ _ H0) as Hr0.
    pose proof (readUInt8_range _ _ _ H1) as Hr1.
    unfold V5008Parser.parseSignedDecimal.
    assert (E : (off + 1 >=? buf_length buf) = false)
      by (rewrite Z.geb_leb; apply Z.leb_gt; lia).
    rewrite E. unfold mbind, exn_bind, JS.bind.
    rewrite (readInt8_ok _ _ _ H0), H1.
    set (i := if b0 <? 128 then b0 else b0 - 256).
    assert (Hi : (b0 < 128 -> i = b0 /\ 0 <= i) /\ (128 <= b0 -> i = b0 - 256 /\ i < 0)).
    { unfold i. destruct (Z.ltb_spec b0 128); split; intros; lia. }
    destruct ((i =? 0) && (b1 =? 0)) eqn:Ez.
    - exists None. split; [reflexivity|]. split; [|discriminate].
      apply andb_true_iff in Ez. destruct Ez as [E1 E2].
      apply Z.eqb_eq in E1. apply Z.eqb_eq in E2.
      split; [intros _; split; [|exact E2] | reflexivity].
      destruct (Z.lt_ge_cases b0 128) as [Hc|Hc]; [apply Hi in Hc | apply Hi in Hc]; lia.
    - eexists. split; [reflexivity|]. split.
      + split; [discriminate|]. intros [-> ->]. discriminate Ez.
      + intros q Hq. inversion Hq as [Hq']. clear Hq.
        split; [apply reading_nonzero; [lia | exact Ez]|].
        destruct (reading_sign_and_size i b1 _ Hr1 eq_refl) as (Hpos & Hneg & Hint).
        split; [|split].
        * intros Hc. destruct (proj1 Hi Hc) as [Ei Hi0]. rewrite <- Ei. apply Hpos. exact Hi0.
        * intros Hc. destruct (proj2 Hi Hc) as [Ei Hi0]. rewrite <- Ei. apply Hneg. exact Hi0.
        * exact Hint. }
  split; [exact Hshort|]. split; [exact Hval|].
  destruct (Z_le_gt_dec (buf_length buf) (off + 1)) as [Hs|Hl].
  - exists None. split; [apply Hshort; exact Hs | discriminate].
  - destruct (readUInt8_ok buf off) as (b0 & H0 & Hr0); [lia|].
    destruct (readUInt8_ok buf (off + 1)) as (b1 & H1 & Hr1); [lia|].
    destruct (Hval b0 b1 H0 H1) as (r & Hr & _ & Hq).
    exists r. split; [exact Hr|]. intros q Hrq. apply (Hq q Hrq).
Qed.

Lemma parseSignedDecimal_ok (buf : Buffer) (off : Z) :
  0 <= off ->
  exists r, V5008Parser.parseSignedDecimal buf off = Ok r
            /\ forall q, r = Some q -> ~ (q == 0)%Q.
Proof.
  intros Hoff.
  destruct (Z_le_gt_dec (buf_length buf) (off + 1)) as [Hs|Hl].
  - exists None. split; [|discriminate].
    unfold V5008Parser.parseSignedDecimal.
    assert (E : (off + 1 >=? buf_length buf) = true)
      by (rewrite Z.geb_leb; apply Z.leb_le; lia).
    rewrite E. reflexivity.
  - destruct (readUInt8_ok buf off) as (b0 & H0 & Hr0); [lia|].
    destruct (readUInt8_ok buf (off + 1)) as (b1 & H1 & Hr1); [lia|].
    unfold V5008Parser.parseSignedDecimal.
    assert (E : (off + 1 >=? buf_length buf) = false)
      by (rewrite Z.geb_leb; apply Z.leb_gt; lia).
    rewrite E. unfold mbind, exn_bind, JS.bind.
    rewrite (readInt8_ok _ _ _ H0), H1.
    set (i := if b0 <? 128 then b0 else b0 - 256).
    destruct ((i =? 0) && (b1 =? 0)) eqn:Ez.
    + exists None. split; [reflexivity | discriminate].
    + eexists. split; [reflexivity|]. intros q Hq. inversion Hq; subst.
      apply reading_nonzero; [lia | exact Ez].
Qed.

Lemma noise_loop_ok (buf : Buffer) (n : nat) (off : Z) (acc : list Sensor) :
  0 <= off ->
  exists new,
    V5008Parser.noise_loop buf n off acc = Ok (acc ++ new) /\
    (length new <= n)%nat /\
    Forall noise_sensor new.
Proof.
  revert off acc. induction n as [|n IH]; intros off acc Hoff; simpl.
  - exists []. rewrite app_nil_r. repeat split; [simpl; lia | constructor].
  - destruct (off + 3 >? buf_length buf - 4) eqn:Eg.
    + exists []. rewrite app_nil_r. repeat split; [simpl; lia | constructor].
    + rewrite Z.gtb_ltb in Eg. apply Z.ltb_ge in Eg.
      destruct (readUInt8_ok buf off) as (a & Ha & _); [lia|].
      unfold mbind, exn_bind, JS.bind. rewrite Ha.
      destruct ((a >=? 16) && (a <=? 18)) eqn:Ea.
      * destruct (parseSignedDecimal_ok buf (off + 1)) as (r & Hr & Hnz); [lia|].
        rewrite Hr.
        destruct (IH (off + 3) (acc ++ [{| sensorAddr := a; props := [("noise", r)] |}]))
          as (new & Hnew & Hlen & Hall); [lia|].
        rewrite Hnew, <- app_assoc. eexists. split; [reflexivity|].
        split; [simpl; lia|]. constructor; [|exact Hall].
        exists r. split; [reflexivity|]. split; [exact Hnz|].
        intros _. simpl. apply andb_true_iff in Ea. destruct Ea as [E1 E2].
        rewrite Z.geb_leb in E1. apply Z.leb_le in E1. apply Z.leb_le in E2. lia.
      * destruct (IH (off + 3) (acc ++ [{| sensorAddr := a; props := [("noise", None)] |}]))
          as (new & Hnew & Hlen & Hall); [lia|].
        rewrite Hnew, <- app_assoc. eexists. split; [reflexivity|].
        split; [simpl; lia|]. constructor; [|exact Hall].
        exists None. split; [reflexivity|]. split; [discriminate | congruence].
Qed.

Lemma flattenNoiseSensor_ok (pd : IM) (identity_ : BaseIdentity) (s : Sensor) :
  noise_sensor s ->
  (length (flattenNoiseSensor pd identity_ s) <= 1)%nat /\
  Forall (fun e => type e = SYS_TELEMETRY /\ key (payload e) = "noise" /\
                   16 <= id_sensorAddr (identity e) <= 18 /\
                   exists q, value (payload e) = VScalar (JVal q) /\ ~ (q == 0)%Q)
    (flattenNoiseSensor pd identity_ s).
Proof.
  intros (v & Hp & Hnz & Haddr). unfold flattenNoiseSensor, sensor_get.
  rewrite Hp. simpl. destruct v as [q|]; simpl.
  - split; [lia|]. constructor; [|constructor].
    repeat split; try (apply Haddr; discriminate).
    exists q. split; [reflexivity | apply Hnz; reflexivity].
  - split; [lia | constructor].
Qed.

Lemma flat_map_noise_ok (pd : IM) (identity_ : BaseIdentity) (ss : list Sensor) :
  Forall noise_sensor ss ->
  (length (flat_map (flattenNoiseSensor pd identity_) ss) <= length ss)%nat /\
  Forall (fun e => type e = SYS_TELEMETRY /\ key (payload e) = "noise" /\
                   16 <= id_sensorAddr (identity e) <= 18 /\
                   exists q, value (payload e) = VScalar (JVal q) /\ ~ (q == 0)%Q)
    (flat_map (flattenNoiseSensor pd identity_) ss).
Proof.
  induction 1 as [|s ss Hs _ [IHl IHf]]; simpl; [split; [lia | constructor]|].
  destruct (flattenNoiseSensor_ok pd identity_ s Hs) as [Hl Hf].
  split; [rewrite length_app; lia | apply Forall_app; split; assumption].
Qed.

(** X18. Noise readings end to end. A frame the adapter decodes as a
    "Noise" message is normalized to at most three events, one per sensor
    slot with a reading; each is a telemetry event under the key "noise"
    for a sensor address from 16 to 18 and carries a number that is not
    zero: a slot without a reading, or with an address outside that range,
    produces no event, and no event carries an undefined value. *)
Theorem noise_frames_normalized (topic_ : string) (buf : Buffer) (now : string)
    (pd : IM) (cache : Cache) :
  V5008Parser.parse topic_ buf now = Some pd ->
  messageType pd = Some "Noise" ->
  exists evs,
    normalize (Some pd) cache = (Ok evs, cache) /\
    (length evs <= 3)%nat /\
    Forall (fun e => type e = SYS_TELEMETRY /\ key (payload e) = "noise" /\
                     16 <= id_sensorAddr (identity e) <= 18 /\
                     exists q, value (payload e) = VScalar (JVal q) /\ ~ (q == 0)%Q)
      evs.
Proof.
  intros Hparse Hmt.
  destruct (parse_envelope _ _ _ _ Hparse) as [Hdt Hmt'].
  rewrite parse_unfold in Hparse. cbv zeta in Hparse.
  rewrite <- Hmt', Hmt in Hparse. simpl in Hparse.
  unfold V5008Parser.parseNoise in Hparse.
  unfold mbind, exn_bind, JS.bind in Hparse.
  destruct (readUInt8 buf 0) as [a|]; [|discriminate].
  destruct (V5008Parser.readBigUIntBE buf 1 4) as [mid|]; [|discriminate].
  destruct (noise_loop_ok buf 3 5 []) as (ss & Hss & Hlen & Hall); [lia|].
  rewrite Hss in Hparse. simpl app in Hparse.
  destruct (V5008Parser.readBigUIntBE buf (buf_length buf - 4) 4) as [msg|];
    [|discriminate].
  inversion Hparse; subst pd. clear Hparse.
  unfold normalize, _processV5008. simpl.
  destruct (flat_map_noise_ok
              (set_sensors ss
                 (set_modId (num_toString mid)
                    (set_modAddr a
                       (set_messageId (num_toString msg)
                          (V5008Parser.base_result topic_ (toHexUpper buf)
                             (nth_error (JS.split "/" topic_) 1) (Some "Noise") now)))))
              {| bi_deviceId := nth_error (JS.split "/" topic_) 1;
                 bi_deviceType := "V5008" |} ss Hall) as [Hl Hf].
  eexists. split; [reflexivity|]. split; [|exact Hf].
  eapply Nat.le_trans; [exact Hl | exact Hlen].
Qed.

(** X19. Frames of an unknown type are dropped. When the leading byte of
    a frame is none of 0xCC, 0xCB, 0xBB, 0xBA and 0xAA (or the frame is
    empty) and the third part of the topic is none of the six message
    types [parse] routes, [parse] returns [null]: in particular a
    response with header 0xEF that arrives on an "OpeAck" topic is not
    decoded. *)
Theorem parse_unknown_type_is_dropped (topic_ : string) (buf : Buffer) (now : string) :
  (forall h, readUInt8 buf 0 = Ok h -> ~ In h [0xCC; 0xCB; 0xBB; 0xBA; 0xAA]) ->
  ~ In (nth_error (JS.split "/" topic_) 2)
       [Some "HEARTBEAT"; Some "LABEL_STATE"; Some "DOOR_STATE"; Some "OPE_ACK";
        Some "TemHum"; Some "Noise"] ->
  V5008Parser.parse topic_ buf now = None.
Proof.
  intros Hh Hsfx. rewrite parse_unfold. cbv zeta.
  assert (Hmt : V5008Parser.messageType_of
                  (match readUInt8 buf 0 with Ok h => Some h | Throw _ => None end)
                  (nth_error (JS.split "/" topic_) 2)
                = nth_error (JS.split "/" topic_) 2).
  { destruct (readUInt8 buf 0) as [h|]; [|reflexivity].
    specialize (Hh h eq_refl). simpl in Hh. unfold V5008Parser.messageType_of.
    assert (E1 : (h =? 204) = false) by (apply Z.eqb_neq; intros ->; tauto).
    assert (E2 : (h =? 203) = false) by (apply Z.eqb_neq; intros ->; tauto).
    assert (E3 : (h =? 187) = false) by (apply Z.eqb_neq; intros ->; tauto).
    assert (E4 : (h =? 186) = false) by (apply Z.eqb_neq; intros ->; tauto).
    assert (E5 : (h =? 170) = false) by (apply Z.eqb_neq; intros ->; tauto).
    rewrite E1, E2, E3, E4, E5. reflexivity. }
  rewrite Hmt.
  assert (Hno : forall s, In (Some s) [Some "HEARTBEAT"; Some "LABEL_STATE";
                                       Some "DOOR_STATE"; Some "OPE_ACK";
                                       Some "TemHum"; Some "Noise"] ->
                          str_is (nth_error (JS.split "/" topic_) 2) s = false).
  { intros s Hs. destruct (str_is _ s) eqn:E; [|reflexivity].
    apply str_is_true in E. rewrite E in Hsfx. contradiction. }
  rewrite !Hno by (simpl; tauto). reflexivity.
Qed.

(* ===================================================================== *)
(** ** The storage service                                                *)
(* ===================================================================== *)

Lemma typeName_eqb (t t' : EventType) :
  String.eqb (StorageService.typeName t) (StorageService.typeName t')
  = bool_decide (t = t').
Proof. destruct t, t'; reflexivity. Qed.

Lemma addToGroup_keys (item : Event) (groups : list (EventType * list Event))
    (t : EventType) :
  In t (map fst (StorageService.addToGroup item groups))
  <-> t = type item \/ In t (map fst groups).
Proof.
  induction groups as [|[t0 g0] groups IH]; simpl.
  - intuition.
  - rewrite typeName_eqb. case_bool_decide as E; simpl.
    + subst t0. intuition.
    + rewrite IH. intuition.
Qed.

Lemma addToGroup_NoDup (item : Event) (groups : list (EventType * list Event)) :
  List.NoDup (map fst groups) ->
  List.NoDup (map fst (StorageService.addToGroup item groups)).
Proof.
  induction groups as [|[t0 g0] groups IH]; simpl; intros Hnd.
  - repeat constructor. simpl. tauto.
  - inversion Hnd as [|? ? Hnotin Hnd']; subst.
    rewrite typeName_eqb. case_bool_decide as E; simpl.
    + constructor; assumption.
    + constructor; [|apply IH; exact Hnd'].
      rewrite addToGroup_keys. intros [H|H]; [congruence | contradiction].
Qed.

Lemma addToGroup_In (item : Event) (groups : list (EventType * list Event))
    (t : EventType) (g : list Event) :
  List.NoDup (map fst groups) ->
  In (t, g) (StorageService.addToGroup item groups) ->
  (t <> type item /\ In (t, g) groups)
  \/ (t = type item /\ exists g0, g = g0 ++ [item]
      /\ (In (t, g0) groups \/ (g0 = [] /\ ~ In t (map fst groups)))).
Proof.
  induction groups as [|[t0 g0] groups IH]; simpl; intros Hnd Hin.
  - destruct Hin as [Hin|[]]. inversion Hin; subst.
    right. split; [reflexivity|]. exists []. split; [reflexivity|]. right. tauto.
  - inversion Hnd as [|? ? Hnotin Hnd']; subst.
    rewrite typeName_eqb in Hin. case_bool_decide as E; simpl in Hin.
    + subst t0. destruct Hin as [Hin|Hin].
      * inversion Hin; subst. right. split; [reflexivity|]. eauto.
      * destruct (decide (t = type item)) as [->|Hne].
        -- exfalso. apply Hnotin. apply in_map_iff. exists (type item, g). auto.
        -- left. auto.
    + destruct Hin as [Hin|Hin].
      * inversion Hin; subst. left. split; [congruence | auto].
      * destruct (IH Hnd' Hin) as [[Hne Hg]|(-> & g1 & -> & Hg1)].
        -- left. auto.
        -- right. split; [reflexivity|]. exists g1. split; [reflexivity|].
           destruct Hg1 as [Hg1|[-> Hg1]]; [left; auto|].
           right. split; [reflexivity|]. intros [H|H]; [congruence | contradiction].
Qed.

Lemma ofType_snoc (t : EventType) (evs : list Event) (item : Event) :
  ofType t (evs ++ [item])
  = ofType t evs ++ (if bool_decide (type item = t) then [item] else []).
Proof. unfold ofType. rewrite List.filter_app. reflexivity. Qed.

Lemma ofType_none (t : EventType) (evs : list Event) :
  (forall e, In e evs -> type e <> t) -> ofType t evs = [].
Proof.
  unfold ofType. induction evs as [|e evs IH]; simpl; intros H; [reflexivity|].
  rewrite bool_decide_eq_false_2 by (apply H; auto). apply IH. auto.
Qed.

Lemma groupByType_acc (l done : list Event)
    (groups : list (EventType * list Event)) :
  List.NoDup (map fst groups) ->
  (forall t g, In (t, g) groups -> g = ofType t done /\ g <> []) ->
  (forall e, In e done -> In (type e) (map fst groups)) ->
  let groups' := fold_left (fun grouped item => StorageService.addToGroup item grouped)
                   l groups in
  List.NoDup (map fst groups') /\
  (forall t g, In (t, g) groups' -> g = ofType t (done ++ l) /\ g <> []) /\
  (forall e, In e (done ++ l) -> In (type e) (map fst groups')).
Proof.
  revert done groups. induction l as [|item l IH]; intros done groups Hnd Hgr Hcov; simpl.
  - rewrite app_nil_r. auto.
  - replace (done ++ item :: l) with ((done ++ [item]) ++ l)
      by (rewrite <- app_assoc; reflexivity).
    apply IH.
    + apply addToGroup_NoDup. exact Hnd.
    + intros t g Hin. rewrite ofType_snoc.
      destruct (addToGroup_In item groups t g Hnd Hin)
        as [[Hne Hg]|(-> & g0 & -> & Hg0)].
      * destruct (Hgr t g Hg) as [-> Hnil].
        rewrite bool_decide_eq_false_2 by congruence. rewrite app_nil_r. auto.
      * rewrite bool_decide_eq_true_2 by reflexivity.
        split; [|destruct g0; discriminate].
        destruct Hg0 as [Hg0|[-> Hg0]].
        -- destruct (Hgr _ _ Hg0) as [-> _]. reflexivity.
        -- rewrite ofType_none; [reflexivity|].
           intros e He Ht. apply Hg0. rewrite <- Ht. apply Hcov. exact He.
    + intros e He. rewrite addToGroup_keys. apply in_app_iff in He.
      destruct He as [He|[<-|[]]]; [right; apply Hcov; exact He | left; reflexivity].
Qed.

Lemma groupByType_spec (evs : list Event) :
  let groups := StorageService._groupByType evs in
  List.NoDup (map fst groups) /\
  (forall t g, In (t, g) groups -> g = ofType t evs /\ g <> []) /\
  (forall e, In e evs -> In (type e) (map fst groups)).
Proof.
  apply (groupByType_acc evs [] []).
  - constructor.
  - intros t g [].
  - intros e [].
Qed.

(** X20. Grouping by type is a partition. [_groupByType] makes one group
    per type that occurs, none of them empty and no type twice; the group
    of a type holds the events of that type in the order of the input, and
    every event is in the group of its type. *)
Theorem groupByType_partition (evs : list Event) :
  List.NoDup (map fst (StorageService._groupByType evs)) /\
  (forall t g, In (t, g) (StorageService._groupByType evs) ->
               g = ofType t evs /\ g <> []) /\
  (forall e, In e evs ->
             In (type e, ofType (type e) evs) (StorageService._groupByType evs)).
Proof.
  destruct (groupByType_spec evs) as (Hnd & Hgr & Hcov).
  split; [exact Hnd|]. split; [exact Hgr|].
  intros e He. specialize (Hcov e He). apply in_map_iff in Hcov.
  destruct Hcov as ([t g] & Ht & Hin). simpl in Ht. subst t.
  destruct (Hgr _ _ Hin) as [-> _]. exact Hin.
Qed.

Lemma groupedCount_addToGroup (p : EventType -> bool) (item : Event)
    (groups : list (EventType * list Event)) :
  groupedCount p (StorageService.addToGroup item groups)
  = (groupedCount p groups + if p (type item) then 1 else 0)%nat.
Proof.
  unfold groupedCount. induction groups as [|[t0 g0] groups IH]; simpl.
  - destruct (p (type item)); reflexivity.
  - rewrite typeName_eqb. case_bool_decide as E; simpl.
    + subst t0. rewrite length_app. simpl. destruct (p (type item)); lia.
    + rewrite IH. lia.
Qed.

Lemma groupedCount_groupByType_acc (p : EventType -> bool) (l : list Event)
    (groups : list (EventType * list Event)) :
  groupedCount p (fold_left (fun grouped item => StorageService.addToGroup item grouped)
                    l groups)
  = (groupedCount p groups + length (List.filter (fun e => p (type e)) l))%nat.
Proof.
  revert groups. induction l as [|item l IH]; intros groups; simpl; [lia|].
  rewrite IH, groupedCount_addToGroup. destruct (p (type item)); simpl; lia.
Qed.

Lemma rfidRows_ok (g : list Event) :
  Forall (fun e => type e = SYS_RFID_EVENT /\ well_shaped e) g ->
  exists rows, StorageService.rfidRows g = Ok rows /\ length rows = length g.
Proof.
  induction 1 as [|e g [Ht Hw] _ (rows & Hrows & Hlen)]; simpl.
  - exists []. split; reflexivity.
  - unfold well_shaped in Hw. rewrite Ht in Hw.
    destruct Hw as (_ & act & tag & pos & alarm & Hv).
    unfold StorageService.rfidRow. rewrite Hv. simpl. rewrite Hrows. simpl.
    eexists. split; [reflexivity|]. simpl. rewrite Hlen. reflexivity.
Qed.

Lemma rowsWritten_app (a b : list StorageService.DbOp) :
  rowsWritten (a ++ b) = (rowsWritten a + rowsWritten b)%nat.
Proof. unfold rowsWritten. rewrite map_app, list_sum_app. reflexivity. Qed.

Lemma rowsWritten_upserts (t : EventType) (g : list Event) :
  rowsWritten (map (fun item => StorageService.UpsertState (StorageService.stateRow t item)) g)
  = length g.
Proof.
  unfold rowsWritten. induction g as [|e g IH]; simpl; [reflexivity|].
  simpl in IH. rewrite IH. reflexivity.
Qed.

Lemma saveGroups_ok (groups : list (EventType * list Event)) :
  (forall t g, In (t, g) groups ->
               g <> [] /\ Forall (fun e => type e = t /\ well_shaped e) g) ->
  exists ops,
    StorageService.saveGroups groups = (ops, None) /\
    (rowsWritten ops + groupedCount isSync groups
     = groupedCount (fun _ => true) groups)%nat.
Proof.
  induction groups as [|[t g] groups IH]; intros Hall.
  - exists []. split; reflexivity.
  - destruct IH as (more & Hmore & Hcount); [intros; apply Hall; right; assumption|].
    destruct (Hall t g (or_introl eq_refl)) as [Hne Hg].
    assert (Hgroup : exists ops, StorageService.saveGroup t g = Ok ops
                     /\ (rowsWritten ops + (if isSync t then length g else 0)
                         = length g)%nat).
    { destruct t; simpl; unfold isSync; simpl.
      - destruct g as [|e g]; [congruence|]. eexists. split; [reflexivity|].
        unfold rowsWritten. simpl. rewrite length_map. lia.
      - destruct (rfidRows_ok g Hg) as (rows & Hrows & Hlen).
        destruct g as [|e g]; [congruence|].
        unfold mbind, exn_bind, JS.bind. rewrite Hrows.
        eexists. split; [reflexivity|]. unfold rowsWritten. simpl. simpl in Hlen. lia.
      - eexists. split; [reflexivity|]. rewrite rowsWritten_upserts. lia.
      - eexists. split; [reflexivity|]. rewrite rowsWritten_upserts. lia.
      - eexists. split; [reflexivity|]. rewrite rowsWritten_upserts. lia.
      - eexists. split; [reflexivity|]. rewrite rowsWritten_upserts. lia.
      - eexists. split; [reflexivity|]. unfold rowsWritten. simpl. lia. }
    destruct Hgroup as (ops & Hops & Hn).
    simpl. rewrite Hops, Hmore. eexists. split; [reflexivity|].
    rewrite rowsWritten_app. unfold groupedCount in *. simpl. lia.
Qed.

Lemma saveBatch_ok (evs : list Event) :
  Forall well_shaped evs ->
  exists ops,
    StorageService.saveBatch true evs = (ops, None) /\
    (rowsWritten ops + countType SYS_REQUIRE_SYNC evs = length evs)%nat.
Proof.
  intros Hws. unfold StorageService.saveBatch. simpl.
  destruct (groupByType_spec evs) as (Hnd & Hgr & Hcov). cbv zeta in *.
  destruct (saveGroups_ok (StorageService._groupByType evs)) as (ops & Hops & Hn).
  { intros t g Hin. destruct (Hgr t g Hin) as [-> Hne]. split; [exact Hne|].
    apply List.Forall_forall. intros e He. unfold ofType in He.
    apply List.filter_In in He. destruct He as [He Ht].
    apply bool_decide_eq_true in Ht. split; [exact Ht|].
    rewrite List.Forall_forall in Hws. apply Hws. exact He. }
  exists ops. split; [exact Hops|].
  unfold StorageService._groupByType in Hn.
  rewrite !groupedCount_groupByType_acc in Hn. unfold groupedCount in Hn. simpl in Hn.
  unfold countType, ofType.
  assert (Hall : length (List.filter (fun e : Event => true) evs) = length evs).
  { clear. induction evs as [|e evs IH]; simpl; [reflexivity | rewrite IH; reflexivity]. }
  unfold isSync in Hn. lia.
Qed.

(** X21. What a batch writes. A started service handed well-shaped events
    saves them without an error, and writes one row or upsert for every
    event except the requests for a resync, which are never persisted. A
    service that is not started writes nothing. *)
Theorem saveBatch_row_count (evs : list Event) :
  Forall well_shaped evs ->
  StorageService.saveBatch false evs = ([], None) /\
  exists ops,
    StorageService.saveBatch true evs = (ops, None) /\
    (rowsWritten ops + countType SYS_REQUIRE_SYNC evs = length evs)%nat.
Proof.
  intros Hws. split; [reflexivity|]. apply saveBatch_ok. exact Hws.
Qed.

(* ===================================================================== *)
(** ** The contract between the normalizer and the storage service        *)
(* ===================================================================== *)

Lemma diffEvents_shaped (identity_ : BaseIdentity) (a : option Z) (ts_ : option string)
    (act : string) (from other : JSMap.t TagData) :
  Forall well_shaped (diffEvents identity_ a ts_ act from other).
Proof.
  unfold diffEvents, JSMap.entries.
  induction from as [|[k v] from IH]; simpl; [constructor|].
  destruct (JSMap.has k other); simpl; [exact IH|].
  constructor; [|exact IH]. unfold well_shaped. simpl. split; [reflexivity|]. eauto.
Qed.

Lemma passThrough_shaped (identity_ : BaseIdentity) (a : option Z) (ts_ : option string)
    (its : list TagItem) :
  Forall well_shaped (map (passThrough identity_ a ts_) its).
Proof.
  induction its as [|i its IH]; simpl; constructor; [|exact IH].
  unfold well_shaped. simpl. split; [reflexivity|]. eauto.
Qed.

Lemma snapshotEvent_shaped (identity_ : BaseIdentity) (a : option Z) (ts_ : option string)
    (mid : option string) (m : JSMap.t TagData) :
  well_shaped (snapshotEvent identity_ a ts_ mid m).
Proof. unfold well_shaped. simpl. split; [reflexivity|]. eauto. Qed.

Lemma requireSyncEvent_shaped (identity_ : BaseIdentity) (a : option Z)
    (ts_ : option string) :
  well_shaped (requireSyncEvent identity_ a ts_).
Proof. unfold well_shaped. simpl. split; reflexivity. Qed.

Lemma rfidModules_shaped (identity_ : BaseIdentity) (ts_ : option string)
    (blocks : list ModuleBlock) (results evs : list Event) (cache cache' : Cache) :
  Forall well_shaped results ->
  rfidModules identity_ ts_ blocks results cache = (Ok evs, cache') ->
  Forall well_shaped evs.
Proof.
  revert results cache. induction blocks as [|m blocks IH]; intros results cache Hres; simpl.
  - intros H. inversion H; subst. exact Hres.
  - destruct (StateCache.get cache (bi_deviceId identity_) (b_modAddr m));
      destruct (b_items m) as [its|]; try discriminate; apply IH;
      (apply Forall_app; split; [exact Hres|]);
      (apply Forall_app; split; [apply passThrough_shaped|]);
      constructor; try constructor;
      first [apply snapshotEvent_shaped | apply requireSyncEvent_shaped].
Qed.

Lemma flattenTelemetry_shaped (pd : IM) (identity_ : BaseIdentity) :
  Forall well_shaped (_flattenTelemetry pd identity_ "temperature" "humidity").
Proof.
  unfold _flattenTelemetry. destruct (sensors pd) as [ss|]; [|constructor].
  induction ss as [|s ss IH]; simpl; [constructor|].
  apply Forall_app. split; [|exact IH]. unfold flattenSensor.
  destruct (is_null (sensor_get s "temperature") && is_null (sensor_get s "humidity"));
    [constructor|].
  destruct (is_null (sensor_get s "temperature")),
           (is_null (sensor_get s "humidity")); simpl;
    repeat (constructor; [unfold well_shaped; simpl; split; [tauto | eauto]|]);
    constructor.
Qed.

Lemma flattenNoiseTelemetry_shaped (pd : IM) (identity_ : BaseIdentity) :
  Forall well_shaped (_flattenNoiseTelemetry pd identity_).
Proof.
  unfold _flattenNoiseTelemetry. destruct (sensors pd) as [ss|]; [|constructor].
  induction ss as [|s ss IH]; simpl; [constructor|].
  apply Forall_app. split; [|exact IH]. unfold flattenNoiseSensor.
  destruct (is_null (sensor_get s "noise")); [constructor|].
  constructor; [|constructor]. unfold well_shaped. simpl. split; [tauto | eauto].
Qed.

Lemma processHeartbeat_shaped (pd : IM) (identity_ : BaseIdentity) :
  Forall well_shaped (_processHeartbeat pd identity_).
Proof.
  unfold _processHeartbeat. destruct (meta pd) as [m|]; [|constructor].
  destruct (voltage m), (current m), (truthy_bool (mainPower m)); simpl;
    repeat (constructor; [unfold well_shaped; simpl; split; [tauto | eauto]|]);
    constructor.
Qed.

Lemma createDoorStateObject_shaped (pd : IM) (identity_ : BaseIdentity) :
  Forall well_shaped (_createDoorStateObject pd identity_).
Proof.
  unfold _createDoorStateObject. constructor; [|constructor].
  unfold well_shaped. simpl. split; [tauto|].
  destruct (str_is (doorState pd) "01"); auto.
Qed.

Lemma createResponseObject_shaped (pd : IM) (identity_ : BaseIdentity) :
  Forall well_shaped (_createResponseObject pd identity_).
Proof.
  unfold _createResponseObject. constructor; [|constructor].
  unfold well_shaped. simpl. split; [tauto|].
  destruct (str_is (result pd) "Success"); auto.
Qed.

Lemma splitV6800Init_shaped (pd : IM) (identity_ : BaseIdentity) :
  Forall well_shaped (_splitV6800Init pd identity_).
Proof.
  unfold _splitV6800Init. apply Forall_app. split.
  - destruct (device pd); [|constructor]. constructor; [|constructor].
    unfold well_shaped. simpl. tauto.
  - destruct (modules pd) as [ms|]; [|constructor].
    induction ms as [|m ms IH]; simpl; constructor; [|exact IH].
    unfold well_shaped. simpl. tauto.
Qed.

Lemma normalize_shaped (parsedData : option IM) (cache cache' : Cache)
    (evs : list Event) :
  normalize parsedData cache = (Ok evs, cache') -> Forall well_shaped evs.
Proof.
  unfold normalize. destruct parsedData as [pd|];
    [|intros H; inversion H; constructor].
  destruct (negb (truthy_str (deviceType pd))); [intros H; inversion H; constructor|].
  destruct (str_is (deviceType pd) "V5008").
  - unfold _processV5008.
    destruct (str_is (messageType pd) "OpeAck").
    { destruct (truthy_str (result pd));
        [intros H; inversion H; apply createResponseObject_shaped|].
      destruct (bool_decide (is_Some (doorState pd)));
        intros H; inversion H; [apply createDoorStateObject_shaped | constructor]. }
    destruct (str_is (messageType pd) "LabelState").
    { unfold _processV5008Rfid. destruct (items pd) as [l|]; [|discriminate].
      intros H. inversion H; subst.
      apply Forall_app. split; [apply diffEvents_shaped|].
      apply Forall_app. split; [apply diffEvents_shaped|].
      constructor; [apply snapshotEvent_shaped | constructor]. }
    destruct (str_is (messageType pd) "TemHum");
      [intros H; inversion H; apply flattenTelemetry_shaped|].
    destruct (str_is (messageType pd) "Noise");
      [intros H; inversion H; apply flattenNoiseTelemetry_shaped|].
    destruct (str_is (messageType pd) "HeartBeat" || str_is (messageType pd) "HEARTBEAT");
      intros H; inversion H; [apply processHeartbeat_shaped | constructor].
  - destruct (str_is (deviceType pd) "V6800"); [|intros H; inversion H; constructor].
    unfold _processV6800.
    destruct (str_is (messageType pd) "LABEL_STATE").
    { unfold _processV6800Rfid. destruct (data pd) as [blocks|]; [|discriminate].
      apply rfidModules_shaped. constructor. }
    destruct (str_is (messageType pd) "TEM_HUM");
      [intros H; inversion H; apply flattenTelemetry_shaped|].
    destruct (str_is (messageType pd) "DOOR_STATE");
      [intros H; inversion H; apply createDoorStateObject_shaped|].
    destruct (str_is (messageType pd) "INIT");
      [intros H; inversion H; apply splitV6800Init_shaped|].
    destruct (str_is (messageType pd) "OPE_ACK");
      [intros H; inversion H; apply createResponseObject_shaped|].
    destruct (str_is (messageType pd) "HEARTBEAT");
      intros H; inversion H; [apply processHeartbeat_shaped | constructor].
Qed.

(** X22. The type of an event fixes its payload. Whatever message
    [normalize] resolves, every event of the result carries the payload
    key that goes with its type and a value of the matching shape: an
    RFID event an RFID value under "rfid_event", a snapshot a tag list
    under "rfid_snapshot", a request for a resync the reason "cache_miss",
    a telemetry event a scalar under one of five keys, a state change a
    flag 0 or 1, a lifecycle event "online" or "backup_power". *)
Theorem normalize_well_shaped (parsedData : option IM) (cache cache' : Cache)
    (evs : list Event) :
  normalize parsedData cache = (Ok evs, cache') -> Forall well_shaped evs.
Proof. apply normalize_shaped. Qed.

Lemma issue_spec (accepts : StorageService.DbOp -> bool)
    (ops : list StorageService.DbOp) :
  Forall (fun op => accepts op = true) (fst (StorageService.issue accepts ops))
  /\ (forall e, snd (StorageService.issue accepts ops) = Some e ->
                exists op, e = StorageService.Rejected op /\ accepts op = false)
  /\ ((forall op, accepts op = true) ->
      StorageService.issue accepts ops = (ops, None)).
Proof.
  induction ops as [|op ops (IH1 & IH2 & IH3)]; simpl.
  - split; [constructor|]. split; [discriminate | reflexivity].
  - destruct (accepts op) eqn:Eop.
    + destruct (StorageService.issue accepts ops) as [done err]. simpl in *.
      split; [constructor; assumption|]. split; [exact IH2|].
      intros Hall. specialize (IH3 Hall). inversion IH3; subst. reflexivity.
    + simpl. split; [constructor|]. split.
      * intros e He. inversion He; subst. eauto.
      * intros Hall. rewrite Hall in Eop. discriminate.
Qed.

(** The rows of a group of well-shaped events are prepared without an
    exception. *)
Lemma saveGroup_prepared (t : EventType) (g : list Event) :
  Forall (fun e => type e = t /\ well_shaped e) g ->
  exists ops, StorageService.saveGroup t g = Ok ops.
Proof.
  intros Hg. destruct t; simpl; try (eexists; reflexivity).
  - destruct g; eexists; reflexivity.
  - destruct (rfidRows_ok g Hg) as (rows & Hrows & _).
    destruct g as [|e g]; [eexists; reflexivity|].
    unfold mbind, exn_bind, JS.bind. rewrite Hrows. eexists. reflexivity.
Qed.

Lemma saveGroupsOn_spec (accepts : StorageService.DbOp -> bool)
    (groups : list (EventType * list Event)) :
  (forall t g, In (t, g) groups -> Forall (fun e => type e = t /\ well_shaped e) g) ->
  Forall (fun op => accepts op = true) (fst (StorageService.saveGroupsOn accepts groups))
  /\ (forall e, snd (StorageService.saveGroupsOn accepts groups) = Some e ->
                exists op, e = StorageService.Rejected op /\ accepts op = false)
  /\ ((forall op, accepts op = true) ->
      StorageService.saveGroupsOn accepts groups
      = (fst (StorageService.saveGroups groups), None)
      /\ snd (StorageService.saveGroups groups) = None).
Proof.
  induction groups as [|[t g] groups IH]; intros Hall; simpl.
  - split; [constructor|]. split; [discriminate | auto].
  - destruct IH as (IH1 & IH2 & IH3); [intros; apply Hall; right; assumption|].
    destruct (saveGroup_prepared t g (Hall t g (or_introl eq_refl))) as (ops & Hops).
    unfold StorageService.saveGroupOn. rewrite Hops.
    destruct (issue_spec accepts ops) as (I1 & I2 & I3).
    destruct (StorageService.issue accepts ops) as [done [e|]] eqn:Ei; simpl in *.
    + split; [exact I1|]. split; [intros e' He'; apply I2; exact He'|].
      intros Hacc. specialize (I3 Hacc). discriminate.
    + destruct (StorageService.saveGroupsOn accepts groups) as [more err]. simpl in *.
      split; [apply Forall_app; split; assumption|]. split; [exact IH2|].
      intros Hacc. specialize (I3 Hacc). inversion I3; subst.
      destruct (IH3 Hacc) as [E1 E2]. inversion E1; subst.
      destruct (StorageService.saveGroups groups) as [more' err']. simpl in *.
      subst. split; reflexivity.
Qed.

(** X23. What the normalizer resolves, the storage service can save. On
    a result of [normalize] the storage service raises nothing of its
    own: whatever the database accepts or rejects, the rows of every group
    are prepared without an exception, so the only error [saveBatch] can
    rethrow is the rejection of an operation by the database, and the
    operations done before it were all accepted. On a database that
    accepts every operation the batch is saved whole, with one row or
    upsert per event other than the requests for a resync. *)
Theorem normalized_data_is_saved (accepts : StorageService.DbOp -> bool)
    (parsedData : option IM) (cache cache' : Cache) (evs : list Event) :
  normalize parsedData cache = (Ok evs, cache') ->
  Forall (fun op => accepts op = true)
    (fst (StorageService.saveBatchOn accepts true evs)) /\
  (forall e, snd (StorageService.saveBatchOn accepts true evs) = Some e ->
             exists op, e = StorageService.Rejected op /\ accepts op = false) /\
  ((forall op, accepts op = true) ->
   exists ops,
     StorageService.saveBatchOn accepts true evs = (ops, None) /\
     (rowsWritten ops + countType SYS_REQUIRE_SYNC evs = length evs)%nat /\
     (evs <> [] -> StorageService.handleNormalizedDataOn accepts true evs = ops)).
Proof.
  intros H. pose proof (normalize_shaped _ _ _ _ H) as Hws.
  unfold StorageService.saveBatchOn. simpl.
  destruct (groupByType_spec evs) as (_ & Hgr & _). cbv zeta in Hgr.
  destruct (saveGroupsOn_spec accepts (StorageService._groupByType evs))
    as (S1 & S2 & S3).
  { intros t g Hin. destruct (Hgr t g Hin) as [-> _].
    apply List.Forall_forall. intros e He. unfold ofType in He.
    apply List.filter_In in He. destruct He as [He Ht].
    apply bool_decide_eq_true in Ht. split; [exact Ht|].
    rewrite List.Forall_forall in Hws. apply Hws. exact He. }
  split; [exact S1|]. split; [exact S2|].
  intros Hacc. destruct (S3 Hacc) as [E1 E2].
  destruct (saveBatch_ok evs Hws) as (ops & Hops & Hn).
  unfold StorageService.saveBatch in Hops. simpl in Hops.
  rewrite Hops in E1. simpl in E1.
  exists ops. split; [exact E1|]. split; [exact Hn|].
  intros Hne. unfold StorageService.handleNormalizedDataOn, StorageService.saveBatchOn.
  destruct evs; [congruence|]. simpl. rewrite E1. reflexivity.
Qed.

(* ===================================================================== *)
(** ** The application: a message from topic to table                     *)
(* ===================================================================== *)

Lemma saveGroups_telemetry_lifecycle (groups : list (EventType * list Event)) :
  (forall t g, In (t, g) groups -> t = SYS_TELEMETRY \/ t = SYS_LIFECYCLE) ->
  Forall telemetryOrLifecycleOp (fst (StorageService.saveGroups groups)).
Proof.
  induction groups as [|[t g] groups IH]; intros Hall; simpl; [constructor|].
  specialize (IH (fun t' g' H => Hall t' g' (or_intror H))).
  destruct (Hall t g (or_introl eq_refl)) as [-> | ->]; simpl.
  - destruct (StorageService.saveGroups groups) as [more err]. simpl in *.
    destruct g; simpl; [exact IH|]. constructor; [exact I | exact IH].
  - destruct (StorageService.saveGroups groups) as [more err]. simpl in *.
    apply Forall_app. split; [|exact IH].
    clear. induction g as [|e g IHg]; simpl; constructor; [reflexivity | exact IHg].
Qed.

Lemma handleNormalizedData_telemetry_lifecycle (started : bool) (evs : list Event) :
  Forall (fun e => type e = SYS_TELEMETRY \/ type e = SYS_LIFECYCLE) evs ->
  Forall telemetryOrLifecycleOp (StorageService.handleNormalizedData started evs).
Proof.
  intros Hall. unfold StorageService.handleNormalizedData.
  destruct evs as [|e0 evs0] eqn:Eevs; [constructor|]. rewrite <- Eevs in *.
  unfold StorageService.saveBatch. destruct started; simpl; [|constructor].
  apply saveGroups_telemetry_lifecycle. intros t g Hin.
  destruct (groupByType_spec evs) as (_ & Hgr & _). cbv zeta in Hgr.
  destruct (Hgr t g Hin) as [-> Hne].
  destruct (ofType t evs) as [|e l] eqn:E; [congruence|].
  assert (He : In e (ofType t evs)) by (rewrite E; left; reflexivity).
  unfold ofType in He. apply List.filter_In in He. destruct He as [He Ht].
  apply bool_decide_eq_true in Ht. subst t.
  rewrite List.Forall_forall in Hall. apply Hall. exact He.
Qed.

(** X24. A V5008 topic from the broker to the tables. Whatever frame
    arrives on a topic that contains "V5008", and whichever parser the
    other topics go to, the handler leaves the shadow store as it was and
    the storage service writes telemetry rows and lifecycle states only:
    no RFID row and no snapshot comes from such a topic. *)
Theorem v5008_topics_write_no_rfid (parseV6800 : string -> Buffer -> option IM)
    (started : bool) (topic_ : string) (message_ : Buffer) (now : string)
    (cache : Cache) :
  JSText.includes "V5008" topic_ = true ->
  snd (App.pipeline parseV6800 started topic_ message_ now cache) = cache /\
  Forall telemetryOrLifecycleOp
    (fst (App.pipeline parseV6800 started topic_ message_ now cache)).
Proof.
  intros Hinc. unfold App.pipeline, App.onMqttMessage. rewrite Hinc.
  destruct (V5008Parser.parse topic_ message_ now) as [pd|] eqn:Hparse.
  - destruct (adapter_normalize topic_ message_ now pd cache Hparse) as (evs & Hn & Hall).
    rewrite Hn. simpl. split; [reflexivity|].
    apply handleNormalizedData_telemetry_lifecycle. exact Hall.
  - simpl. split; [reflexivity | constructor].
Qed.

(* ===================================================================== *)
(** ** The parser registry                                                *)
(* ===================================================================== *)

Section RegistryFacts.
Context {ParserClass : Type}.
Variable canHandle : ParserClass -> option (string -> bool).

Lemma registerAll_acc (classes acc parsers : list ParserClass) :
  fold_left
    (fun acc p =>
       match acc with
       | Some parsers => ParserRegistry.register ParserClass canHandle parsers p
       | None => None
       end)
    classes (Some acc) = Some parsers ->
  parsers = acc ++ classes /\ Forall (fun p => is_Some (canHandle p)) classes.
Proof.
  revert acc. induction classes as [|p classes IH]; intros acc; simpl.
  - intros H. inversion H; subst. rewrite app_nil_r. split; [reflexivity | constructor].
  - unfold ParserRegistry.register at 2. destruct (canHandle p) as [f|] eqn:Ep.
    + intros H. destruct (IH _ H) as [-> Hall]. rewrite <- app_assoc.
      split; [reflexivity|]. constructor; [rewrite Ep; eauto | exact Hall].
    + intros H. exfalso. clear - H.
      induction classes as [|q classes IHc]; simpl in H; [discriminate | auto].
Qed.

Lemma firstMatch_spec (parsers : list ParserClass) (t : string) :
  Forall (fun p => is_Some (canHandle p)) parsers ->
  (exists before p after accepts,
      parsers = before ++ p :: after /\
      canHandle p = Some accepts /\ accepts t = true /\
      Forall (declines canHandle t) before /\
      ParserRegistry.firstMatch ParserClass canHandle parsers t = Ok (Some p))
  \/ (Forall (declines canHandle t) parsers /\
      ParserRegistry.firstMatch ParserClass canHandle parsers t = Ok None).
Proof.
  induction 1 as [|p parsers [f Hf] _ IH]; simpl.
  - right. split; [constructor | reflexivity].
  - rewrite Hf. destruct (f t) eqn:Et.
    + left. exists [], p, parsers, f. repeat split; [exact Hf | exact Et | constructor].
    + assert (Hp : declines canHandle t p) by (exists f; auto).
      destruct IH as [(before & q & after & g & -> & Hg & Hgt & Hbefore & Hm)|[Hall Hm]].
      * left. exists (p :: before), q, after, g.
        repeat split; try assumption. constructor; assumption.
      * right. split; [constructor; assumption | exact Hm].
Qed.

Lemma firstMatch_app (parsers more : list ParserClass) (t : string) (p : ParserClass) :
  ParserRegistry.firstMatch ParserClass canHandle parsers t = Ok (Some p) ->
  ParserRegistry.firstMatch ParserClass canHandle (parsers ++ more) t = Ok (Some p).
Proof.
  induction parsers as [|q parsers IH]; simpl; [discriminate|].
  destruct (canHandle q) as [f|]; [|discriminate].
  destruct (f t); [auto | exact IH].
Qed.

(** X25. The first registered parser that accepts a topic gets it. In a
    registry filled by [register], [getParser] never raises: for a topic
    that is a non-empty string it returns the first class, in the order of
    registration, whose [canHandle] accepts the topic, and [null] when
    every class declines; for any other topic it returns [null]. A class
    registered later never takes a topic over from an earlier one. *)
Theorem registry_first_match (classes parsers : list ParserClass) (t : string) :
  registerAll canHandle classes = Some parsers ->
  parsers = classes /\
  ParserRegistry.getParserCount ParserClass parsers = length classes /\
  ParserRegistry.getParser ParserClass canHandle parsers None = Ok None /\
  ParserRegistry.getParser ParserClass canHandle parsers (Some "") = Ok None /\
  (t <> "" ->
   (exists before p after accepts,
       parsers = before ++ p :: after /\
       canHandle p = Some accepts /\ accepts t = true /\
       Forall (declines canHandle t) before /\
       ParserRegistry.getParser ParserClass canHandle parsers (Some t) = Ok (Some p))
   \/ (Forall (declines canHandle t) parsers /\
       ParserRegistry.getParser ParserClass canHandle parsers (Some t) = Ok None)) /\
  (forall p q parsers',
      ParserRegistry.getParser ParserClass canHandle parsers (Some t) = Ok (Some p) ->
      ParserRegistry.register ParserClass canHandle parsers q = Some parsers' ->
      ParserRegistry.getParser ParserClass canHandle parsers' (Some t) = Ok (Some p)).
Proof.
  intros Hreg. unfold registerAll in Hreg.
  apply registerAll_acc in Hreg. destruct Hreg as [-> Hall]. simpl app.
  split; [reflexivity|]. split; [reflexivity|]. split; [reflexivity|].
  split; [reflexivity|]. split.
  - intros Hne. unfold ParserRegistry.getParser.
    apply String.eqb_neq in Hne. rewrite Hne. apply firstMatch_spec. exact Hall.
  - intros p q parsers' Hget Hq. unfold ParserRegistry.getParser in *.
    destruct (String.eqb t ""); [discriminate|].
    unfold ParserRegistry.register in Hq. destruct (canHandle q); [|discriminate].
    inversion Hq; subst. apply firstMatch_app. exact Hget.
Qed.

End RegistryFacts.

(* ===================================================================== *)
(** ** Bounds of the binary reads                                         *)
(* ===================================================================== *)

(** X26. A four-byte read at the edges. [readBigUIntBE] returns 0, and
    does not raise, whenever the four bytes would end beyond the buffer,
    a negative offset included; it raises a RangeError exactly when the
    offset is negative and the end is inside; otherwise it returns a
    value in the signed 32-bit range. *)
Theorem readBigUIntBE_edges (buf : Buffer) (off : Z) :
  (buf_length buf < off + 4 -> V5008Parser.readBigUIntBE buf off 4 = Ok 0) /\
  (off < 0 -> off + 4 <= buf_length buf ->
   V5008Parser.readBigUIntBE buf off 4 = Throw RangeError) /\
  (0 <= off -> off + 4 <= buf_length buf ->
   exists v, V5008Parser.readBigUIntBE buf off 4 = Ok v /\ - 2 ^ 31 <= v < 2 ^ 31).
Proof.
  split; [|split].
  - intros H. unfold V5008Parser.readBigUIntBE.
    assert (E : (off + Z.of_nat 4 >? buf_length buf) = true).
    { rewrite Z.gtb_ltb. apply Z.ltb_lt. simpl Z.of_nat. lia. }
    rewrite E. reflexivity.
  - intros Hneg Hend. unfold V5008Parser.readBigUIntBE.
    assert (E : (off + Z.of_nat 4 >? buf_length buf) = false).
    { rewrite Z.gtb_ltb. apply Z.ltb_ge. simpl Z.of_nat. lia. }
    rewrite E. simpl. rewrite Z.add_0_r.
    rewrite (readUInt8_throws buf off) by lia. reflexivity.
  - intros Hoff _. apply readBigUIntBE_ok. exact Hoff.
Qed.

Lemma label_loop_ok (buf : Buffer) (n : nat) (off : Z) (acc : list TagItem) :
  0 <= off ->
  exists new,
    V5008Parser.label_loop buf n off acc = Ok (acc ++ new) /\
    Z.of_nat (length new)
    = Z.min (Z.of_nat n) (Z.max 0 ((buf_length buf - 4 - off) / 6)) /\
    Forall (fun i => action i = JUndef /\ 0 <= uPos i < 256) new.
Proof.
  revert off acc. induction n as [|n IH]; intros off acc Hoff.
  - exists []. simpl. rewrite app_nil_r. repeat split; [lia | constructor].
  - pose proof (Z.div_mod (buf_length buf - 4 - off) 6 ltac:(lia)) as Hdm.
    pose proof (Z.mod_pos_bound (buf_length buf - 4 - off) 6 ltac:(lia)) as Hmb.
    cbn [V5008Parser.label_loop].
    destruct (off + 6 >? buf_length buf - 4) eqn:Eg.
    + exists []. rewrite app_nil_r. split; [reflexivity|]. split; [|constructor].
      apply Z.gtb_lt in Eg. simpl length. lia.
    + rewrite Z.gtb_ltb in Eg. apply Z.ltb_ge in Eg.
      destruct (readUInt8_ok buf off) as (u & Hu & Hur); [lia|].
      destruct (readUInt8_ok buf (off + 1)) as (al & Hal & _); [lia|].
      unfold mbind, exn_bind, JS.bind. rewrite Hu, Hal.
      destruct (IH (off + 6)
                  (acc ++ [{| uPos := u; alarmStatus := al;
                              tagId := JVal (toHexUpper (subarray buf (off + 2) (off + 6)));
                              action := JUndef |}]))
        as (new & Hnew & Hlen & Hall); [lia|].
      rewrite Hnew, <- app_assoc. eexists. split; [reflexivity|].
      split; [|constructor; [split; [reflexivity | exact Hur] | exact Hall]].
      pose proof (Z.div_mod (buf_length buf - 4 - (off + 6)) 6 ltac:(lia)) as Hdm'.
      pose proof (Z.mod_pos_bound (buf_length buf - 4 - (off + 6)) 6 ltac:(lia)) as Hmb'.
      simpl length. rewrite Nat2Z.inj_succ, Hlen. lia.
Qed.

(** X27. Decoding a tag list. [parseLabelState] decodes a buffer exactly
    when it has its eight bytes of fixed fields. The tag list of the
    result then has as many records as the count byte announces, or as
    many six-byte records as fit between the fixed fields and the four
    bytes of the message id, whichever is less; no record carries an
    action. *)
Theorem parseLabelState_decoding (buf : Buffer) (r : IM) :
  ((exists pd, V5008Parser.parseLabelState buf r = Ok (Some pd))
   <-> 8 <= buf_length buf) /\
  forall pd, V5008Parser.parseLabelState buf r = Ok (Some pd) ->
    exists n its,
      onlineCount pd = Some n /\ readUInt8 buf 7 = Ok n /\
      items pd = Some its /\
      Z.of_nat (length its) = Z.min n (Z.max 0 ((buf_length buf - 12) / 6)) /\
      Forall (fun i => action i = JUndef /\ 0 <= uPos i < 256) its.
Proof.
  destruct (Z_lt_le_dec (buf_length buf) 8) as [Hshort|Hlong].
  - assert (Hfail : forall pd, V5008Parser.parseLabelState buf r <> Ok (Some pd)).
    { intros pd H. unfold V5008Parser.parseLabelState in H.
      unfold mbind, exn_bind, JS.bind in H.
      destruct (readUInt8 buf 0); [|discriminate].
      destruct (V5008Parser.readBigUIntBE buf 1 4); [|discriminate].
      destruct (readUInt8 buf 5); [|discriminate].
      destruct (readUInt8 buf 6); [|discriminate].
      rewrite (readUInt8_throws buf 7) in H by lia. discriminate. }
    split.
    + split; [intros [pd H]; exfalso; exact (Hfail pd H) | lia].
    + intros pd H. exfalso. exact (Hfail pd H).
  - destruct (readUInt8_ok buf 0) as (a & Ha & _); [lia|].
    destruct (readBigUIntBE_ok buf 1) as (mid & Hmid & _); [lia|].
    destruct (readUInt8_ok buf 5) as (rs & Hrs & _); [lia|].
    destruct (readUInt8_ok buf 6) as (ut & Hut & _); [lia|].
    destruct (readUInt8_ok buf 7) as (oc & Hoc & Hocr); [lia|].
    destruct (label_loop_ok buf (Z.to_nat oc) 8 []) as (its & Hits & Hlen & Hall); [lia|].
    destruct (readBigUIntBE_ok buf (buf_length buf - 4)) as (msg & Hmsg & _); [lia|].
    unfold V5008Parser.parseLabelState. unfold mbind, exn_bind, JS.bind.
    rewrite Ha, Hmid, Hrs, Hut, Hoc, Hits, Hmsg. simpl app.
    split.
    + split; [intros _; exact Hlong | intros _; eauto].
    + intros pd H. inversion H; subst. exists oc, its.
      repeat split; try reflexivity; try exact Hall.
      rewrite Hlen. rewrite Z2Nat.id by lia.
      replace (buf_length buf - 4 - 8) with (buf_length buf - 12) by lia. reflexivity.
Qed.

(* ===================================================================== *)
(** ** The JSON adapter: the shape of a decoded LABEL_STATE document      *)
(* ===================================================================== *)










(* ===================================================================== *)
(** ** When [normalize] rejects                                           *)
(* ===================================================================== *)

Lemma rfidModules_throws (identity_ : BaseIdentity) (ts_ : option string)
    (blocks : list ModuleBlock) (results : list Event) (cache : Cache) :
  (exists e c, rfidModules identity_ ts_ blocks results cache = (Throw e, c))
  <-> Exists (fun b => b_items b = None) blocks.
Proof.
  revert results cache. induction blocks as [|m blocks IH]; intros results cache; simpl.
  - split; [intros (e & c & H); discriminate | intros H; inversion H].
  - destruct (b_items m) as [its|] eqn:Eits.
    + destruct (StateCache.get cache (bi_deviceId identity_) (b_modAddr m));
        rewrite IH; (split; [intros H; right; exact H|]);
        intros H; inversion H; subst; [congruence | assumption | congruence | assumption].
    + split; [intros _; left; exact Eits|]. intros _.
      destruct (StateCache.get cache (bi_deviceId identity_) (b_modAddr m)); eauto.
Qed.

Lemma rfidModules_error (identity_ : BaseIdentity) (ts_ : option string)
    (blocks : list ModuleBlock) (results : list Event) (cache c : Cache) (e : js_error) :
  rfidModules identity_ ts_ blocks results cache = (Throw e, c) -> e = TypeError.
Proof.
  revert results cache. induction blocks as [|m blocks IH]; intros results cache; simpl.
  - discriminate.
  - destruct (StateCache.get cache (bi_deviceId identity_) (b_modAddr m));
      destruct (b_items m); try (intros H; inversion H; reflexivity); apply IH.
Qed.

Lemma str_is_iff (x : option string) (s : string) :
  str_is x s = true <-> x = Some s.
Proof.
  split; [apply str_is_true|]. intros ->. simpl. apply String.eqb_refl.
Qed.

(** X29. What [normalize] rejects, among the messages whose lists hold
    records. For a message whose [items], [sensors], [modules] and [data],
    where present, are lists of records, as both adapters build them
    (the messages of type [IM]), the promise of [normalize] is rejected
    exactly when an RFID message lacks a list the RFID paths iterate: a
    V5008 "LabelState" message without [items], or a V6800 "LABEL_STATE"
    message without [data] or with a block without [items]. The rejection
    is then a TypeError; every other such message resolves. A list with
    a [null] or non-object element, on which the loops of the source raise
    as well, is not a message of this kind and is not covered. *)
Theorem normalize_rejects_iff (pd : IM) (cache : Cache) :
  ((exists e c, normalize (Some pd) cache = (Throw e, c)) <-> lacks_list pd) /\
  (forall e c, normalize (Some pd) cache = (Throw e, c) -> e = TypeError).
Proof.
  unfold normalize, lacks_list.
  destruct (deviceType pd) as [dt|] eqn:Edt; simpl;
    [|split; [split; [intros (e & c & H); discriminate
                     | intros [(H & _)|(H & _)]; discriminate]
             | intros e c H; discriminate]].
  destruct (String.eqb dt "") eqn:Eempty; simpl.
  { apply String.eqb_eq in Eempty. subst dt.
    split; [split; [intros (e & c & H); discriminate
                   | intros [(H & _)|(H & _)]; discriminate]
           | intros e c H; discriminate]. }
  destruct (String.eqb dt "V5008") eqn:E5.
  - apply String.eqb_eq in E5. subst dt. unfold _processV5008.
    destruct (str_is (messageType pd) "OpeAck") eqn:Eope.
    { apply str_is_true in Eope.
      assert (Hok : exists evs, (if truthy_str (result pd)
                                 then pure (_createResponseObject pd
                                              {| bi_deviceId := deviceId pd;
                                                 bi_deviceType := "V5008" |})
                                 else if bool_decide (is_Some (doorState pd))
                                      then pure (_createDoorStateObject pd
                                                   {| bi_deviceId := deviceId pd;
                                                      bi_deviceType := "V5008" |})
                                      else pure []) cache = (Ok evs, cache)).
      { destruct (truthy_str (result pd)); [eexists; reflexivity|].
        destruct (bool_decide (is_Some (doorState pd))); eexists; reflexivity. }
      destruct Hok as (evs & ->).
      split; [split; [intros (e & c & H); discriminate|] | intros e c H; discriminate].
      intros [(_ & H & _)|(H & _)]; [rewrite Eope in H|]; discriminate. }
    destruct (str_is (messageType pd) "LabelState") eqn:Els.
    { apply str_is_true in Els. unfold _processV5008Rfid.
      destruct (items pd) as [l|] eqn:Eit.
      - split; [split; [intros (e & c & H); discriminate|] | intros e c H; discriminate].
        intros [(_ & _ & H)|(H & _)]; discriminate.
      - split; [split; [intros _; left; auto | intros _; eauto]|].
        intros e c H. inversion H. reflexivity. }
    assert (Hok : exists evs,
      (if str_is (messageType pd) "TemHum"
       then pure (_flattenTelemetry pd {| bi_deviceId := deviceId pd;
                                          bi_deviceType := "V5008" |}
                    "temperature" "humidity")
       else if str_is (messageType pd) "Noise"
            then pure (_flattenNoiseTelemetry pd {| bi_deviceId := deviceId pd;
                                                    bi_deviceType := "V5008" |})
            else if str_is (messageType pd) "HeartBeat"
                    || str_is (messageType pd) "HEARTBEAT"
                 then pure (_processHeartbeat pd {| bi_deviceId := deviceId pd;
                                                    bi_deviceType := "V5008" |})
                 else pure []) cache = (Ok evs, cache)).
    { destruct (str_is (messageType pd) "TemHum"); [eexists; reflexivity|].
      destruct (str_is (messageType pd) "Noise"); [eexists; reflexivity|].
      destruct (str_is (messageType pd) "HeartBeat" || str_is (messageType pd) "HEARTBEAT");
        eexists; reflexivity. }
    destruct Hok as (evs & ->).
    split; [split; [intros (e & c & H); discriminate|] | intros e c H; discriminate].
    intros [(_ & H & _)|(H & _)]; [|discriminate].
    apply str_is_iff in H. congruence.
  - destruct (String.eqb dt "V6800") eqn:E6.
    + apply String.eqb_eq in E6. subst dt. unfold _processV6800.
      destruct (str_is (messageType pd) "LABEL_STATE") eqn:Els.
      { apply str_is_true in Els. unfold _processV6800Rfid.
        destruct (data pd) as [blocks|] eqn:Edata.
        - split.
          + rewrite rfidModules_throws. split.
            * intros H. right. repeat split; auto. right. exists blocks. auto.
            * intros [(H & _)|(_ & _ & [H|(b & Hb & Hex)])]; try discriminate.
              inversion Hb; subst. exact Hex.
          + intros e c H. eapply rfidModules_error. exact H.
        - split; [split; [intros _; right; auto | intros _; eauto]|].
          intros e c H. inversion H. reflexivity. }
      assert (Hok : exists evs,
        (if str_is (messageType pd) "TEM_HUM"
         then pure (_flattenTelemetry pd {| bi_deviceId := deviceId pd;
                                            bi_deviceType := "V6800" |}
                      "temperature" "humidity")
         else if str_is (messageType pd) "DOOR_STATE"
              then pure (_createDoorStateObject pd {| bi_deviceId := deviceId pd;
                                                      bi_deviceType := "V6800" |})
              else if str_is (messageType pd) "INIT"
                   then pure (_splitV6800Init pd {| bi_deviceId := deviceId pd;
                                                    bi_deviceType := "V6800" |})
                   else if str_is (messageType pd) "OPE_ACK"
                        then pure (_createResponseObject pd
                                     {| bi_deviceId := deviceId pd;
                                        bi_deviceType := "V6800" |})
                        else if str_is (messageType pd) "HEARTBEAT"
                             then pure (_processHeartbeat pd
                                          {| bi_deviceId := deviceId pd;
                                             bi_deviceType := "V6800" |})
                             else pure []) cache = (Ok evs, cache)).
      { destruct (str_is (messageType pd) "TEM_HUM"); [eexists; reflexivity|].
        destruct (str_is (messageType pd) "DOOR_STATE"); [eexists; reflexivity|].
        destruct (str_is (messageType pd) "INIT"); [eexists; reflexivity|].
        destruct (str_is (messageType pd) "OPE_ACK"); [eexists; reflexivity|].
        destruct (str_is (messageType pd) "HEARTBEAT"); eexists; reflexivity. }
      destruct Hok as (evs & ->).
      split; [split; [intros (e & c & H); discriminate|] | intros e c H; discriminate].
      intros [(H & _)|(_ & H & _)]; [discriminate|].
      apply str_is_iff in H. congruence.
    + apply String.eqb_neq in E5. apply String.eqb_neq in E6.
      split; [split; [intros (e & c & H); discriminate|] | intros e c H; discriminate].
      intros [(H & _)|(H & _)]; congruence.
Qed.

(* ===================================================================== *)
(** ** The further properties at concrete inputs                          *)
(* ===================================================================== *)

(** Storing a shadow for module 3 leaves the shadow of module 2 alone. *)
Lemma set_leaves_other_keys_witness :
  (show_str (Some "2437871205"), Some 3) <> (show_str (Some "2437871205"), Some 2)
  /\ StateCache.get
       (StateCache.set Examples.storeWith10and13 (Some "2437871205") (Some 3) [])
       (Some "2437871205") (Some 2)
     = StateCache.get Examples.storeWith10and13 (Some "2437871205") (Some 2).
Proof.
  assert (Hne : (show_str (Some "2437871205"), Some 3)
                <> (show_str (Some "2437871205"), Some 2)) by discriminate.
  split; [exact Hne|].
  exact (set_leaves_other_keys Examples.storeWith10and13 (Some "2437871205")
           (Some "2437871205") (Some 3) (Some 2) [] Hne).
Defined.

(** The key of module 2 of device 2437871205 read back. *)
Lemma parseKey_createKey_witness :
  - 2 ^ 53 < 2 < 2 ^ 53
  /\ all_chars not_colon "2437871205" = true
  /\ StateCacheKey._parseKey (_createKey (Some "2437871205") (Some 2))
     = (Some "2437871205", Some 2).
Proof.
  assert (Hr : - 2 ^ 53 < 2 < 2 ^ 53) by lia.
  split; [exact Hr|]. split; [reflexivity|].
  exact (proj1 (parseKey_createKey "2437871205" 2 Hr) eq_refl).
Defined.

(** The LabelState message of the normalizer tests on a shadow holding
    positions 10 and 13. *)
Lemma diff_path_snapshot_mirrors_store_witness :
  exists evs cache' m,
    normalize (Some (Examples.labelStateMsg "t0" Examples.threeTags))
      Examples.storeWith10and13 = (Ok evs, cache')
    /\ StateCache.get cache' (Some "2437871205") (Some 2) = Some m
    /\ lastSnapshot evs = Some (snapshotItems m)
    /\ countType SYS_RFID_SNAPSHOT evs = 1%nat.
Proof.
  destruct (diff_path_snapshot_mirrors_store Examples.storeWith10and13
              (Examples.labelStateMsg "t0" Examples.threeTags) Examples.threeTags
              eq_refl eq_refl eq_refl)
    as (evs & cache' & m & H1 & H2 & H3 & H4 & _).
  exists evs, cache', m. auto.
Defined.

(** The same message on an empty store: three tags attached. *)
Lemma diff_path_first_contact_witness :
  default JSMap.empty (StateCache.get ∅ (Some "2437871205") (Some 2)) = JSMap.empty
  /\ exists evs cache',
       normalize (Some (Examples.labelStateMsg "t0" Examples.threeTags)) ∅
       = (Ok evs, cache')
       /\ changes evs
          = [(JVal "attached", 10); (JVal "attached", 11); (JVal "attached", 12)].
Proof.
  assert (Hprev : default JSMap.empty
                    (StateCache.get ∅ (deviceId (Examples.labelStateMsg "t0" Examples.threeTags))
                       (modAddr (Examples.labelStateMsg "t0" Examples.threeTags)))
                  = JSMap.empty) by reflexivity.
  split; [reflexivity|].
  pose proof (diff_path_first_contact ∅ (Examples.labelStateMsg "t0" Examples.threeTags)
                Examples.threeTags eq_refl eq_refl eq_refl Hprev) as H.
  eexists _, _. split; [exact H | reflexivity].
Defined.

(** An empty tag list on a shadow holding positions 10 and 13. *)
Lemma diff_path_empty_list_witness :
  exists evs cache',
    normalize (Some (Examples.labelStateMsg "t0" [])) Examples.storeWith10and13
    = (Ok evs, cache')
    /\ changes evs = [(JVal "detached", 10); (JVal "detached", 13)]
    /\ StateCache.get cache' (Some "2437871205") (Some 2) = Some JSMap.empty
    /\ StateCache.has cache' (Some "2437871205") (Some 2) = true.
Proof.
  destruct (diff_path_empty_list Examples.storeWith10and13
              (Examples.labelStateMsg "t0" []) eq_refl eq_refl eq_refl)
    as (cache' & H1 & H2 & H3).
  eexists _, cache'. split; [exact H1|]. split; [reflexivity|]. auto.
Defined.

(** Other tags at the positions 10 and 13 the shadow holds: one event,
    the snapshot. *)
Lemma diff_path_blind_to_replacement_witness :
  (forall u,
      In u (JSMap.keys
              (default JSMap.empty
                 (StateCache.get Examples.storeWith10and13 (Some "2437871205") (Some 2))))
      <-> In u (positions Scenarios.replacedTags))
  /\ exists snapshot cache',
       normalize (Some (Examples.labelStateMsg "t0" Scenarios.replacedTags))
         Examples.storeWith10and13 = (Ok [snapshot], cache')
       /\ type snapshot = SYS_RFID_SNAPSHOT.
Proof.
  assert (Hsame : forall u,
      In u (JSMap.keys
              (default JSMap.empty
                 (StateCache.get Examples.storeWith10and13
                    (deviceId (Examples.labelStateMsg "t0" Scenarios.replacedTags))
                    (modAddr (Examples.labelStateMsg "t0" Scenarios.replacedTags)))))
      <-> In u (positions Scenarios.replacedTags)).
  { intros u. vm_compute. tauto. }
  split; [exact Hsame|].
  pose proof (diff_path_blind_to_replacement Examples.storeWith10and13
                (Examples.labelStateMsg "t0" Scenarios.replacedTags)
                Scenarios.replacedTags eq_refl eq_refl eq_refl Hsame) as H.
  eexists _, _. split; [exact H | reflexivity].
Defined.

(** Detaching position 3 from a shadow holding 3 and 5: one pass-through
    event and a snapshot of position 5. *)
Lemma patch_path_cache_hit_witness :
  StateCache.get Scenarios.storeWith3and5 (Some "2123456789") (Some 2)
  = Some Scenarios.shadow3and5
  /\ exists evs cache',
       normalize (Some Scenarios.detachMsg) Scenarios.storeWith3and5 = (Ok evs, cache')
       /\ evs = [{| identity := {| id_deviceId := Some "2123456789";
                                   id_deviceType := "V6800";
                                   id_modAddr := Some 2; id_sensorAddr := 3 |};
                    type := SYS_RFID_EVENT;
                    ev_ts := Some "t1";
                    payload := {| key := "rfid_event";
                                  value := VRfid (JVal "detached") (JVal "DD23B0B4") 3 0;
                                  raw := RawNone |} |};
                 {| identity := {| id_deviceId := Some "2123456789";
                                   id_deviceType := "V6800";
                                   id_modAddr := Some 2; id_sensorAddr := 0 |};
                    type := SYS_RFID_SNAPSHOT;
                    ev_ts := Some "t1";
                    payload :=
                      {| key := "rfid_snapshot";
                         value := VSnapshot (Some "3963041727")
                                    [{| s_uPos := 5; s_tagId := JVal "DD395064";
                                        s_alarmStatus := 0 |}];
                         raw := RawNone |} |}]
       /\ countType SYS_RFID_EVENT evs = 1%nat
       /\ countType SYS_RFID_SNAPSHOT evs = 1%nat
       /\ countType SYS_REQUIRE_SYNC evs = 0%nat
       /\ lastSnapshot evs
          = Some [{| s_uPos := 5; s_tagId := JVal "DD395064"; s_alarmStatus := 0 |}].
Proof.
  assert (Hhit : StateCache.get Scenarios.storeWith3and5
                   (deviceId Scenarios.detachMsg) (b_modAddr Scenarios.detachBlock)
                 = Some Scenarios.shadow3and5) by reflexivity.
  split; [reflexivity|].
  destruct (patch_path_cache_hit Scenarios.storeWith3and5 Scenarios.detachMsg
              Scenarios.detachBlock Scenarios.detachItems Scenarios.shadow3and5
              eq_refl eq_refl eq_refl eq_refl Hhit)
    as (evs & cache' & H1 & _ & Hevs & H3 & H4 & H5 & _ & H7).
  exists evs, cache'. split; [exact H1|]. split; [exact Hevs|].
  repeat split; assumption.
Defined.

(** Detaching position 3 removes it and leaves position 5. *)
Lemma patch_effect_per_position_witness :
  JSMap.wf Scenarios.shadow3and5
  /\ JSMap.get 3 (fold_left patchItem Scenarios.detachItems Scenarios.shadow3and5) = None
  /\ JSMap.get 5 (fold_left patchItem Scenarios.detachItems Scenarios.shadow3and5)
     = Some {| td_tagId := JVal "DD395064"; td_alarmStatus := 0 |}.
Proof.
  assert (Hwf : JSMap.wf Scenarios.shadow3and5).
  { unfold JSMap.wf. simpl. repeat constructor; simpl; intuition discriminate. }
  split; [exact Hwf|]. split.
  - rewrite (patch_effect_per_position 3 Scenarios.detachItems Scenarios.shadow3and5 Hwf).
    reflexivity.
  - rewrite (patch_effect_per_position 5 Scenarios.detachItems Scenarios.shadow3and5 Hwf).
    reflexivity.
Defined.

(** Detaching position 3 twice. *)
Lemma patch_replay_same_content_witness :
  JSMap.wf Scenarios.shadow3and5
  /\ JSMap.get 3
       (fold_left patchItem Scenarios.detachItems
          (fold_left patchItem Scenarios.detachItems Scenarios.shadow3and5))
     = JSMap.get 3 (fold_left patchItem Scenarios.detachItems Scenarios.shadow3and5).
Proof.
  assert (Hwf : JSMap.wf Scenarios.shadow3and5).
  { unfold JSMap.wf. simpl. repeat constructor; simpl; intuition discriminate. }
  split; [exact Hwf|].
  exact (patch_replay_same_content 3 Scenarios.detachItems Scenarios.shadow3and5 Hwf).
Defined.

(** A message carrying the attach block and the detach block. *)
Lemma patch_path_composes_witness :
  exists evs cache',
    normalize (Some (set_data ([Examples.attachBlock] ++ [Scenarios.detachBlock])
                       Scenarios.patchEnvelope))
      Scenarios.storeWith3and5 = (Ok evs, cache')
    /\ length evs = 4%nat.
Proof.
  pose proof (patch_path_composes Scenarios.storeWith3and5 Scenarios.patchEnvelope
                [Examples.attachBlock] [Scenarios.detachBlock] eq_refl eq_refl) as H.
  vm_compute in H.
  eexists _, _. split; [exact H | reflexivity].
Defined.

(** The detach block followed by a block without items: the message is
    rejected, and position 3 is gone from the store. *)
Lemma patch_path_rejection_keeps_writes_witness :
  exists cache',
    normalize (Some (set_data ([Scenarios.detachBlock] ++ [Scenarios.brokenBlock])
                       Scenarios.patchEnvelope))
      Scenarios.storeWith3and5 = (Throw TypeError, cache')
    /\ StateCache.get cache' (Some "2123456789") (Some 2)
       = Some [(5, {| td_tagId := JVal "DD395064"; td_alarmStatus := 0 |})].
Proof.
  set (identity_ := {| bi_deviceId := Some "2123456789"; bi_deviceType := "V6800" |}).
  set (shadow := fold_left patchItem Scenarios.detachItems Scenarios.shadow3and5).
  assert (Hgood :
    normalize (Some (set_data [Scenarios.detachBlock] Scenarios.patchEnvelope))
      Scenarios.storeWith3and5
    = (Ok (map (passThrough identity_ (Some 2) (Some "t1")) Scenarios.detachItems
           ++ [snapshotEvent identity_ (Some 2) (Some "t1") (Some "3963041727") shadow]),
       StateCache.set Scenarios.storeWith3and5 (Some "2123456789") (Some 2) shadow))
    by reflexivity.
  eexists. split.
  - exact (patch_path_rejection_keeps_writes Scenarios.storeWith3and5 _
             Scenarios.patchEnvelope [Scenarios.detachBlock] [] Scenarios.brokenBlock _
             eq_refl eq_refl eq_refl Hgood).
  - rewrite get_set_same. reflexivity.
Defined.

(** The LabelState frame of the parser tests leaves the store alone. *)
Lemma adapter_frames_never_reach_store_witness :
  exists pd evs,
    V5008Parser.parse "V5008Upload/2437871205/LabelState" Examples.labelStateFrame "t0"
    = Some pd
    /\ normalize (Some pd) Examples.storeWith10and13 = (Ok evs, Examples.storeWith10and13).
Proof.
  destruct (V5008Parser.parse "V5008Upload/2437871205/LabelState"
              Examples.labelStateFrame "t0") as [pd|] eqn:E;
    [|vm_compute in E; discriminate].
  destruct (adapter_frames_never_reach_store _ _ _ pd Examples.storeWith10and13 E)
    as (_ & evs & Hn & _).
  exists pd, evs. split; [reflexivity | exact Hn].
Defined.

(** The heartbeat frame of the parser tests. *)
Lemma heartbeat_power_is_fixed_witness :
  readUInt8 Examples.heartbeatFrame 0 = Ok 0xCC
  /\ exists pd evs,
       V5008Parser.parse "V5008Upload/2437871205/OpeAck" Examples.heartbeatFrame "t0"
       = Some pd
       /\ normalize (Some pd) ∅ = (Ok evs, ∅)
       /\ map (fun e => (key (payload e), value (payload e))) evs
          = [("voltage", VScalar (JVal (25 # 2)%Q));
             ("current", VScalar (JVal (4 # 5)%Q));
             ("device_status", VText "online")].
Proof.
  split; [reflexivity|].
  destruct (V5008Parser.parse "V5008Upload/2437871205/OpeAck"
              Examples.heartbeatFrame "t0") as [pd|] eqn:E;
    [|vm_compute in E; discriminate].
  pose proof (heartbeat_power_is_fixed "V5008Upload/2437871205/OpeAck"
                Examples.heartbeatFrame "t0" pd 0xCC ∅ eq_refl (or_introl eq_refl) E) as H.
  cbv zeta in H.
  exists pd. eexists. split; [reflexivity|]. split; [exact H | reflexivity].
Defined.

Lemma heartbeat_decoding_witness :
  readUInt8 Examples.heartbeatFrame 0 = Ok 0xCC
  /\ 4 <= buf_length Examples.heartbeatFrame
  /\ is_Some (V5008Parser.parse "V5008Upload/2437871205/OpeAck"
                Examples.heartbeatFrame "t0").
Proof.
  split; [reflexivity|].
  assert (Hlen : 4 <= buf_length Examples.heartbeatFrame) by (vm_compute; discriminate).
  split; [exact Hlen|].
  exact (proj2 (proj1 (heartbeat_decoding "V5008Upload/2437871205/OpeAck"
                         Examples.heartbeatFrame "t0" 0xCC eq_refl (or_introl eq_refl)))
           Hlen).
Defined.

(** The first reading of the TemHum frame of the parser tests, from the
    bytes 0x1C and 0x30: a number from 28 up to, and not reaching, 31. *)
Lemma parseSignedDecimal_reading_witness :
  0 <= 6
  /\ exists q,
       V5008Parser.parseSignedDecimal Examples.temHumFrame 6 = Ok (Some q)
       /\ ~ (q == 0)%Q
       /\ (inject_Z 28 <= q)%Q /\ (q < inject_Z 28 + 3)%Q.
Proof.
  assert (H0 : 0 <= 6) by lia.
  split; [exact H0|].
  destruct (proj1 (proj2 (parseSignedDecimal_reading Examples.temHumFrame 6 H0))
              28 48 eq_refl eq_refl) as (r & Hr & Hnone & Hq).
  destruct r as [q|]; [|destruct (proj1 Hnone eq_refl); discriminate].
  destruct (Hq q eq_refl) as (Hnz & Hpos & _).
  exists q. split; [exact Hr|]. split; [exact Hnz|]. apply Hpos. lia.
Defined.

(** A noise frame with readings in two of its three slots. *)
Lemma noise_frames_normalized_witness :
  exists pd evs,
    V5008Parser.parse "V5008Upload/2437871205/Noise" Scenarios.noiseFrame "t0" = Some pd
    /\ messageType pd = Some "Noise"
    /\ normalize (Some pd) ∅ = (Ok evs, ∅)
    /\ length evs = 2%nat.
Proof.
  destruct (V5008Parser.parse "V5008Upload/2437871205/Noise" Scenarios.noiseFrame "t0")
    as [pd|] eqn:E; [|vm_compute in E; discriminate].
  assert (Hmt : messageType pd = Some "Noise")
    by (vm_compute in E; inversion E; reflexivity).
  destruct (noise_frames_normalized _ _ _ pd ∅ E Hmt) as (evs & Hn & _ & _).
  exists pd, evs. split; [reflexivity|]. split; [exact Hmt|]. split; [exact Hn|].
  vm_compute in E. inversion E; subst pd. vm_compute in Hn. inversion Hn. reflexivity.
Defined.

(** The result of a cache miss: the RFID event is written, the request
    for a resync is not. *)
Lemma saveBatch_row_count_witness :
  Forall well_shaped Scenarios.missResult
  /\ exists ops,
       StorageService.saveBatch true Scenarios.missResult = (ops, None)
       /\ rowsWritten ops = 1%nat.
Proof.
  assert (Hws : Forall well_shaped Scenarios.missResult).
  { repeat constructor; unfold well_shaped; simpl; eauto 10. }
  split; [exact Hws|].
  destruct (saveBatch_row_count Scenarios.missResult Hws) as (_ & ops & Hops & Hn).
  exists ops. split; [exact Hops|].
  change (countType SYS_REQUIRE_SYNC Scenarios.missResult) with 1%nat in Hn.
  change (length Scenarios.missResult) with 2%nat in Hn. lia.
Defined.

Lemma normalize_well_shaped_witness :
  exists evs cache',
    normalize (Some Examples.attachMsg) ∅ = (Ok evs, cache')
    /\ Forall well_shaped evs.
Proof.
  destruct (normalize (Some Examples.attachMsg) ∅) as [[evs|e] cache'] eqn:E;
    [|vm_compute in E; discriminate].
  exists evs, cache'. split; [reflexivity|].
  exact (normalize_well_shaped (Some Examples.attachMsg) ∅ cache' evs E).
Defined.

(** The result of a cache miss on a database that rejects RFID inserts,
    and on one that accepts every operation. *)
Lemma normalized_data_is_saved_witness :
  normalize (Some Examples.attachMsg) ∅ = (Ok Scenarios.missResult, ∅)
  /\ (exists rows,
        StorageService.saveBatchOn Scenarios.rejectsRfid true Scenarios.missResult
        = ([], Some (StorageService.Rejected (StorageService.InsertRfidEvents rows))))
  /\ exists ops,
       StorageService.saveBatchOn (fun _ => true) true Scenarios.missResult = (ops, None)
       /\ rowsWritten ops = 1%nat.
Proof.
  assert (Hn : normalize (Some Examples.attachMsg) ∅ = (Ok Scenarios.missResult, ∅))
    by reflexivity.
  split; [exact Hn|]. split; [eexists; reflexivity|].
  destruct (proj2 (proj2 (normalized_data_is_saved (fun _ => true)
                            (Some Examples.attachMsg) ∅ ∅ Scenarios.missResult Hn))
              (fun _ => eq_refl))
    as (ops & Hops & Hrows & _).
  exists ops. split; [exact Hops|].
  change (countType SYS_REQUIRE_SYNC Scenarios.missResult) with 1%nat in Hrows.
  change (length Scenarios.missResult) with 2%nat in Hrows. lia.
Defined.

(** The LabelState frame of the parser tests, arriving on its topic. *)
Lemma v5008_topics_write_no_rfid_witness :
  JSText.includes "V5008" "V5008Upload/2437871205/LabelState" = true
  /\ snd (App.pipeline (fun _ _ => None) true "V5008Upload/2437871205/LabelState"
            Examples.labelStateFrame "t0" Examples.storeWith10and13)
     = Examples.storeWith10and13.
Proof.
  split; [reflexivity|].
  exact (proj1 (v5008_topics_write_no_rfid (fun _ _ => None) true
                  "V5008Upload/2437871205/LabelState" Examples.labelStateFrame "t0"
                  Examples.storeWith10and13 eq_refl)).
Defined.

(** A registry holding the two parser classes. *)
Lemma registry_first_match_witness :
  registerAll Scenarios.sampleCanHandle Scenarios.sampleClasses
  = Some Scenarios.sampleClasses
  /\ ParserRegistry.getParserCount string Scenarios.sampleClasses = 2%nat
  /\ ParserRegistry.getParser string Scenarios.sampleCanHandle Scenarios.sampleClasses
       (Some "") = Ok None.
Proof.
  split; [reflexivity|].
  destruct (registry_first_match Scenarios.sampleCanHandle Scenarios.sampleClasses
              Scenarios.sampleClasses "V6800Upload/2123456789/LabelState" eq_refl)
    as (_ & Hcount & _ & Hempty & _).
  split; [exact Hcount | exact Hempty].
Defined.

(** Reads at the edges of the door-state frame of the parser tests, which
    has eleven bytes. *)
Lemma readBigUIntBE_edges_witness :
  V5008Parser.readBigUIntBE Examples.doorFrame 8 4 = Ok 0
  /\ V5008Parser.readBigUIntBE Examples.doorFrame (-1) 4 = Throw RangeError.
Proof.
  destruct (readBigUIntBE_edges Examples.doorFrame 8) as (H1 & _ & _).
  destruct (readBigUIntBE_edges Examples.doorFrame (-1)) as (_ & H2 & _).
  split.
  - apply H1. vm_compute. reflexivity.
  - apply H2; [lia | vm_compute; discriminate].
Defined.


(** A device-information response arriving on the "OpeAck" topic. *)
Lemma parse_unknown_type_is_dropped_witness :
  (forall h, readUInt8 Scenarios.deviceInfoFrame 0 = Ok h ->
             ~ In h [0xCC; 0xCB; 0xBB; 0xBA; 0xAA])
  /\ V5008Parser.parse "V5008Upload/2437871205/OpeAck" Scenarios.deviceInfoFrame "t0"
     = None.
Proof.
  assert (Hh : forall h, readUInt8 Scenarios.deviceInfoFrame 0 = Ok h ->
                         ~ In h [0xCC; 0xCB; 0xBB; 0xBA; 0xAA]).
  { intros h H. vm_compute in H. inversion H; subst. simpl. intuition discriminate. }
  split; [exact Hh|].
  apply (parse_unknown_type_is_dropped "V5008Upload/2437871205/OpeAck"
           Scenarios.deviceInfoFrame "t0" Hh).
  simpl. intuition discriminate.
Defined.
